(** * go-capi: the Cloud Controller client of [client.go]

    A shallow embedding of the client ([NewClient], [Processes],
    [ProcessStats], [GetAppGuid], [GetDropletGuid], [CreateTask], [GetTask],
    [RunTask], [ListTasks], [GetPackageGuid], [GetEnvironmentVariables]) and
    the properties of its pagination loops, its task poller and its link
    rewriting.

    Go strings are byte strings: [string].  Go maps are [gmap]s.  A Go
    function returning [(T, error)] returns a [result T].  The transport
    ([Doer]) and the clock are the only effects; they are threaded through an
    explicit world state. *)

From Stdlib Require Import Ascii ZArith.
From stdpp Require Import gmap strings list fin_maps pretty sorting.
From Stdlib Require Floats.SpecFloat.

Local Open Scope Z_scope.
Set Warnings "-register-all".

(* String concatenation computes under [simpl] throughout this file. *)
#[local] Arguments String.append !_ _ / : simpl nomatch.

(** ** The [strings] package, as far as the client calls it *)

Module strings.

(** [strings.CutPrefix]: [s] without the leading [prefix], when it has it. *)
Fixpoint CutPrefix (s prefix : string) {struct prefix} : option string :=
  match prefix, s with
  | EmptyString, _ => Some s
  | String p prefix', String c s' =>
      if Ascii.eqb p c then CutPrefix s' prefix' else None
  | String _ _, EmptyString => None
  end.

(** [strings.HasPrefix]. *)
Definition HasPrefix (s prefix : string) : bool :=
  match CutPrefix s prefix with Some _ => true | None => false end.

(** [strings.Cut]: the text before and after the leftmost occurrence of
    [sep] in [s]. *)
Fixpoint Cut (s sep : string) : option (string * string) :=
  match CutPrefix s sep with
  | Some after => Some (EmptyString, after)
  | None =>
      match s with
      | EmptyString => None
      | String c s' =>
          match Cut s' sep with
          | Some (before, after) => Some (String c before, after)
          | None => None
          end
      end
  end.

(** [strings.Contains]. *)
Definition Contains (s substr : string) : bool :=
  match Cut s substr with Some _ => true | None => false end.

(** [strings.Replace s old new n] for a non-empty [old] and [n >= 0], the
    only way the client calls it: the first [n] non-overlapping occurrences
    of [old], from the left, are replaced by [new]. *)
Fixpoint Replace (s old new : string) (n : nat) : string :=
  match n with
  | O => s
  | S n' =>
      match Cut s old with
      | None => s
      | Some (before, after) => before +:+ new +:+ Replace after old new n'
      end
  end.

(** [s[i:]]. *)
Fixpoint from (i : nat) (s : string) : string :=
  match i, s with
  | O, _ => s
  | S i', String _ s' => from i' s'
  | S _, EmptyString => EmptyString
  end.

End strings.

(** ** Errors and results *)

(** A Go [error].  The client itself only makes errors with [errors.New] and
    [fmt.Errorf], which are their message; the others come from the packages
    and the transport it calls. *)
Inductive error : Type :=
  | errors_New (text : string)
  | url_Error (text : string)
  | json_Error (text : string)
  | doer_Error (text : string)
  | io_Error (text : string)
  | context_Canceled.

#[global] Instance error_eq_dec : EqDecision error.
Proof. solve_decision. Defined.

(** What a Go function of type [(T, error)] returns: on [err != nil] the
    value is the zero value and carries nothing. *)
Inductive result (A : Type) : Type :=
  | Ok (a : A)
  | Err (e : error).
Arguments Ok {A} a.
Arguments Err {A} e.

(** [fmt.Errorf(prefix + " %d: %s", code, data)]. *)
Definition fmt_Errorf_status (prefix : string) (code : Z) (data : string) : error :=
  errors_New (prefix +:+ " " +:+ pretty code +:+ ": " +:+ data).

(** ** [time], [context], [net/url], [net/http]: the data the client handles *)

Module time.
(** An instant and a duration, both in nanoseconds. *)
Definition Time : Type := Z.
Definition Duration : Type := Z.
End time.

Module context.
(** A context is characterised by the instant at which its [Done] channel
    closes, if ever. *)
Record Context : Type := { cancelAt : option time.Time }.
Definition Background : Context := {| cancelAt := None |}.
Definition WithCancelAt (t : time.Time) : Context := {| cancelAt := Some t |}.
(** [ctx.Err()] read at instant [now]. *)
Definition Err (ctx : Context) (now : time.Time) : option error :=
  match cancelAt ctx with
  | Some t => if decide (t ≤ now) then Some context_Canceled else None
  | None => None
  end.
End context.

Module url.
Record URL : Type := {
  Scheme : string;
  Opaque : string;
  User : string;
  Host : string;
  Path : string;
  RawPath : string;
  RawQuery : string;
  Fragment : string;
}.

(** [u.Path = p]. *)
Definition with_Path (u : URL) (p : string) : URL :=
  {| Scheme := Scheme u; Opaque := Opaque u; User := User u; Host := Host u;
     Path := p; RawPath := RawPath u; RawQuery := RawQuery u;
     Fragment := Fragment u |}.

(** [u.RawQuery = q]. *)
Definition with_RawQuery (u : URL) (q : string) : URL :=
  {| Scheme := Scheme u; Opaque := Opaque u; User := User u; Host := Host u;
     Path := Path u; RawPath := RawPath u; RawQuery := q;
     Fragment := Fragment u |}.

(** [url.Values], a [map[string][]string]. *)
Abbreviation Values := (gmap string (list string)).

(** [v.Add(key, value)]: [v[key] = append(v[key], value)]. *)
Definition Add (v : Values) (key value : string) : Values :=
  <[key := (v !!! key) ++ [value]]> v.
End url.

Module http.
(** [http.Header], a [map[string][]string]. *)
Abbreviation Header := (gmap string (list string)).

Module Request.
(** The fields of [http.Request] the client sets; [Body] is [None] for a
    nil body; [ctx] is what [req.WithContext] binds. *)
Record t : Type := {
  Method : string;
  URL : url.URL;
  Header : http.Header;
  Body : option string;
  ctx : context.Context;
}.
End Request.

Module Response.
(** The fields of [http.Response] the client reads; [Body] is the whole
    text the body stream yields. *)
Record t : Type := {
  StatusCode : Z;
  Body : string;
}.
End Response.
End http.

(** ** The resources of [client.go] *)

Module HealthCheck.
Record t : Type := {
  Type_ : string;
  Data_Timeout : Z;
  Data_InvocationTimeout : Z;
  Data_Endpoint : string;
}.
End HealthCheck.

Module Links.
Record t : Type := {
  Href : string;
  Method : string;
}.
End Links.

Module Process.
Record t : Type := {
  Type_ : string;
  Command : string;
  Instances : Z;
  MemoryInMB : Z;
  DiskInMB : Z;
  HealthCheck : HealthCheck.t;
  Guid : string;
  CreatedAt : time.Time;
  UpdatedAt : time.Time;
  Links : gmap string Links.t;
}.
End Process.

Module ProcessStats.
Record t : Type := {
  Type_ : string;
  Index : Z;
  State : string;
  Usage_Time : time.Time;
  Usage_CPU : SpecFloat.spec_float;
  Usage_Mem : SpecFloat.spec_float;
  Usage_Disk : Z;
  Host : string;
  Uptime : Z;
  MemQuota : Z;
  DiskQuota : Z;
  FdsQuota : Z;
}.
End ProcessStats.

Module Task.
Record t : Type := {
  SequenceID : Z;
  Name : string;
  Command : string;
  DiskInMB : Z;
  MemoryInMB : Z;
  State : string;
  DropletGuid : string;
  Guid : string;
  CreatedAt : time.Time;
  UpdatedAt : time.Time;
  Links : gmap string Links.t;
}.

(** [task.Links = links]. *)
Definition with_Links (task : t) (links : gmap string Links.t) : t :=
  {| SequenceID := SequenceID task; Name := Name task;
     Command := Command task; DiskInMB := DiskInMB task;
     MemoryInMB := MemoryInMB task; State := State task;
     DropletGuid := DropletGuid task; Guid := Guid task;
     CreatedAt := CreatedAt task; UpdatedAt := UpdatedAt task;
     Links := links |}.
End Task.

(** ** The anonymous structs the responses are decoded into *)

(** [struct { Pagination struct { Next struct { Href string } };
    Resources []T }], in [Processes], [ProcessStats] and [ListTasks]. *)
Module Page.
Record t (T : Type) : Type := {
  Pagination_Next_Href : string;
  Resources : list T;
}.
Arguments Pagination_Next_Href {T} _.
Arguments Resources {T} _.
Arguments Build_t {T} _ _.
End Page.

(** [struct { Resources []struct { MetaData struct { Guid string } } }], in
    [GetAppGuid]; an element is its [MetaData.Guid]. *)
Module AppsResult.
Record t : Type := { Resources_MetaData_Guid : list string }.
End AppsResult.

(** [struct { Guid string }], in [GetDropletGuid]. *)
Module DropletResult.
Record t : Type := { Guid : string }.
End DropletResult.

(** [struct { State string; Links struct { Self struct { Href string } } }],
    in [CreateTask]. *)
Module TaskStatus.
Record t : Type := { State : string; Links_Self_Href : string }.
End TaskStatus.

(** [struct { Links struct { Package struct { Href string } } }], the first
    decode of [GetPackageGuid]. *)
Module DropletLinks.
Record t : Type := { Links_Package_Href : string }.
End DropletLinks.

(** [struct { Guid string; Links struct { Download struct { Href string } } }],
    the second decode of [GetPackageGuid]. *)
Module PackageResult.
Record t : Type := { Guid : string; Links_Download_Href : string }.
End PackageResult.

(** [struct { Var map[string]string }], in [GetEnvironmentVariables]; a nil
    map and an empty map are both [∅]. *)
Module EnvResult.
Record t : Type := { Var : gmap string string }.
End EnvResult.

(** The body of the POST of [CreateTask]. *)
Module CreateTaskBody.
Record t : Type := { Command : string; DropletGuid : string }.
End CreateTaskBody.

(** The body of the POST of [RunTask]. *)
Module RunTaskBody.
Record t : Type := { Command : string; Name : string; DropletGuid : string }.
End RunTaskBody.

(** ** The packages and the transport the client calls *)

(** [net/url]: [url.Parse], [u.Query()] and [v.Encode()]. *)
Class NetURL : Type := {
  url_Parse : string → result url.URL;
  URL_Query : url.URL → url.Values;
  Values_Encode : url.Values → string;
}.

(** [encoding/json]: [json.NewDecoder(body).Decode(&v)] for a zero [v] of
    type [T], and [json.Marshal(v)]. *)
Class Decoder (T : Type) : Type := json_Decode : string → result T.
Class Marshaler (T : Type) : Type := json_Marshal : T → result string.

(** [io/ioutil]: [data, err := ioutil.ReadAll(resp.Body)], for the body of
    a response: the data read, or the error of the read where the body
    cannot be read to its end.  It is called where the client returns that
    error; where the client drops it ([data, _ := ...]) the data is the text
    of the body. *)
Class Reader : Type := ioutil_ReadAll : string → result string.

(** [time.Sleep] and the instant it is, in a world [W]. *)
Class Clock (W : Type) : Type := {
  time_Sleep : time.Duration → W → W;
  time_Now : W → time.Time;
}.

(** The [Doer] interface: [Do] is handed a request and answers with a
    response or an error, in a world [W] that it may change. *)
Definition Doer (W : Type) : Type :=
  http.Request.t → W → result http.Response.t * W.

Module Client.
Record t (W : Type) : Type := {
  addr : string;
  appGuid : string;
  spaceGuid : string;
  doer : Doer W;
}.
Arguments addr {W} _.
Arguments appGuid {W} _.
Arguments spaceGuid {W} _.
Arguments doer {W} _.
Arguments Build_t {W} _ _ _ _.
End Client.

Definition NewClient {W} (addr appGuid spaceGuid : string) (d : Doer W) : Client.t W :=
  (* Replace HTTPS with HTTP so the HTTP_PROXY can do the work for us *)
  let addr := strings.Replace addr "https" "http" 1 in
  {| Client.doer := d; Client.addr := addr; Client.appGuid := appGuid;
     Client.spaceGuid := spaceGuid |}.

(** ** Computations of the client

    A method of the client runs in a world [W], returns a result and the
    world it leaves; [None] is a [for] loop that has not returned within the
    iterations it was given. *)

Definition go (W A : Type) : Type := W → option (result A * W).

Section Go.
Context {W : Type}.

Definition ret {A} (a : A) : go W A := λ w, Some (Ok a, w).

(** [return zero, e]. *)
Definition fail {A} (e : error) : go W A := λ w, Some (Err e, w).

(** A call that has no effect; its error, if any, is returned. *)
Definition lift {A} (r : result A) : go W A := λ w, Some (r, w).

(** [x, err := m; if err != nil { return zero, err }; k x]. *)
Definition bind {A B} (m : go W A) (k : A → go W B) : go W B :=
  λ w, match m w with
       | None => None
       | Some (Ok a, w') => k a w'
       | Some (Err e, w') => Some (Err e, w')
       end.

(** [c.doer.Do(req)]. *)
Definition Do (c : Client.t W) (req : http.Request.t) : go W http.Response.t :=
  λ w, Some (Client.doer c req w).

(** [time.Sleep(d)]. *)
Definition Sleep `{!Clock W} (d : time.Duration) : go W unit :=
  λ w, Some (Ok tt, time_Sleep d w).

(** No iteration left. *)
Definition out_of_fuel {A} : go W A := λ _, None.
End Go.

Notation "x <~ m ;; k" := (bind m (λ x, k))
  (at level 100, m at next level, right associativity,
   format "'[v' x  <~  m  ;;  '/' k ']'").

(** [&http.Request{URL: u, Method: "GET", Body: body, Header: h}].WithContext(ctx),
    [body] being [None] where the client sets no body. *)
Definition GET (u : url.URL) (h : http.Header) (body : option string)
    (ctx : context.Context) : http.Request.t :=
  {| http.Request.Method := "GET"; http.Request.URL := u;
     http.Request.Header := h; http.Request.Body := body;
     http.Request.ctx := ctx |}.

(** [&http.Request{URL: u, Method: "POST", Body: body,
    Header: {"Content-Type": ["application/json"]}}].WithContext(ctx). *)
Definition POST (u : url.URL) (body : string) (ctx : context.Context) : http.Request.t :=
  {| http.Request.Method := "POST"; http.Request.URL := u;
     http.Request.Header := {[ "Content-Type" := ["application/json"] ]};
     http.Request.Body := Some body;
     http.Request.ctx := ctx |}.

Definition Accept_json : http.Header := {[ "Accept" := ["application/json"] ]}.

(** The link rewriting of [GetTask] and [RunTask]:
    [l.Href = strings.Replace(l.Href, "https", "http", 1);
     if l.Method == "" { l.Method = "GET" }]. *)
Definition http_link (l : Links.t) : Links.t :=
  let href := strings.Replace (Links.Href l) "https" "http" 1 in
  let method := if decide (Links.Method l = "") then "GET" else Links.Method l in
  {| Links.Href := href; Links.Method := method |}.

Section ClientMethods.
Context {W : Type} `{!Clock W} `{!NetURL} `{reader : !Reader}.
Context `{!Decoder (Page.t Process.t)} `{!Decoder (Page.t ProcessStats.t)}
        `{!Decoder (Page.t Task.t)} `{!Decoder Task.t}
        `{!Decoder AppsResult.t} `{!Decoder DropletResult.t}
        `{!Decoder TaskStatus.t} `{!Decoder DropletLinks.t}
        `{!Decoder PackageResult.t} `{!Decoder EnvResult.t}
        `{!Marshaler CreateTaskBody.t} `{!Marshaler RunTaskBody.t}.

Implicit Types (c : Client.t W) (ctx : context.Context).

(** The loop of [Processes], from the iteration that fetches [addr] with
    [processes] accumulated so far. *)
Fixpoint Processes_loop (fuel : nat) c ctx (appGuid addr : string)
    (processes : list Process.t) : go W (list Process.t) :=
  match fuel with
  | O => out_of_fuel
  | S fuel =>
      u <~ lift (url_Parse addr);;
      let u := url.with_Path u ("/v3/apps/" +:+ appGuid +:+ "/processes") in
      resp <~ Do c (GET u ∅ None ctx);;
      if decide (http.Response.StatusCode resp ≠ 200) then
        fail (fmt_Errorf_status "unexpected status code"
                (http.Response.StatusCode resp) (http.Response.Body resp))
      else
        results <~ lift (json_Decode (http.Response.Body resp));;
        (* Replace HTTPS with HTTP so the HTTP_PROXY can do the work for us *)
        let next := strings.Replace (Page.Pagination_Next_Href results) "https" "http" 1 in
        let processes := processes ++ Page.Resources results in
        if decide (next ≠ "") then
          Processes_loop fuel c ctx appGuid next processes
        else ret processes
  end.

Definition Processes (fuel : nat) c ctx (appGuid : string) : go W (list Process.t) :=
  Processes_loop fuel c ctx appGuid (Client.addr c) [].

(** The loop of [ProcessStats]. *)
Fixpoint ProcessStats_loop (fuel : nat) c ctx (processGuid addr : string)
    (stats : list ProcessStats.t) : go W (list ProcessStats.t) :=
  match fuel with
  | O => out_of_fuel
  | S fuel =>
      u <~ lift (url_Parse addr);;
      let u := url.with_Path u ("/v3/processes/" +:+ processGuid +:+ "/stats") in
      resp <~ Do c (GET u ∅ None ctx);;
      if decide (http.Response.StatusCode resp ≠ 200) then
        fail (fmt_Errorf_status "unexpected status code"
                (http.Response.StatusCode resp) (http.Response.Body resp))
      else
        results <~ lift (json_Decode (http.Response.Body resp));;
        (* Replace HTTPS with HTTP so the HTTP_PROXY can do the work for us *)
        let next := strings.Replace (Page.Pagination_Next_Href results) "https" "http" 1 in
        let stats := stats ++ Page.Resources results in
        if decide (next ≠ "") then
          ProcessStats_loop fuel c ctx processGuid next stats
        else ret stats
  end.

Definition ProcessStats (fuel : nat) c ctx (processGuid : string)
    : go W (list ProcessStats.t) :=
  ProcessStats_loop fuel c ctx processGuid (Client.addr c) [].

Definition GetAppGuid c ctx (appName : string) : go W string :=
  u <~ lift (url_Parse (Client.addr c +:+ "/v2/apps?q=name%3A" +:+ appName
                          +:+ "&q=space_guid%3A" +:+ Client.spaceGuid c));;
  resp <~ Do c (GET u Accept_json None ctx);;
  if decide (http.Response.StatusCode resp ≠ 200) then
    data <~ lift (ioutil_ReadAll (http.Response.Body resp));;
    fail (fmt_Errorf_status "unexpected response" (http.Response.StatusCode resp) data)
  else
    result <~ lift (json_Decode (http.Response.Body resp));;
    match AppsResult.Resources_MetaData_Guid result with
    | [] => fail (errors_New "empty results")
    | guid :: _ => ret guid
    end.

Definition GetDropletGuid c ctx (appGuid : string) : go W string :=
  u <~ lift (url_Parse (Client.addr c +:+ "/v3/apps/" +:+ appGuid +:+ "/droplets/current"));;
  resp <~ Do c (GET u Accept_json None ctx);;
  if decide (http.Response.StatusCode resp ≠ 200) then
    data <~ lift (ioutil_ReadAll (http.Response.Body resp));;
    fail (fmt_Errorf_status "unexpected response" (http.Response.StatusCode resp) data)
  else
    result <~ lift (json_Decode (http.Response.Body resp));;
    if decide (DropletResult.Guid result = "") then
      fail (errors_New "empty results")
    else ret (DropletResult.Guid result).

(** The loop of [CreateTask], from the iteration that decodes [resp]. *)
Fixpoint CreateTask_loop (fuel : nat) c ctx (interval : time.Duration)
    (resp : http.Response.t) : go W unit :=
  match fuel with
  | O => out_of_fuel
  | S fuel =>
      results <~ lift (json_Decode (http.Response.Body resp));;
      (* Replace HTTPS with HTTP so the HTTP_PROXY can do the work for us *)
      let self := strings.Replace (TaskStatus.Links_Self_Href results) "https" "http" 1 in
      if decide (TaskStatus.State results = "RUNNING") then
        _ <~ Sleep interval;;
        u <~ lift (url_Parse self);;
        resp <~ Do c (GET u ∅ None ctx);;
        CreateTask_loop fuel c ctx interval resp
      else if decide (TaskStatus.State results = "FAILED") then
        fail (errors_New "task failed")
      else ret tt
  end.

Definition CreateTask (fuel : nat) c ctx (command : string)
    (interval : time.Duration) : go W unit :=
  u <~ lift (url_Parse (Client.addr c));;
  let u := url.with_Path u ("/v3/apps/" +:+ Client.appGuid c +:+ "/tasks") in
  marshalled <~ lift (json_Marshal
    {| CreateTaskBody.Command := command; CreateTaskBody.DropletGuid := "" |});;
  resp <~ Do c (POST u marshalled ctx);;
  if decide (http.Response.StatusCode resp ≠ 202) then
    fail (fmt_Errorf_status "unexpected status code"
            (http.Response.StatusCode resp) (http.Response.Body resp))
  else CreateTask_loop fuel c ctx interval resp.

Definition GetTask c ctx (guid : string) : go W Task.t :=
  u <~ lift (url_Parse (Client.addr c));;
  let u := url.with_Path u ("/v3/tasks/" +:+ guid) in
  resp <~ Do c (GET u Accept_json (Some "") ctx);;
  if decide (http.Response.StatusCode resp ≠ 200) then
    fail (fmt_Errorf_status "unexpected status code"
            (http.Response.StatusCode resp) (http.Response.Body resp))
  else
    task <~ lift (json_Decode (http.Response.Body resp));;
    (* Ensure all links are converted to http for proxy *)
    ret (Task.with_Links task (http_link <$> Task.Links task)).

Definition RunTask c ctx (command name droplet appGuid : string) : go W Task.t :=
  let appGuid := if decide (appGuid = "") then Client.appGuid c else appGuid in
  u <~ lift (url_Parse (Client.addr c));;
  let u := url.with_Path u ("/v3/apps/" +:+ appGuid +:+ "/tasks") in
  marshalled <~ lift (json_Marshal
    {| RunTaskBody.Command := command; RunTaskBody.Name := name;
       RunTaskBody.DropletGuid := droplet |});;
  resp <~ Do c (POST u marshalled ctx);;
  if decide (http.Response.StatusCode resp ≠ 202) then
    fail (fmt_Errorf_status "unexpected status code"
            (http.Response.StatusCode resp) (http.Response.Body resp))
  else
    t <~ lift (json_Decode (http.Response.Body resp));;
    (* Ensure all links are converted to http for proxy *)
    ret (Task.with_Links t (http_link <$> Task.Links t)).

(** [for k, v := range query { for _, vv := range v { q.Add(k, vv) } }]:
    the keys of a map are distinct, so the order in which [range] visits
    them does not change the outcome. *)
Definition add_query (q : url.Values) (query : gmap string (list string)) : url.Values :=
  map_fold (λ k v q, foldl (λ q vv, url.Add q k vv) q v) q query.

(** The loop of [ListTasks]. *)
Fixpoint ListTasks_loop (fuel : nat) c ctx (appGuid : string)
    (query : gmap string (list string)) (addr : string)
    (results : list Task.t) : go W (list Task.t) :=
  match fuel with
  | O => out_of_fuel
  | S fuel =>
      u <~ lift (url_Parse addr);;
      let u := url.with_Path u ("/v3/apps/" +:+ appGuid +:+ "/tasks") in
      let q := add_query (URL_Query u) query in
      let u := url.with_RawQuery u (Values_Encode q) in
      resp <~ Do c (GET u ∅ None ctx);;
      if decide (http.Response.StatusCode resp ≠ 200) then
        fail (fmt_Errorf_status "unexpected status code"
                (http.Response.StatusCode resp) (http.Response.Body resp))
      else
        tasks <~ lift (json_Decode (http.Response.Body resp));;
        let results := results ++ Page.Resources tasks in
        if decide (Page.Pagination_Next_Href tasks ≠ "") then
          ListTasks_loop fuel c ctx appGuid query (Page.Pagination_Next_Href tasks) results
        else ret results
  end.

Definition ListTasks (fuel : nat) c ctx (appGuid : string)
    (query : gmap string (list string)) : go W (list Task.t) :=
  ListTasks_loop fuel c ctx appGuid query (Client.addr c) [].

Definition GetPackageGuid c ctx (appGuid : string) : go W (string * string) :=
  u <~ lift (url_Parse (Client.addr c +:+ "/v3/apps/" +:+ appGuid +:+ "/droplets/current"));;
  resp <~ Do c (GET u Accept_json None ctx);;
  if decide (http.Response.StatusCode resp ≠ 200) then
    data <~ lift (ioutil_ReadAll (http.Response.Body resp));;
    fail (fmt_Errorf_status "unexpected response" (http.Response.StatusCode resp) data)
  else
    result <~ lift (json_Decode (http.Response.Body resp));;
    if decide (DropletLinks.Links_Package_Href result = "") then
      fail (errors_New "empty results")
    else
      (* Replace HTTPS with HTTP so the HTTP_PROXY can do the work for us *)
      let href := strings.Replace (DropletLinks.Links_Package_Href result) "https" "http" 1 in
      u <~ lift (url_Parse href);;
      resp <~ Do c (GET u Accept_json None ctx);;
      if decide (http.Response.StatusCode resp ≠ 200) then
        data <~ lift (ioutil_ReadAll (http.Response.Body resp));;
        fail (fmt_Errorf_status "unexpected response" (http.Response.StatusCode resp) data)
      else
        gresult <~ lift (json_Decode (http.Response.Body resp));;
        if decide (PackageResult.Guid gresult = ""
                   ∨ PackageResult.Links_Download_Href gresult = "") then
          fail (errors_New "empty results")
        else
          (* Replace HTTPS with HTTP so the HTTP_PROXY can do the work for us *)
          let dl := strings.Replace (PackageResult.Links_Download_Href gresult) "https" "http" 1 in
          ret (PackageResult.Guid gresult, dl).

Definition GetEnvironmentVariables c ctx (appGuid : string) : go W (gmap string string) :=
  let appGuid := if decide (appGuid = "") then Client.appGuid c else appGuid in
  u <~ lift (url_Parse (Client.addr c));;
  let u := url.with_Path u ("/v3/apps/" +:+ appGuid +:+ "/environment_variables") in
  resp <~ Do c (GET u Accept_json (Some "") ctx);;
  if decide (http.Response.StatusCode resp ≠ 200) then
    fail (fmt_Errorf_status "unexpected status code"
            (http.Response.StatusCode resp) (http.Response.Body resp))
  else
    t <~ lift (json_Decode (http.Response.Body resp));;
    ret (EnvResult.Var t).
End ClientMethods.

(** ** A scripted transport

    A [Doer] in the manner of the test suite's [spyDoer]: it records the
    requests it is handed and answers them from a script, one scripted answer
    per request, in order.  Its world also holds the clock. *)

Module Script.
Record t : Type := {
  responses : list (result http.Response.t);
  requests : list http.Request.t;
  clock : time.Time;
}.

(** The world before the first request. *)
Definition start (answers : list (result http.Response.t)) (now : time.Time) : t :=
  {| responses := answers; requests := []; clock := now |}.
End Script.

Definition scripted_Do : Doer Script.t := λ req w,
  let record rest :=
    {| Script.responses := rest;
       Script.requests := Script.requests w ++ [req];
       Script.clock := Script.clock w |} in
  match Script.responses w with
  | [] => (Err (doer_Error "no response left"), record [])
  | answer :: rest => (answer, record rest)
  end.

(** A transport that, like [http.Client], honours the context of a request.
    A request takes [latency] to be answered from the script.  If the context
    is done before the answer is there, the request is given up at once (when
    the context was done already) or aborted in flight (at the instant the
    context is done), with the error of the context; the script is left as it
    is. *)
Definition cancellable_Do (latency : time.Duration) : Doer Script.t := λ req w,
  let aborted instant :=
    (Err context_Canceled,
     {| Script.responses := Script.responses w;
        Script.requests := Script.requests w ++ [req];
        Script.clock := instant |}) in
  let answered :=
    let (answer, w') := scripted_Do req w in
    (answer,
     {| Script.responses := Script.responses w';
        Script.requests := Script.requests w';
        Script.clock := Script.clock w + Z.max 0 latency |}) in
  match context.cancelAt (http.Request.ctx req) with
  | Some t =>
      if decide (t ≤ Script.clock w) then aborted (Script.clock w)
      else if decide (t ≤ Script.clock w + Z.max 0 latency) then aborted t
      else answered
  | None => answered
  end.

(** [time.Sleep(d)] returns at once for [d <= 0] and after [d] otherwise. *)
#[global] Instance Script_Clock : Clock Script.t := {|
  time_Sleep d w :=
    {| Script.responses := Script.responses w;
       Script.requests := Script.requests w;
       Script.clock := Script.clock w + Z.max 0 d |};
  time_Now := Script.clock;
|}.

(** A 200 response with the given body. *)
Definition OK_200 (body : string) : result http.Response.t :=
  Ok {| http.Response.StatusCode := 200; http.Response.Body := body |}.

(** ** Pagination, as the specification words it

    The addresses a cursor-following loop fetches when it is served [pages]
    starting from [addr], [norm] being what it does to a next link before it
    follows it. *)
Fixpoint followed {T} (norm : string → string) (addr : string)
    (pages : list (Page.t T)) : list string :=
  match pages with
  | [] => []
  | p :: pages' => addr :: followed norm (norm (Page.Pagination_Next_Href p)) pages'
  end.

(** A sequence of pages in which each page but the last carries a non-empty
    next link, and the last carries none. *)
Fixpoint paged {T} (pages : list (Page.t T)) : Prop :=
  match pages with
  | [] => False
  | [p] => Page.Pagination_Next_Href p = ""
  | p :: pages' => Page.Pagination_Next_Href p ≠ "" ∧ paged pages'
  end.

(** The link rewriting at every site: [strings.Replace(s, "https", "http", 1)]. *)
Abbreviation to_http s := (strings.Replace s "https" "http" 1).

(** The Paginator of the specification: fetch [addr], require status 200,
    decode the envelope, rewrite the next link with [norm], append the
    resources, and follow the next link while it is not empty.  [request]
    makes the request for a parsed address.  The three list operations are
    compared with it below. *)
Section Paginator.
Context {W T : Type} `{!NetURL} `{!Decoder (Page.t T)}.
Variable request : url.URL → http.Request.t.
Variable norm : string → string.

Fixpoint paginate (fuel : nat) (c : Client.t W) (addr : string) (acc : list T)
    : go W (list T) :=
  match fuel with
  | O => out_of_fuel
  | S fuel =>
      u <~ lift (url_Parse addr);;
      resp <~ Do c (request u);;
      if decide (http.Response.StatusCode resp ≠ 200) then
        fail (fmt_Errorf_status "unexpected status code"
                (http.Response.StatusCode resp) (http.Response.Body resp))
      else
        results <~ lift (json_Decode (http.Response.Body resp));;
        let next := norm (Page.Pagination_Next_Href results) in
        let acc := acc ++ Page.Resources results in
        if decide (next ≠ "") then paginate fuel c next acc
        else ret acc
  end.
End Paginator.

(** The request each list operation makes for a parsed address. *)
Definition Processes_request (ctx : context.Context) (appGuid : string)
    (u : url.URL) : http.Request.t :=
  GET (url.with_Path u ("/v3/apps/" +:+ appGuid +:+ "/processes")) ∅ None ctx.

Definition ProcessStats_request (ctx : context.Context) (processGuid : string)
    (u : url.URL) : http.Request.t :=
  GET (url.with_Path u ("/v3/processes/" +:+ processGuid +:+ "/stats")) ∅ None ctx.

Definition ListTasks_request `{!NetURL} (ctx : context.Context) (appGuid : string)
    (query : gmap string (list string)) (u : url.URL) : http.Request.t :=
  let u := url.with_Path u ("/v3/apps/" +:+ appGuid +:+ "/tasks") in
  GET (url.with_RawQuery u (Values_Encode (add_query (URL_Query u) query))) ∅ None ctx.

(** A well-formed exchange: [pages] is [paged], the body served for each
    page decodes to it, and each address the loop comes to fetch parses (to
    the URLs [us], in order). *)
Definition well_formed {T} `{!NetURL} `{!Decoder (Page.t T)}
    (norm : string → string) (addr : string) (pages : list (Page.t T))
    (bodies : list string) (us : list url.URL) : Prop :=
  paged pages
  ∧ Forall2 (λ body p, json_Decode body = Ok p) bodies pages
  ∧ Forall2 (λ a u, url_Parse a = Ok u) (followed norm addr pages) us.

(** ** Polling, as the specification words it

    The poller decodes [resp]; [exchange] lists, for each envelope that
    reports a task still running, the envelope, the URL its rewritten self
    link parses to, and the response to the GET sent there; [final] is the
    envelope of the last response. *)
Fixpoint polled `{!NetURL} `{!Decoder TaskStatus.t} (resp : http.Response.t)
    (exchange : list (TaskStatus.t * url.URL * http.Response.t))
    (final : TaskStatus.t) : Prop :=
  match exchange with
  | [] => json_Decode (http.Response.Body resp) = Ok final
  | (e, u, next) :: exchange' =>
      json_Decode (http.Response.Body resp) = Ok e
      ∧ url_Parse (to_http (TaskStatus.Links_Self_Href e)) = Ok u
      ∧ polled next exchange' final
  end.

(** What [CreateTask] returns for a task whose last envelope is [final]. *)
Definition outcome (final : TaskStatus.t) : result unit :=
  if decide (TaskStatus.State final = "FAILED")
  then Err (errors_New "task failed") else Ok tt.

(** A call that ends, in world [w], on the status error for [resp]: the
    error made of the status code and the body. *)
Definition status_error {W A} (prefix : string) (resp : http.Response.t) (w : W)
    : option (result A * W) :=
  Some (Err (errors_New (prefix +:+ " " +:+ pretty (http.Response.StatusCode resp)
                           +:+ ": " +:+ http.Response.Body resp)), w).

(** ** [net/url] on the URLs of the Cloud Controller

    An executable reading of [url.Parse], [u.Query()] and [v.Encode()] for
    the examples below.  It covers the empty string and the absolute URLs
    [scheme://host[/path][?query]] with a lower-case scheme and a host and
    path of unreserved characters (no user info, no fragment, no escapes in
    the path); anything else is reported as an error of the fragment.  The
    theorems do not depend on it: they hold for every [NetURL]. *)

Module simple_url.

Definition byte (c : Ascii.ascii) : nat := Ascii.nat_of_ascii c.

Definition between (lo hi c : Ascii.ascii) : bool :=
  (byte lo <=? byte c)%nat && (byte c <=? byte hi)%nat.

Definition is_lower (c : Ascii.ascii) : bool := between "a"%char "z"%char c.

Definition is_alnum (c : Ascii.ascii) : bool :=
  between "a"%char "z"%char c || between "A"%char "Z"%char c || between "0"%char "9"%char c.

(** The characters [QueryEscape] leaves alone. *)
Definition unreserved (c : Ascii.ascii) : bool :=
  is_alnum c || bool_decide (c ∈ ["-"; "_"; "."; "~"]%char).

Fixpoint all (f : Ascii.ascii → bool) (s : string) : bool :=
  match s with
  | EmptyString => true
  | String c s' => f c && all f s'
  end.

Definition unhex (c : Ascii.ascii) : option nat :=
  if between "0"%char "9"%char c then Some (byte c - byte "0"%char)%nat
  else if between "a"%char "f"%char c then Some (byte c - byte "a"%char + 10)%nat
  else if between "A"%char "F"%char c then Some (byte c - byte "A"%char + 10)%nat
  else None.

Definition upperhex (n : nat) : Ascii.ascii :=
  nth n ["0"; "1"; "2"; "3"; "4"; "5"; "6"; "7"; "8"; "9";
         "A"; "B"; "C"; "D"; "E"; "F"]%char "0"%char.

(** [url.QueryUnescape]. *)
Fixpoint QueryUnescape (s : string) : option string :=
  match s with
  | EmptyString => Some EmptyString
  | String "%"%char (String h (String l rest)) =>
      match unhex h, unhex l with
      | Some a, Some b =>
          String (Ascii.ascii_of_nat (16 * a + b)) <$> QueryUnescape rest
      | _, _ => None
      end
  | String "%"%char _ => None
  | String "+"%char rest => String " "%char <$> QueryUnescape rest
  | String c rest => String c <$> QueryUnescape rest
  end.

(** [url.QueryEscape]. *)
Fixpoint QueryEscape (s : string) : string :=
  match s with
  | EmptyString => EmptyString
  | String c rest =>
      if unreserved c then String c (QueryEscape rest)
      else if Ascii.eqb c " "%char then String "+"%char (QueryEscape rest)
      else String "%"%char (String (upperhex (byte c / 16))
                         (String (upperhex (byte c mod 16)) (QueryEscape rest)))
  end.

(** [strings.Split(s, sep)] for a one-byte [sep]. *)
Fixpoint Split (s : string) (sep : Ascii.ascii) : list string :=
  match s with
  | EmptyString => [EmptyString]
  | String c rest =>
      if Ascii.eqb c sep then EmptyString :: Split rest sep
      else match Split rest sep with
           | piece :: pieces => String c piece :: pieces
           | [] => [String c EmptyString]
           end
  end.

(** [url.ParseQuery], errors dropped as [u.Query()] drops them: a pair that
    is empty, holds a semicolon or does not unescape is skipped. *)
Definition ParseQuery (query : string) : url.Values :=
  foldl (λ (m : url.Values) pair,
           if decide (pair = "") then m
           else if negb (all (λ c, negb (Ascii.eqb c ";"%char)) pair) then m
           else
             let (key, value) :=
               match strings.Cut pair "=" with
               | Some kv => kv
               | None => (pair, "")
               end in
             match QueryUnescape key, QueryUnescape value with
             | Some key, Some value => url.Add m key value
             | _, _ => m
             end)
        ∅ (Split query "&"%char).

(** [v.Encode()]: the keys in byte order, the values of a key in the order
    they were added. *)
Definition Encode (v : url.Values) : string :=
  let keys := merge_sort String.le (fst <$> map_to_list v) in
  let pairs :=
    k ← keys;
    (λ value, QueryEscape k +:+ "=" +:+ QueryEscape value) <$> (v !!! k) in
  match pairs with
  | [] => ""
  | first :: others => foldl (λ buf pair, buf +:+ "&" +:+ pair) first others
  end.

Definition empty_URL : url.URL :=
  {| url.Scheme := ""; url.Opaque := ""; url.User := ""; url.Host := "";
     url.Path := ""; url.RawPath := ""; url.RawQuery := ""; url.Fragment := "" |}.

Definition path_char (c : Ascii.ascii) : bool := unreserved c || Ascii.eqb c "/"%char.
Definition host_char (c : Ascii.ascii) : bool := unreserved c || Ascii.eqb c ":"%char.

Definition Parse (rawURL : string) : result url.URL :=
  if decide (rawURL = "") then Ok empty_URL
  else
    match strings.Cut rawURL "://" with
    | None => Err (url_Error "missing protocol scheme")
    | Some (scheme, rest) =>
        if decide (scheme = "") then Err (url_Error "missing protocol scheme")
        else if negb (all is_lower scheme) then
          Err (url_Error "outside the fragment: scheme")
        else
          let (rest, query) :=
            match strings.Cut rest "?" with
            | Some rq => rq
            | None => (rest, "")
            end in
          let (host, path) :=
            match strings.Cut rest "/" with
            | Some (host, path) => (host, "/" +:+ path)
            | None => (rest, "")
            end in
          if all host_char host && all path_char path
             && all (λ c, negb (Ascii.eqb c "#"%char)) query then
            Ok {| url.Scheme := scheme; url.Opaque := ""; url.User := "";
                  url.Host := host; url.Path := path; url.RawPath := "";
                  url.RawQuery := query; url.Fragment := "" |}
          else Err (url_Error "outside the fragment")
    end.

End simple_url.

Definition simple_NetURL : NetURL := {|
  url_Parse := simple_url.Parse;
  URL_Query u := simple_url.ParseQuery (url.RawQuery u);
  Values_Encode := simple_url.Encode;
|}.

(** ** [encoding/json] on the payloads of the Cloud Controller

    An executable reading of [Decode] and [Marshal] for the examples below.
    [Decode] reads the first JSON value of the body and stores it in the Go
    value by the [json:"..."] tags of [client.go].  The fragment: numbers are
    integers, strings have no [\u] escapes, object keys are spelled as the
    tags spell them, times are RFC 3339 without fractional seconds.  The
    theorems do not depend on it: they hold for every [Decoder]. *)

Module simple_json.

Inductive value : Type :=
  | Null
  | Bool (b : bool)
  | Number (n : Z)
  | Str (s : string)
  | Array (items : list value)
  | Object (members : list (string * value)).

(** *** Reading a value *)

Definition quote : Ascii.ascii := "034"%char.
Definition backslash : Ascii.ascii := "092"%char.

Definition is_space (c : Ascii.ascii) : bool :=
  bool_decide (c ∈ [" "; "009"; "010"; "013"]%char).

Fixpoint skip (s : string) : string :=
  match s with
  | String c s' => if is_space c then skip s' else s
  | EmptyString => EmptyString
  end.

Definition digit (c : Ascii.ascii) : option Z :=
  if simple_url.between "0"%char "9"%char c
  then Some (Z.of_nat (simple_url.byte c) - 48) else None.

(** The digits [s] starts with, read onto [acc], and what follows them. *)
Fixpoint digits (s : string) (acc : Z) : Z * string :=
  match s with
  | String c s' =>
      match digit c with
      | Some d => digits s' (10 * acc + d)
      | None => (acc, s)
      end
  | EmptyString => (acc, s)
  end.

(** An integer literal; a fraction or an exponent is outside the fragment. *)
Definition unsigned (s : string) : option (Z * string) :=
  match s with
  | String c _ =>
      match digit c with
      | Some _ =>
          let (n, rest) := digits s 0 in
          match rest with
          | String "." _ | String "e" _ | String "E" _ => None
          | _ => Some (n, rest)
          end
      | None => None
      end
  | EmptyString => None
  end.

(** The text of a string literal after its opening quote, and what follows
    the closing quote. *)
Fixpoint string_literal (s : string) : option (string * string) :=
  match s with
  | EmptyString => None
  | String c rest =>
      if Ascii.eqb c quote then Some (EmptyString, rest)
      else if Ascii.eqb c backslash then
        match rest with
        | String e rest' =>
            let unescaped : option Ascii.ascii :=
              if Ascii.eqb e quote then Some quote
              else if Ascii.eqb e backslash then Some backslash
              else match e with
                   | "/" => Some "/" | "b" => Some "008" | "f" => Some "012"
                   | "n" => Some "010" | "r" => Some "013" | "t" => Some "009"
                   | _ => None
                   end%char in
            match unescaped, string_literal rest' with
            | Some c', Some (text, after) => Some (String c' text, after)
            | _, _ => None
            end
        | EmptyString => None
        end
      else if (simple_url.byte c <? 32)%nat then None
      else match string_literal rest with
           | Some (text, after) => Some (String c text, after)
           | None => None
           end
  end.

Fixpoint parse_value (fuel : nat) (s : string) : option (value * string) :=
  match fuel with
  | O => None
  | S fuel =>
      match skip s with
      | String "[" rest =>
          match skip rest with
          | String "]" after => Some (Array [], after)
          | _ => match parse_elements fuel rest with
                 | Some (items, after) => Some (Array items, after)
                 | None => None
                 end
          end
      | String "{" rest =>
          match skip rest with
          | String "}" after => Some (Object [], after)
          | _ => match parse_members fuel rest with
                 | Some (members, after) => Some (Object members, after)
                 | None => None
                 end
          end
      | String "-" rest =>
          match unsigned rest with
          | Some (n, after) => Some (Number (- n), after)
          | None => None
          end
      | String c rest as text =>
          if Ascii.eqb c quote then
            match string_literal rest with
            | Some (str, after) => Some (Str str, after)
            | None => None
            end
          else
            match strings.CutPrefix text "null", strings.CutPrefix text "true",
                  strings.CutPrefix text "false", unsigned text with
            | Some after, _, _, _ => Some (Null, after)
            | _, Some after, _, _ => Some (Bool true, after)
            | _, _, Some after, _ => Some (Bool false, after)
            | _, _, _, Some (n, after) => Some (Number n, after)
            | _, _, _, _ => None
            end
      | EmptyString => None
      end
  end
with parse_elements (fuel : nat) (s : string) : option (list value * string) :=
  match fuel with
  | O => None
  | S fuel =>
      match parse_value fuel s with
      | Some (item, after) =>
          match skip after with
          | String "," rest =>
              match parse_elements fuel rest with
              | Some (items, after') => Some (item :: items, after')
              | None => None
              end
          | String "]" rest => Some ([item], rest)
          | _ => None
          end
      | None => None
      end
  end
with parse_members (fuel : nat) (s : string) : option (list (string * value) * string) :=
  match fuel with
  | O => None
  | S fuel =>
      match skip s with
      | String c rest =>
          if Ascii.eqb c quote then
            match string_literal rest with
            | Some (key, after) =>
                match skip after with
                | String ":" rest' =>
                    match parse_value fuel rest' with
                    | Some (v, after') =>
                        match skip after' with
                        | String "," rest'' =>
                            match parse_members fuel rest'' with
                            | Some (members, after'') =>
                                Some ((key, v) :: members, after'')
                            | None => None
                            end
                        | String "}" rest'' => Some ([(key, v)], rest'')
                        | _ => None
                        end
                    | None => None
                    end
                | _ => None
                end
            | None => None
            end
          else None
      | EmptyString => None
      end
  end.

(** The first JSON value of [body]; what follows it stays unread. *)
Definition read (body : string) : result value :=
  match parse_value (2 * String.length body + 2) body with
  | Some (v, _) => Ok v
  | None => Err (json_Error "invalid JSON")
  end.

End simple_json.

(** *** Storing a value in a Go value

    [into_T a v] is the Go value of type [T] that holds [a] after the JSON
    value [v] is decoded into it.  [null] leaves a scalar or a struct as it
    is and makes a slice or a map nil; a JSON value of the wrong kind is an
    error.  A key that occurs again is decoded again, into the same field. *)

Module decode.
Import simple_json.

Definition and_then {A B} (r : result A) (k : A → result B) : result B :=
  match r with Ok a => k a | Err e => Err e end.

Notation "x <?- r ;; k" := (and_then r (λ x, k))
  (at level 100, r at next level, right associativity).

Definition mismatch {A} (type : string) : result A :=
  Err (json_Error ("cannot unmarshal into Go value of type " +:+ type)).

(** The field tagged [key] of a struct whose members are being decoded:
    every member with that key is stored, in order, starting from [a]. *)
Definition field {A} (into : A → value → result A) (a : A) (key : string)
    (members : list (string * value)) : result A :=
  foldl (λ acc member,
           if decide (member.1 = key)
           then a' <?- acc;; into a' member.2 else acc)
        (Ok a) members.

Definition into_string (a : string) (v : value) : result string :=
  match v with Null => Ok a | Str s => Ok s | _ => mismatch "string" end.

Definition into_int (a : Z) (v : value) : result Z :=
  match v with Null => Ok a | Number n => Ok n | _ => mismatch "int" end.

Definition into_float64 (a : SpecFloat.spec_float) (v : value)
    : result SpecFloat.spec_float :=
  match v with
  | Null => Ok a
  | Number n => Ok (SpecFloat.binary_normalize 53 1024 n 0 false)
  | _ => mismatch "float64"
  end.

(** A struct: [members_into] stores the members of an object. *)
Definition into_struct {A} (members_into : A → list (string * value) → result A)
    (a : A) (v : value) : result A :=
  match v with
  | Null => Ok a
  | Object members => members_into a members
  | _ => mismatch "struct"
  end.

(** A slice: every element is decoded into a zero element. *)
Definition into_slice {A} (into : A → value → result A) (zero : A)
    (a : list A) (v : value) : result (list A) :=
  match v with
  | Null => Ok []
  | Array items =>
      foldr (λ item acc, x <?- into zero item;; xs <?- acc;; Ok (x :: xs))
            (Ok []) items
  | _ => mismatch "slice"
  end.

(** A map with string keys: every member is decoded into a zero element and
    stored in the map that is there. *)
Definition into_map {A} (into : A → value → result A) (zero : A)
    (a : gmap string A) (v : value) : result (gmap string A) :=
  match v with
  | Null => Ok ∅
  | Object members =>
      foldl (λ acc member,
               m <?- acc;; x <?- into zero member.2;; Ok (<[member.1 := x]> m))
            (Ok a) members
  | _ => mismatch "map"
  end.

(** [time.Time]: [YYYY-MM-DDThh:mm:ss] followed by [Z] or [+hh:mm] or
    [-hh:mm], as nanoseconds since the Unix epoch. *)
Definition two (s : string) : option (Z * string) :=
  match s with
  | String a (String b rest) =>
      match digit a, digit b with
      | Some x, Some y => Some (10 * x + y, rest)
      | _, _ => None
      end
  | _ => None
  end.

Definition days_from_civil (y m d : Z) : Z :=
  let y := if decide (m ≤ 2) then y - 1 else y in
  let era := y `div` 400 in
  let yoe := y - era * 400 in
  let doy := (153 * (m + (if decide (2 < m) then -3 else 9)) + 2) `div` 5 + d - 1 in
  let doe := yoe * 365 + yoe `div` 4 - yoe `div` 100 + doy in
  era * 146097 + doe - 719468.

Definition days_in (y m : Z) : Z :=
  if decide (m = 2) then
    if decide (y `mod` 4 = 0 ∧ (y `mod` 100 ≠ 0 ∨ y `mod` 400 = 0)) then 29 else 28
  else if decide (m ∈ [4; 6; 9; 11]) then 30 else 31.

Definition expect (c : Ascii.ascii) (s : string) : option string :=
  match s with
  | String c' rest => if Ascii.eqb c c' then Some rest else None
  | EmptyString => None
  end.

Definition zone (s : string) : option Z :=
  match s with
  | String "Z" EmptyString => Some 0
  | String sign rest =>
      '(h, rest) ← two rest; rest ← expect ":" rest;
      '(m, rest) ← two rest;
      if decide (rest = "" ∧ h < 24 ∧ m < 60) then
        match sign with
        | "+"%char => Some (h * 3600 + m * 60)
        | "-"%char => Some (- (h * 3600 + m * 60))
        | _ => None
        end
      else None
  | EmptyString => None
  end.

Definition RFC3339 (s : string) : option time.Time :=
  '(yh, s) ← two s; '(yl, s) ← two s; s ← expect "-" s;
  '(mo, s) ← two s; s ← expect "-" s;
  '(d, s) ← two s; s ← expect "T" s;
  '(h, s) ← two s; s ← expect ":" s;
  '(mi, s) ← two s; s ← expect ":" s;
  '(sec, s) ← two s; offset ← zone s;
  let y := 100 * yh + yl in
  if decide (1 ≤ mo ≤ 12 ∧ 1 ≤ d ≤ days_in y mo ∧ h < 24 ∧ mi < 60 ∧ sec < 60) then
    Some ((days_from_civil y mo d * 86400 + h * 3600 + mi * 60 + sec - offset)
          * 1000000000)
  else None.

Definition into_Time (a : time.Time) (v : value) : result time.Time :=
  match v with
  | Null => Ok a
  | Str s =>
      match RFC3339 s with
      | Some t => Ok t
      | None => Err (json_Error "parsing time")
      end
  | _ => mismatch "time.Time"
  end.

(** A struct with the one field [key]. *)
Definition only {A} (into : A → value → result A) (key : string)
    (a : A) (members : list (string * value)) : result A :=
  field into a key members.

End decode.

(** *** The structs of [client.go], by their tags *)

Module structs.
Import simple_json decode.

(** The zero [time.Time], January 1 of year 1, 00:00:00 UTC. *)
Definition zero_Time : time.Time := -62135596800000000000.

Definition zero_Links : Links.t := {| Links.Href := ""; Links.Method := "" |}.

Definition Links_members (l : Links.t) (ms : list (string * value)) : result Links.t :=
  href <?- field into_string (Links.Href l) "href" ms;;
  method <?- field into_string (Links.Method l) "method" ms;;
  Ok {| Links.Href := href; Links.Method := method |}.

Definition into_Links_map :=
  into_map (into_struct Links_members) zero_Links.

Definition zero_HealthCheck : HealthCheck.t :=
  {| HealthCheck.Type_ := ""; HealthCheck.Data_Timeout := 0;
     HealthCheck.Data_InvocationTimeout := 0; HealthCheck.Data_Endpoint := "" |}.

Definition HealthCheck_Data_members (h : HealthCheck.t) (ms : list (string * value))
    : result HealthCheck.t :=
  timeout <?- field into_int (HealthCheck.Data_Timeout h) "timeout" ms;;
  invocation <?- field into_int (HealthCheck.Data_InvocationTimeout h)
                   "invocation_timeout" ms;;
  endpoint <?- field into_string (HealthCheck.Data_Endpoint h) "endpoint" ms;;
  Ok {| HealthCheck.Type_ := HealthCheck.Type_ h;
        HealthCheck.Data_Timeout := timeout;
        HealthCheck.Data_InvocationTimeout := invocation;
        HealthCheck.Data_Endpoint := endpoint |}.

Definition HealthCheck_members (h : HealthCheck.t) (ms : list (string * value))
    : result HealthCheck.t :=
  type <?- field into_string (HealthCheck.Type_ h) "type" ms;;
  h' <?- field (into_struct HealthCheck_Data_members) h "data" ms;;
  Ok {| HealthCheck.Type_ := type;
        HealthCheck.Data_Timeout := HealthCheck.Data_Timeout h';
        HealthCheck.Data_InvocationTimeout := HealthCheck.Data_InvocationTimeout h';
        HealthCheck.Data_Endpoint := HealthCheck.Data_Endpoint h' |}.

Definition zero_Process : Process.t :=
  {| Process.Type_ := ""; Process.Command := ""; Process.Instances := 0;
     Process.MemoryInMB := 0; Process.DiskInMB := 0;
     Process.HealthCheck := zero_HealthCheck; Process.Guid := "";
     Process.CreatedAt := zero_Time; Process.UpdatedAt := zero_Time;
     Process.Links := ∅ |}.

Definition Process_members (p : Process.t) (ms : list (string * value)) : result Process.t :=
  type <?- field into_string (Process.Type_ p) "type" ms;;
  command <?- field into_string (Process.Command p) "command" ms;;
  instances <?- field into_int (Process.Instances p) "instances" ms;;
  memory <?- field into_int (Process.MemoryInMB p) "memory_in_mb" ms;;
  disk <?- field into_int (Process.DiskInMB p) "disk_in_mb" ms;;
  health <?- field (into_struct HealthCheck_members) (Process.HealthCheck p)
               "health_check" ms;;
  guid <?- field into_string (Process.Guid p) "guid" ms;;
  created <?- field into_Time (Process.CreatedAt p) "created_at" ms;;
  updated <?- field into_Time (Process.UpdatedAt p) "updated_at" ms;;
  links <?- field into_Links_map (Process.Links p) "links" ms;;
  Ok {| Process.Type_ := type; Process.Command := command;
        Process.Instances := instances; Process.MemoryInMB := memory;
        Process.DiskInMB := disk; Process.HealthCheck := health;
        Process.Guid := guid; Process.CreatedAt := created;
        Process.UpdatedAt := updated; Process.Links := links |}.

Definition zero_ProcessStats : ProcessStats.t :=
  {| ProcessStats.Type_ := ""; ProcessStats.Index := 0; ProcessStats.State := "";
     ProcessStats.Usage_Time := zero_Time;
     ProcessStats.Usage_CPU := SpecFloat.S754_zero false;
     ProcessStats.Usage_Mem := SpecFloat.S754_zero false;
     ProcessStats.Usage_Disk := 0; ProcessStats.Host := "";
     ProcessStats.Uptime := 0; ProcessStats.MemQuota := 0;
     ProcessStats.DiskQuota := 0; ProcessStats.FdsQuota := 0 |}.

Definition with_Usage (s : ProcessStats.t) (t : time.Time)
    (cpu mem : SpecFloat.spec_float) (disk : Z) : ProcessStats.t :=
  {| ProcessStats.Type_ := ProcessStats.Type_ s;
     ProcessStats.Index := ProcessStats.Index s;
     ProcessStats.State := ProcessStats.State s;
     ProcessStats.Usage_Time := t; ProcessStats.Usage_CPU := cpu;
     ProcessStats.Usage_Mem := mem; ProcessStats.Usage_Disk := disk;
     ProcessStats.Host := ProcessStats.Host s;
     ProcessStats.Uptime := ProcessStats.Uptime s;
     ProcessStats.MemQuota := ProcessStats.MemQuota s;
     ProcessStats.DiskQuota := ProcessStats.DiskQuota s;
     ProcessStats.FdsQuota := ProcessStats.FdsQuota s |}.

Definition Usage_members (s : ProcessStats.t) (ms : list (string * value))
    : result ProcessStats.t :=
  t <?- field into_Time (ProcessStats.Usage_Time s) "time" ms;;
  cpu <?- field into_float64 (ProcessStats.Usage_CPU s) "cpu" ms;;
  mem <?- field into_float64 (ProcessStats.Usage_Mem s) "mem" ms;;
  disk <?- field into_int (ProcessStats.Usage_Disk s) "disk" ms;;
  Ok (with_Usage s t cpu mem disk).

Definition ProcessStats_members (s : ProcessStats.t) (ms : list (string * value))
    : result ProcessStats.t :=
  type <?- field into_string (ProcessStats.Type_ s) "type" ms;;
  index <?- field into_int (ProcessStats.Index s) "index" ms;;
  state <?- field into_string (ProcessStats.State s) "state" ms;;
  usage <?- field (into_struct Usage_members) s "usage" ms;;
  host <?- field into_string (ProcessStats.Host s) "host" ms;;
  uptime <?- field into_int (ProcessStats.Uptime s) "uptime" ms;;
  mem_quota <?- field into_int (ProcessStats.MemQuota s) "mem_quota" ms;;
  disk_quota <?- field into_int (ProcessStats.DiskQuota s) "disk_quota" ms;;
  fds_quota <?- field into_int (ProcessStats.FdsQuota s) "fds_quota" ms;;
  Ok {| ProcessStats.Type_ := type; ProcessStats.Index := index;
        ProcessStats.State := state;
        ProcessStats.Usage_Time := ProcessStats.Usage_Time usage;
        ProcessStats.Usage_CPU := ProcessStats.Usage_CPU usage;
        ProcessStats.Usage_Mem := ProcessStats.Usage_Mem usage;
        ProcessStats.Usage_Disk := ProcessStats.Usage_Disk usage;
        ProcessStats.Host := host; ProcessStats.Uptime := uptime;
        ProcessStats.MemQuota := mem_quota; ProcessStats.DiskQuota := disk_quota;
        ProcessStats.FdsQuota := fds_quota |}.

Definition zero_Task : Task.t :=
  {| Task.SequenceID := 0; Task.Name := ""; Task.Command := "";
     Task.DiskInMB := 0; Task.MemoryInMB := 0; Task.State := "";
     Task.DropletGuid := ""; Task.Guid := ""; Task.CreatedAt := zero_Time;
     Task.UpdatedAt := zero_Time; Task.Links := ∅ |}.

Definition Task_members (t : Task.t) (ms : list (string * value)) : result Task.t :=
  sequence <?- field into_int (Task.SequenceID t) "sequence_id" ms;;
  name <?- field into_string (Task.Name t) "name" ms;;
  command <?- field into_string (Task.Command t) "command" ms;;
  disk <?- field into_int (Task.DiskInMB t) "disk_in_mb" ms;;
  memory <?- field into_int (Task.MemoryInMB t) "memory_in_mb" ms;;
  state <?- field into_string (Task.State t) "state" ms;;
  droplet <?- field into_string (Task.DropletGuid t) "droplet_guid" ms;;
  guid <?- field into_string (Task.Guid t) "guid" ms;;
  created <?- field into_Time (Task.CreatedAt t) "created_at" ms;;
  updated <?- field into_Time (Task.UpdatedAt t) "updated_at" ms;;
  links <?- field into_Links_map (Task.Links t) "links" ms;;
  Ok {| Task.SequenceID := sequence; Task.Name := name; Task.Command := command;
        Task.DiskInMB := disk; Task.MemoryInMB := memory; Task.State := state;
        Task.DropletGuid := droplet; Task.Guid := guid;
        Task.CreatedAt := created; Task.UpdatedAt := updated;
        Task.Links := links |}.

(** [{"a": {"b": {"href": ...}}}], the path the link structs share. *)
Definition href_at (a b : string) (href : string) (ms : list (string * value))
    : result string :=
  field (into_struct (only (into_struct (only into_string "href")) b)) href a ms.

Definition Page_members {T} (into : T → value → result T) (zero : T)
    (p : Page.t T) (ms : list (string * value)) : result (Page.t T) :=
  next <?- href_at "pagination" "next" (Page.Pagination_Next_Href p) ms;;
  resources <?- field (into_slice into zero) (Page.Resources p) "resources" ms;;
  Ok (Page.Build_t next resources).

Definition AppsResult_members (r : AppsResult.t) (ms : list (string * value))
    : result AppsResult.t :=
  guids <?- field (into_slice
                     (into_struct (only (into_struct (only into_string "guid"))
                                        "metadata")) "")
             (AppsResult.Resources_MetaData_Guid r) "resources" ms;;
  Ok {| AppsResult.Resources_MetaData_Guid := guids |}.

Definition DropletResult_members (r : DropletResult.t) (ms : list (string * value))
    : result DropletResult.t :=
  guid <?- field into_string (DropletResult.Guid r) "guid" ms;;
  Ok {| DropletResult.Guid := guid |}.

Definition TaskStatus_members (r : TaskStatus.t) (ms : list (string * value))
    : result TaskStatus.t :=
  state <?- field into_string (TaskStatus.State r) "state" ms;;
  self <?- href_at "links" "self" (TaskStatus.Links_Self_Href r) ms;;
  Ok {| TaskStatus.State := state; TaskStatus.Links_Self_Href := self |}.

Definition DropletLinks_members (r : DropletLinks.t) (ms : list (string * value))
    : result DropletLinks.t :=
  href <?- href_at "links" "package" (DropletLinks.Links_Package_Href r) ms;;
  Ok {| DropletLinks.Links_Package_Href := href |}.

Definition PackageResult_members (r : PackageResult.t) (ms : list (string * value))
    : result PackageResult.t :=
  guid <?- field into_string (PackageResult.Guid r) "guid" ms;;
  href <?- href_at "links" "download" (PackageResult.Links_Download_Href r) ms;;
  Ok {| PackageResult.Guid := guid; PackageResult.Links_Download_Href := href |}.

Definition EnvResult_members (r : EnvResult.t) (ms : list (string * value))
    : result EnvResult.t :=
  var <?- field (into_map into_string "") (EnvResult.Var r) "var" ms;;
  Ok {| EnvResult.Var := var |}.

(** [json.NewDecoder(body).Decode(&v)] for a struct [v] that holds [zero]. *)
Definition Decode {A} (members_into : A → list (string * value) → result A)
    (zero : A) (body : string) : result A :=
  v <?- read body;; into_struct members_into zero v.

End structs.

(** *** [json.Marshal] of the two request bodies *)

Module marshal.
Import simple_json.

Definition lowerhex (n : nat) : Ascii.ascii :=
  nth n ["0"; "1"; "2"; "3"; "4"; "5"; "6"; "7"; "8"; "9";
         "a"; "b"; "c"; "d"; "e"; "f"]%char "0"%char.

Definition u00 (c : Ascii.ascii) : string :=
  String backslash
    (String "u" (String "0" (String "0"
       (String (lowerhex (simple_url.byte c / 16))
          (String (lowerhex (simple_url.byte c mod 16)) EmptyString))))).

(** The text of a Go string between the quotes of a JSON string. *)
Fixpoint escape (s : string) : string :=
  match s with
  | EmptyString => EmptyString
  | String c rest =>
      (if Ascii.eqb c quote || Ascii.eqb c backslash
       then String backslash (String c EmptyString)
       else match c with
            | "010"%char => String backslash "n"
            | "013"%char => String backslash "r"
            | "009"%char => String backslash "t"
            | "<"%char | ">"%char | "&"%char => u00 c
            | _ => if (simple_url.byte c <? 32)%nat then u00 c
                   else String c EmptyString
            end) +:+ escape rest
  end.

Definition quoted (s : string) : string :=
  String quote (escape s) +:+ String quote EmptyString.

Definition member (key text : string) : string :=
  quoted key +:+ ":" +:+ quoted text.

(** A member tagged [omitempty]. *)
Definition omitempty (key text : string) : string :=
  if decide (text = "") then "" else "," +:+ member key text.

Definition CreateTaskBody (b : CreateTaskBody.t) : result string :=
  Ok ("{" +:+ member "command" (CreateTaskBody.Command b)
          +:+ omitempty "droplet_guid" (CreateTaskBody.DropletGuid b) +:+ "}").

Definition RunTaskBody (b : RunTaskBody.t) : result string :=
  Ok ("{" +:+ member "command" (RunTaskBody.Command b)
          +:+ omitempty "name" (RunTaskBody.Name b)
          +:+ omitempty "droplet_guid" (RunTaskBody.DropletGuid b) +:+ "}").

End marshal.

(** The decoders and marshalers of the fragment, for the examples. *)
Definition simple_Process_page : Decoder (Page.t Process.t) :=
  structs.Decode
    (structs.Page_members (decode.into_struct structs.Process_members) structs.zero_Process)
    (Page.Build_t "" []).
Definition simple_ProcessStats_page : Decoder (Page.t ProcessStats.t) :=
  structs.Decode
    (structs.Page_members (decode.into_struct structs.ProcessStats_members)
       structs.zero_ProcessStats)
    (Page.Build_t "" []).
Definition simple_Task_page : Decoder (Page.t Task.t) :=
  structs.Decode
    (structs.Page_members (decode.into_struct structs.Task_members) structs.zero_Task)
    (Page.Build_t "" []).
Definition simple_Task : Decoder Task.t :=
  structs.Decode structs.Task_members structs.zero_Task.
Definition simple_AppsResult : Decoder AppsResult.t :=
  structs.Decode structs.AppsResult_members
    {| AppsResult.Resources_MetaData_Guid := [] |}.
Definition simple_DropletResult : Decoder DropletResult.t :=
  structs.Decode structs.DropletResult_members {| DropletResult.Guid := "" |}.
Definition simple_TaskStatus : Decoder TaskStatus.t :=
  structs.Decode structs.TaskStatus_members
    {| TaskStatus.State := ""; TaskStatus.Links_Self_Href := "" |}.
Definition simple_DropletLinks : Decoder DropletLinks.t :=
  structs.Decode structs.DropletLinks_members
    {| DropletLinks.Links_Package_Href := "" |}.
Definition simple_PackageResult : Decoder PackageResult.t :=
  structs.Decode structs.PackageResult_members
    {| PackageResult.Guid := ""; PackageResult.Links_Download_Href := "" |}.
Definition simple_EnvResult : Decoder EnvResult.t :=
  structs.Decode structs.EnvResult_members {| EnvResult.Var := ∅ |}.
Definition simple_CreateTaskBody : Marshaler CreateTaskBody.t := marshal.CreateTaskBody.
Definition simple_RunTaskBody : Marshaler RunTaskBody.t := marshal.RunTaskBody.

(** Bodies held in memory, for the examples: a body reads whole; and bodies
    of a connection that is reset before the end of any of them. *)
Definition simple_Reader : Reader := λ body, Ok body.
Definition reset_Reader : Reader := λ _, Err (io_Error "connection reset by peer").

(** A JSON text written with ['] where JSON has its double quote. *)
Fixpoint json_text (s : string) : string :=
  match s with
  | EmptyString => EmptyString
  | String c rest =>
      String (if Ascii.eqb c "'"%char then simple_json.quote else c) (json_text rest)
  end.

(** ** The exchanges of the test suite, for the examples *)

Module example.

Definition URL (scheme host path query : string) : url.URL :=
  {| url.Scheme := scheme; url.Opaque := ""; url.User := ""; url.Host := host;
     url.Path := path; url.RawPath := ""; url.RawQuery := query;
     url.Fragment := "" |}.

(** [capi.NewClient("http://some-addr.com", "some-id", "space-guid", spyDoer)]. *)
Definition client : Client.t Script.t :=
  NewClient "http://some-addr.com" "some-id" "space-guid" scripted_Do.

(** The two pages of [TestProcesses]. *)
Definition processes_bodies : list string :=
  [ json_text
      "{'pagination':{'next':{'href':'https://some-addr.com/v3/apps/some-guid/processes?page=2&per_page=2'}},
        'resources':[{'guid':'proc-1','type':'web','command':'some-command',
                      'instances':2,'memory_in_mb':64,'disk_in_mb':100,
                      'health_check':{'type':'port','data':{'timeout':null,'invocation_timeout':null}},
                      'created_at':'2018-06-08T16:27:19Z','updated_at':'2018-06-20T23:16:27Z',
                      'links':{'self':{'href':'https://some-addr.com/v3/processes/some-guid'},
                               'scale':{'href':'https://some-addr.com/v3/processes/some-guid/actions/scale','method':'POST'}}}]}";
    json_text "{'resources':[{'guid':'proc-2'}]}" ].

Definition proc_1 : Process.t :=
  {| Process.Type_ := "web"; Process.Command := "some-command";
     Process.Instances := 2; Process.MemoryInMB := 64; Process.DiskInMB := 100;
     Process.HealthCheck :=
       {| HealthCheck.Type_ := "port"; HealthCheck.Data_Timeout := 0;
          HealthCheck.Data_InvocationTimeout := 0; HealthCheck.Data_Endpoint := "" |};
     Process.Guid := "proc-1";
     Process.CreatedAt := 1528475239000000000;
     Process.UpdatedAt := 1529536587000000000;
     Process.Links :=
       {[ "self" := {| Links.Href := "https://some-addr.com/v3/processes/some-guid";
                       Links.Method := "" |};
          "scale" := {| Links.Href := "https://some-addr.com/v3/processes/some-guid/actions/scale";
                        Links.Method := "POST" |} ]} |}.

Definition with_Guid (p : Process.t) (guid : string) : Process.t :=
  {| Process.Type_ := Process.Type_ p; Process.Command := Process.Command p;
     Process.Instances := Process.Instances p;
     Process.MemoryInMB := Process.MemoryInMB p;
     Process.DiskInMB := Process.DiskInMB p;
     Process.HealthCheck := Process.HealthCheck p; Process.Guid := guid;
     Process.CreatedAt := Process.CreatedAt p;
     Process.UpdatedAt := Process.UpdatedAt p; Process.Links := Process.Links p |}.

Definition proc_2 : Process.t := with_Guid structs.zero_Process "proc-2".

Definition processes_pages : list (Page.t Process.t) :=
  [ Page.Build_t
      "https://some-addr.com/v3/apps/some-guid/processes?page=2&per_page=2" [proc_1];
    Page.Build_t "" [proc_2] ].

Definition processes_urls : list url.URL :=
  [ URL "http" "some-addr.com" "" "";
    URL "http" "some-addr.com" "/v3/apps/some-guid/processes" "page=2&per_page=2" ].

(** The two pages of [TestProcessStats]. *)
Definition stats_bodies : list string :=
  [ json_text
      "{'pagination':{'next':{'href':'https://some-addr.com/v3/processes/some-guid/stats?page=2&per_page=2'}},
        'resources':[{'type':'web','index':0,'state':'RUNNING',
                      'usage':{'time':'2018-06-21T12:34:35+00:00','cpu':2,'mem':4481024,'disk':6189056},
                      'host':'10.0.16.18','uptime':688533,'mem_quota':67108864,
                      'disk_quota':104857600,'fds_quota':16384}]}";
    json_text "{'resources':[{'index':2}]}" ].

Definition stats_0 : ProcessStats.t :=
  {| ProcessStats.Type_ := "web"; ProcessStats.Index := 0;
     ProcessStats.State := "RUNNING";
     ProcessStats.Usage_Time := 1529584475000000000;
     ProcessStats.Usage_CPU := SpecFloat.S754_finite false 4503599627370496 (-51);
     ProcessStats.Usage_Mem := SpecFloat.S754_finite false 4811462883147776 (-30);
     ProcessStats.Usage_Disk := 6189056; ProcessStats.Host := "10.0.16.18";
     ProcessStats.Uptime := 688533; ProcessStats.MemQuota := 67108864;
     ProcessStats.DiskQuota := 104857600; ProcessStats.FdsQuota := 16384 |}.

Definition stats_2 : ProcessStats.t :=
  {| ProcessStats.Type_ := ""; ProcessStats.Index := 2; ProcessStats.State := "";
     ProcessStats.Usage_Time := structs.zero_Time;
     ProcessStats.Usage_CPU := SpecFloat.S754_zero false;
     ProcessStats.Usage_Mem := SpecFloat.S754_zero false;
     ProcessStats.Usage_Disk := 0; ProcessStats.Host := "";
     ProcessStats.Uptime := 0; ProcessStats.MemQuota := 0;
     ProcessStats.DiskQuota := 0; ProcessStats.FdsQuota := 0 |}.

Definition stats_pages : list (Page.t ProcessStats.t) :=
  [ Page.Build_t
      "https://some-addr.com/v3/processes/some-guid/stats?page=2&per_page=2" [stats_0];
    Page.Build_t "" [stats_2] ].

Definition stats_urls : list url.URL :=
  [ URL "http" "some-addr.com" "" "";
    URL "http" "some-addr.com" "/v3/processes/some-guid/stats" "page=2&per_page=2" ].

(** The two pages of [TestClientListTasks]. *)
Definition named (name : string) : Task.t :=
  {| Task.SequenceID := 0; Task.Name := name; Task.Command := "";
     Task.DiskInMB := 0; Task.MemoryInMB := 0; Task.State := "";
     Task.DropletGuid := ""; Task.Guid := ""; Task.CreatedAt := structs.zero_Time;
     Task.UpdatedAt := structs.zero_Time; Task.Links := ∅ |}.

Definition tasks_bodies : list string :=
  [ json_text
      "{'pagination':{'next':{'href':'http://some-addr.com/v3/apps/some-guid/tasks?page=2&per_page=2'}},
        'resources':[{'name':'task-1'},{'name':'task-2'},{'name':'task-3'}]}";
    json_text "{'resources':[{'name':'task-4'},{'name':'task-5'},{'name':'task-6'}]}" ].

Definition tasks_pages : list (Page.t Task.t) :=
  [ Page.Build_t "http://some-addr.com/v3/apps/some-guid/tasks?page=2&per_page=2"
      [named "task-1"; named "task-2"; named "task-3"];
    Page.Build_t "" [named "task-4"; named "task-5"; named "task-6"] ].

Definition tasks_urls : list url.URL :=
  [ URL "http" "some-addr.com" "" "";
    URL "http" "some-addr.com" "/v3/apps/some-guid/tasks" "page=2&per_page=2" ].

(** Two pages of tasks as the Cloud Controller serves them: the next link is
    an [https] one, and the task has a link. *)
Definition secure_tasks_bodies : list string :=
  [ json_text
      "{'pagination':{'next':{'href':'https://some-addr.com/v3/apps/some-guid/tasks?page=2&per_page=2'}},
        'resources':[{'name':'task-1',
                      'links':{'self':{'href':'https://some-addr.com/v3/tasks/task-guid'}}}]}";
    json_text "{'resources':[{'name':'task-2'}]}" ].

(** That task alone, as [GET /v3/tasks/task-guid] serves it. *)
Definition secure_task_body : string :=
  json_text "{'name':'task-1',
              'links':{'self':{'href':'https://some-addr.com/v3/tasks/task-guid'}}}".

(** An error of the Cloud Controller. *)
Definition server_error : http.Response.t :=
  {| http.Response.StatusCode := 500;
     http.Response.Body :=
       json_text "{'errors':[{'detail':'An unknown error occurred.','title':'UnknownError','code':10001}]}" |}.

(** [capi.NewClient("http://some-addr.com", "some-guid", "space-guid", spyDoer)],
    the client of [TestClientCreateTask]. *)
Definition task_client : Client.t Script.t :=
  NewClient "http://some-addr.com" "some-guid" "space-guid" scripted_Do.

(** The same client over a transport that honours contexts and answers
    after one nanosecond. *)
Definition cancellable_client : Client.t Script.t :=
  NewClient "http://some-addr.com" "some-guid" "space-guid" (cancellable_Do 1).

Definition response (code : Z) (body : string) : http.Response.t :=
  {| http.Response.StatusCode := code; http.Response.Body := json_text body |}.

Definition accepted : http.Response.t :=
  response 202 "{'links':{'self':{'href':'https://xx.succeeded'}},'state':'RUNNING'}".
Definition still_running : http.Response.t :=
  response 200 "{'links':{'self':{'href':'https://xx.succeeded'}},'state':'RUNNING'}".
Definition succeeded : http.Response.t :=
  response 200 "{'links':{'self':{'href':'https://xx.succeeded'}},'state':'SUCCEEDED'}".
Definition failed : http.Response.t :=
  response 200 "{'guid':'task-guid','state':'FAILED'}".

Definition status (state href : string) : TaskStatus.t :=
  {| TaskStatus.State := state; TaskStatus.Links_Self_Href := href |}.

(** The POST of [CreateTask] for the command [some-command]. *)
Definition create_some_command : http.Request.t :=
  POST (URL "http" "some-addr.com" "/v3/apps/some-guid/tasks" "")
    (json_text "{'command':'some-command'}") context.Background.

End example.

(** ** Failing, looping and recording transports *)

(** Where a cursor-following loop stands after it has followed [pages] from
    [addr]: the next address it fetches. *)
Fixpoint cursor {T} (norm : string → string) (addr : string)
    (pages : list (Page.t T)) : string :=
  match pages with
  | [] => addr
  | p :: pages' => cursor norm (norm (Page.Pagination_Next_Href p)) pages'
  end.

(** The four ways one iteration of a list loop fails on [address], the
    transport having [answers] left: the address does not parse (nothing is
    sent); the transport reports an error; the status is not 200; the body
    does not decode.  [e] is the error the iteration returns, [sent] what it
    has sent, [left] the answers the transport still has. *)
Inductive fails `{!NetURL} {T} `{!Decoder (Page.t T)}
    (request : url.URL → http.Request.t) (address : string)
    : list (result http.Response.t) → error → list http.Request.t
      → list (result http.Response.t) → Prop :=
  | fails_to_parse e answers :
      url_Parse address = Err e →
      fails request address answers e [] answers
  | fails_in_transport u e left :
      url_Parse address = Ok u →
      fails request address (Err e :: left) e [request u] left
  | fails_on_status u resp left :
      url_Parse address = Ok u →
      http.Response.StatusCode resp ≠ 200 →
      fails request address (Ok resp :: left)
        (fmt_Errorf_status "unexpected status code"
           (http.Response.StatusCode resp) (http.Response.Body resp))
        [request u] left
  | fails_to_decode u resp e left :
      url_Parse address = Ok u →
      http.Response.StatusCode resp = 200 →
      json_Decode (http.Response.Body resp) = Err e →
      fails request address (Ok resp :: left) e [request u] left.

(** A sequence of pages that all carry a next link, served and followed as
    in [well_formed]. *)
Definition followed_so_far {T} `{!NetURL} `{!Decoder (Page.t T)}
    (norm : string → string) (addr : string) (pages : list (Page.t T))
    (bodies : list string) (us : list url.URL) : Prop :=
  Forall (λ p, Page.Pagination_Next_Href p ≠ "") pages
  ∧ Forall2 (λ body p, json_Decode body = Ok p) bodies pages
  ∧ Forall2 (λ a u, url_Parse a = Ok u) (followed norm addr pages) us.

(** A transport that records its requests and gives every one the same
    answer. *)
Definition repeating_Do (answer : result http.Response.t) : Doer Script.t :=
  λ req w,
    (answer,
     {| Script.responses := Script.responses w;
        Script.requests := Script.requests w ++ [req];
        Script.clock := Script.clock w |}).

(** A transport that records each request it is handed, after those it has
    recorded before. *)
Definition recording (d : Doer Script.t) : Prop :=
  ∀ req w, Script.requests (d req w).2 = Script.requests w ++ [req].

(** Whenever [m] returns, the requests it has had recorded are [new], and
    [Q new] holds. *)
Definition sends {A} (Q : list http.Request.t → Prop) (m : go Script.t A) : Prop :=
  ∀ w r w', m w = Some (r, w') →
    ∃ new, Script.requests w' = Script.requests w ++ new ∧ Q new.

(** The client of the test suite over a transport that gives every request
    the same answer. *)
Definition repeating_client (answer : result http.Response.t) : Client.t Script.t :=
  NewClient "http://some-addr.com" "some-guid" "space-guid" (repeating_Do answer).

(** Every request of [new] is bound to the context [ctx]. *)
Definition bound_to (ctx : context.Context) (new : list http.Request.t) : Prop :=
  Forall (λ req, http.Request.ctx req = ctx) new.

(** Every request of [new] is a GET of [path] with no header and no body. *)
Definition plain_GETs_of (path : string) (new : list http.Request.t) : Prop :=
  Forall (λ req, http.Request.Method req = "GET"
                 ∧ url.Path (http.Request.URL req) = path
                 ∧ http.Request.Header req = ∅
                 ∧ http.Request.Body req = None) new.

(** [new] has at most [n] requests. *)
Definition at_most (n : nat) (new : list http.Request.t) : Prop :=
  (length new ≤ n)%nat.

(** The poller decodes [resp] and every envelope of [exchange] says RUNNING:
    [polled] without the last envelope. *)
Fixpoint running `{!NetURL} `{!Decoder TaskStatus.t} (resp : http.Response.t)
    (exchange : list (TaskStatus.t * url.URL * http.Response.t)) : Prop :=
  match exchange with
  | [] => True
  | (e, u, next) :: exchange' =>
      json_Decode (http.Response.Body resp) = Ok e
      ∧ TaskStatus.State e = "RUNNING"
      ∧ url_Parse (to_http (TaskStatus.Links_Self_Href e)) = Ok u
      ∧ running next exchange'
  end.

(** The response the poller holds after [exchange]. *)
Fixpoint held (resp : http.Response.t)
    (exchange : list (TaskStatus.t * url.URL * http.Response.t)) : http.Response.t :=
  match exchange with
  | [] => resp
  | (_, _, next) :: exchange' => held next exchange'
  end.

(** The three ways one iteration of the poller fails on the response [resp]
    it holds: the body does not decode; the task is running and its self
    link does not parse; the task is running and the transport reports an
    error for the GET.  [slept] is the number of sleeps of the iteration. *)
Inductive poll_fails `{!NetURL} `{!Decoder TaskStatus.t}
    (ctx : context.Context) (resp : http.Response.t)
    : list (result http.Response.t) → error → list http.Request.t
      → list (result http.Response.t) → nat → Prop :=
  | poll_fails_to_decode e answers :
      json_Decode (http.Response.Body resp) = Err e →
      poll_fails ctx resp answers e [] answers 0
  | poll_fails_to_parse env e answers :
      json_Decode (http.Response.Body resp) = Ok env →
      TaskStatus.State env = "RUNNING" →
      url_Parse (to_http (TaskStatus.Links_Self_Href env)) = Err e →
      poll_fails ctx resp answers e [] answers 1
  | poll_fails_in_transport env u e left :
      json_Decode (http.Response.Body resp) = Ok env →
      TaskStatus.State env = "RUNNING" →
      url_Parse (to_http (TaskStatus.Links_Self_Href env)) = Ok u →
      poll_fails ctx resp (Err e :: left) e [GET u ∅ None ctx] left 1.
(** ** Facts about [strings] *)

Lemma CutPrefix_Some s prefix rest :
  strings.CutPrefix s prefix = Some rest ↔ s = prefix +:+ rest.
Proof.
  revert s; induction prefix as [|p prefix IH]; intros s; simpl.
  - split; [intros [= ->]|intros ->]; reflexivity.
  - destruct s as [|c s]; [split; discriminate|].
    destruct (Ascii.eqb_spec p c) as [->|Hne].
    + rewrite IH. split; [intros ->|intros [= ->]]; reflexivity.
    + split; [discriminate|]. intros [= ? _]. congruence.
Qed.

Lemma HasPrefix_true s prefix :
  strings.HasPrefix s prefix = true ↔ ∃ rest, s = prefix +:+ rest.
Proof.
  unfold strings.HasPrefix.
  destruct (strings.CutPrefix s prefix) as [rest|] eqn:E.
  - apply CutPrefix_Some in E. split; eauto.
  - split; [discriminate|]. intros [rest Hrest].
    apply CutPrefix_Some in Hrest. congruence.
Qed.

Lemma HasPrefix_false_CutPrefix s prefix :
  strings.HasPrefix s prefix = false ↔ strings.CutPrefix s prefix = None.
Proof.
  unfold strings.HasPrefix. destruct (strings.CutPrefix s prefix); split; congruence.
Qed.

(** [Cut] finds an occurrence. *)
Lemma Cut_Some s sep before after :
  strings.Cut s sep = Some (before, after) → s = before +:+ sep +:+ after.
Proof.
  revert before; induction s as [|c s IH]; intros before; simpl.
  - destruct (strings.CutPrefix "" sep) as [r|] eqn:E; [|discriminate].
    intros [= <- <-]. now apply CutPrefix_Some in E.
  - destruct (strings.CutPrefix (String c s) sep) as [r|] eqn:E.
    + intros [= <- <-]. now apply CutPrefix_Some in E.
    + destruct (strings.Cut s sep) as [[b a]|] eqn:E'; [|discriminate].
      intros [= <- <-]. simpl. f_equal. now apply IH.
Qed.

(** [Cut] finds the leftmost one: no occurrence starts inside [before]. *)
Lemma Cut_leftmost s sep before after :
  strings.Cut s sep = Some (before, after) →
  ∀ i, (i < String.length before)%nat →
       strings.HasPrefix (strings.from i s) sep = false.
Proof.
  revert before; induction s as [|c s IH]; intros before; simpl.
  - destruct (strings.CutPrefix "" sep); [|discriminate].
    intros [= <- <-] i Hi. simpl in Hi. lia.
  - destruct (strings.CutPrefix (String c s) sep) as [r|] eqn:E.
    + intros [= <- <-] i Hi. simpl in Hi. lia.
    + destruct (strings.Cut s sep) as [[b a]|] eqn:E'; [|discriminate].
      intros [= <- <-] [|i] Hi; simpl in *.
      * now apply HasPrefix_false_CutPrefix.
      * apply (IH b); [reflexivity|lia].
Qed.

(** Conversely, the leftmost occurrence is the one [Cut] returns. *)
Lemma Cut_at_leftmost sep before after :
  (∀ i, (i < String.length before)%nat →
        strings.HasPrefix (strings.from i (before +:+ sep +:+ after)) sep = false) →
  strings.Cut (before +:+ sep +:+ after) sep = Some (before, after).
Proof.
  induction before as [|c before IH]; intros Hfirst.
  - simpl. destruct (sep +:+ after) as [|x r] eqn:Es; simpl.
    + assert (Hc : strings.CutPrefix "" sep = Some after)
        by (apply CutPrefix_Some; now rewrite Es).
      now rewrite Hc.
    + assert (Hc : strings.CutPrefix (String x r) sep = Some after)
        by (apply CutPrefix_Some; now rewrite Es).
      now rewrite Hc.
  - simpl.
    assert (H0 := Hfirst 0%nat ltac:(simpl; lia)). simpl in H0.
    apply HasPrefix_false_CutPrefix in H0. rewrite H0.
    rewrite IH; [reflexivity|].
    intros i Hi. apply (Hfirst (S i)). simpl. lia.
Qed.

Lemma Cut_None_no_occurrence s sep :
  strings.Cut s sep = None → ∀ before after, s ≠ before +:+ sep +:+ after.
Proof.
  induction s as [|c s IH]; simpl.
  - destruct (strings.CutPrefix "" sep) eqn:E; [discriminate|].
    intros _ [|x b] a Hs; [|discriminate].
    simpl in Hs. symmetry in Hs.
    assert (strings.CutPrefix "" sep = Some a) by now apply CutPrefix_Some.
    congruence.
  - destruct (strings.CutPrefix (String c s) sep) eqn:E; [discriminate|].
    destruct (strings.Cut s sep) as [[b a]|] eqn:E'; [discriminate|].
    intros _ [|x b] a Hs.
    + simpl in Hs.
      assert (strings.CutPrefix (String c s) sep = Some a)
        by now apply CutPrefix_Some.
      congruence.
    + simpl in Hs. injection Hs as -> Hs. now apply (IH eq_refl b a).
Qed.


(** ** The three list operations are the Paginator *)

Ltac go_unfold :=
  unfold bind, lift, ret, fail, Do, Sleep, out_of_fuel in *.

(* One iteration of a list loop against one iteration of the Paginator: the
   same case analysis on both sides, the induction hypothesis at the
   recursive call. *)
Ltac same_iteration w IH :=
  go_unfold;
  destruct (url_Parse _) as [?u|?e]; [|reflexivity];
  destruct (Client.doer _ _ w) as [[?resp|?e] ?w]; [|reflexivity];
  case_decide; [reflexivity|];
  destruct (json_Decode _) as [?results|?e]; [|reflexivity];
  case_decide; [apply IH|reflexivity].

Section PaginationFacts.
Context {W : Type} `{!Clock W} `{!NetURL}.
Context `{!Decoder (Page.t Process.t)} `{!Decoder (Page.t ProcessStats.t)}
        `{!Decoder (Page.t Task.t)}.
Implicit Types (c : Client.t W) (ctx : context.Context) (w : W).

Lemma Processes_loop_paginate fuel c ctx appGuid addr acc w :
  Processes_loop fuel c ctx appGuid addr acc w
  = paginate (Processes_request ctx appGuid) (λ s, to_http s) fuel c addr acc w.
Proof.
  revert addr acc w; induction fuel as [|fuel IH]; intros addr acc w;
    [reflexivity|].
  cbn [Processes_loop paginate]. same_iteration w IH.
Qed.

Lemma ProcessStats_loop_paginate fuel c ctx processGuid addr acc w :
  ProcessStats_loop fuel c ctx processGuid addr acc w
  = paginate (ProcessStats_request ctx processGuid) (λ s, to_http s) fuel c addr acc w.
Proof.
  revert addr acc w; induction fuel as [|fuel IH]; intros addr acc w;
    [reflexivity|].
  cbn [ProcessStats_loop paginate]. same_iteration w IH.
Qed.

Lemma ListTasks_loop_paginate fuel c ctx appGuid query addr acc w :
  ListTasks_loop fuel c ctx appGuid query addr acc w
  = paginate (ListTasks_request ctx appGuid query) (λ s, s) fuel c addr acc w.
Proof.
  revert addr acc w; induction fuel as [|fuel IH]; intros addr acc w;
    [reflexivity|].
  cbn [ListTasks_loop paginate]. same_iteration w IH.
Qed.

End PaginationFacts.

(** ** The Paginator against a scripted transport *)

Lemma to_http_empty s : to_http s = "" ↔ s = "".
Proof.
  split; [|intros ->; reflexivity].
  simpl. destruct (strings.Cut s "https") as [[before after]|] eqn:E; [|done].
  destruct before; discriminate.
Qed.

Section ScriptedPagination.
Context {T : Type} `{!NetURL} `{!Decoder (Page.t T)}.
Variable request : url.URL → http.Request.t.
Variable norm : string → string.
Hypothesis norm_empty : ∀ s, norm s = "" ↔ s = "".

Lemma paginate_pages (c : Client.t Script.t) pages :
  Client.doer c = scripted_Do →
  ∀ bodies us addr acc rest log now fuel,
  well_formed norm addr pages bodies us →
  (length pages ≤ fuel)%nat →
  paginate request norm fuel c addr acc
    {| Script.responses := (OK_200 <$> bodies) ++ rest;
       Script.requests := log; Script.clock := now |}
  = Some (Ok (acc ++ concat (Page.Resources <$> pages)),
          {| Script.responses := rest;
             Script.requests := log ++ (request <$> us);
             Script.clock := now |}).
Proof.
  intros Hdoer. induction pages as [|p ps IH];
    intros bodies us addr acc rest log now fuel (Hpaged & Hdec & Hparse) Hfuel.
  { destruct Hpaged. }
  destruct fuel as [|fuel]; [simpl in Hfuel; lia|].
  apply Forall2_cons_inv_r in Hdec as (body & bodies' & Hbody & Hdec & ->).
  cbn [followed] in Hparse.
  apply Forall2_cons_inv_l in Hparse as (u & us' & Hu & Hparse & ->).
  cbn [paginate]. go_unfold. rewrite Hu, Hdoer.
  unfold scripted_Do; cbn.
  case_decide as Hstatus; [congruence|]. rewrite Hbody.
  destruct ps as [|p' ps].
  - (* the last page *)
    cbn in Hpaged. apply norm_empty in Hpaged.
    case_decide as Hnext; [congruence|].
    apply Forall2_nil_inv_l in Hparse as ->.
    apply Forall2_nil_inv_r in Hdec as ->.
    cbn. now rewrite app_nil_r.
  - (* a page with a next link *)
    destruct Hpaged as [Hnext Hpaged].
    case_decide as Hnext'; [|exfalso; apply Hnext, norm_empty; tauto].
    rewrite (IH bodies' us' _ _ rest _ now fuel);
      [|repeat split; assumption|simpl in *; lia].
    cbn [fmap list_fmap concat].
    now rewrite <- !(assoc_L (++)).
Qed.

End ScriptedPagination.

Lemma followed_length {T} norm addr (pages : list (Page.t T)) :
  length (followed norm addr pages) = length pages.
Proof.
  revert addr; induction pages as [|p ps IH]; intros addr; simpl; [done|].
  now rewrite IH.
Qed.

Lemma well_formed_length {T} `{!NetURL} `{!Decoder (Page.t T)} norm addr
    (pages : list (Page.t T)) bodies us :
  well_formed norm addr pages bodies us → length us = length pages.
Proof.
  intros (_ & _ & Hparse). apply Forall2_length in Hparse.
  now rewrite followed_length in Hparse.
Qed.

(** What the Paginator leaves behind when it is served a well-formed
    exchange from the start: every resource, and one request per page. *)
Lemma paginate_all_pages {T} `{!NetURL} `{!Decoder (Page.t T)}
    (request : url.URL → http.Request.t) (norm : string → string)
    (c : Client.t Script.t) (pages : list (Page.t T)) bodies us now fuel :
  (∀ s, norm s = "" ↔ s = "") →
  (∀ u, http.Request.Method (request u) = "GET") →
  Client.doer c = scripted_Do →
  well_formed norm (Client.addr c) pages bodies us →
  (length pages ≤ fuel)%nat →
  ∃ w', paginate request norm fuel c (Client.addr c) []
          (Script.start (OK_200 <$> bodies) now)
        = Some (Ok (concat (Page.Resources <$> pages)), w')
      ∧ Script.requests w' = request <$> us
      ∧ length (Script.requests w') = length pages
      ∧ Forall (λ req, http.Request.Method req = "GET") (Script.requests w')
      ∧ Script.responses w' = [].
Proof.
  intros Hnorm Hget Hdoer Hwf Hfuel.
  eexists. split.
  - unfold Script.start.
    rewrite <- (app_nil_r (OK_200 <$> bodies)).
    rewrite (paginate_pages request norm Hnorm c pages Hdoer
               bodies us _ [] [] [] now fuel Hwf Hfuel).
    reflexivity.
  - cbn [Script.requests Script.responses app].
    pose proof (well_formed_length _ _ _ _ _ Hwf) as Hlen.
    split; [reflexivity|]. split; [now rewrite length_fmap|].
    split; [|reflexivity].
    apply Forall_fmap, Forall_true. intros u; apply Hget.
Qed.

Section ListOperations.
Context `{!NetURL}.
Context `{!Decoder (Page.t Process.t)} `{!Decoder (Page.t ProcessStats.t)}
        `{!Decoder (Page.t Task.t)}.

(** C1.  Served a well-formed sequence of pages in which each page but the
    last carries a non-empty next link, each of [Processes], [ProcessStats]
    and [ListTasks] returns (given at least as many iterations as there are
    pages) the resources of all pages, concatenated in page order with the
    order within a page kept, and has issued exactly one request per page,
    each of them a GET. *)
Theorem list_operations_return_all_pages (c : Client.t Script.t)
    (ctx : context.Context) (now : time.Time) (fuel : nat) :
  Client.doer c = scripted_Do →
  (∀ appGuid (pages : list (Page.t Process.t)) bodies us,
     well_formed (λ s, to_http s) (Client.addr c) pages bodies us →
     (length pages ≤ fuel)%nat →
     ∃ w', Processes fuel c ctx appGuid (Script.start (OK_200 <$> bodies) now)
           = Some (Ok (concat (Page.Resources <$> pages)), w')
         ∧ Script.requests w' = Processes_request ctx appGuid <$> us
         ∧ length (Script.requests w') = length pages
         ∧ Forall (λ req, http.Request.Method req = "GET") (Script.requests w')
         ∧ Script.responses w' = [])
  ∧ (∀ processGuid (pages : list (Page.t ProcessStats.t)) bodies us,
     well_formed (λ s, to_http s) (Client.addr c) pages bodies us →
     (length pages ≤ fuel)%nat →
     ∃ w', ProcessStats fuel c ctx processGuid (Script.start (OK_200 <$> bodies) now)
           = Some (Ok (concat (Page.Resources <$> pages)), w')
         ∧ Script.requests w' = ProcessStats_request ctx processGuid <$> us
         ∧ length (Script.requests w') = length pages
         ∧ Forall (λ req, http.Request.Method req = "GET") (Script.requests w')
         ∧ Script.responses w' = [])
  ∧ (∀ appGuid query (pages : list (Page.t Task.t)) bodies us,
     well_formed (λ s, s) (Client.addr c) pages bodies us →
     (length pages ≤ fuel)%nat →
     ∃ w', ListTasks fuel c ctx appGuid query (Script.start (OK_200 <$> bodies) now)
           = Some (Ok (concat (Page.Resources <$> pages)), w')
         ∧ Script.requests w' = ListTasks_request ctx appGuid query <$> us
         ∧ length (Script.requests w') = length pages
         ∧ Forall (λ req, http.Request.Method req = "GET") (Script.requests w')
         ∧ Script.responses w' = []).
Proof.
  intros Hdoer. split; [|split].
  - intros appGuid pages bodies us Hwf Hfuel. unfold Processes.
    rewrite Processes_loop_paginate.
    apply paginate_all_pages; auto using to_http_empty.
  - intros processGuid pages bodies us Hwf Hfuel. unfold ProcessStats.
    rewrite ProcessStats_loop_paginate.
    apply paginate_all_pages; auto using to_http_empty.
  - intros appGuid query pages bodies us Hwf Hfuel. unfold ListTasks.
    rewrite ListTasks_loop_paginate.
    apply paginate_all_pages; auto.
Qed.

End ListOperations.

(** ** The list operations on the exchanges of the test suite *)

Section PaginationExamples.
#[local] Existing Instances simple_NetURL simple_Process_page
  simple_ProcessStats_page simple_Task_page.

Ltac exchange_is_well_formed :=
  split; [cbn; repeat split; done
         |split; repeat constructor; vm_compute; reflexivity].

Lemma list_operations_return_all_pages_witness :
  well_formed (λ s, to_http s) "http://some-addr.com"
    example.processes_pages example.processes_bodies example.processes_urls
  ∧ well_formed (λ s, to_http s) "http://some-addr.com"
      example.stats_pages example.stats_bodies example.stats_urls
  ∧ well_formed (λ s, s) "http://some-addr.com"
      example.tasks_pages example.tasks_bodies example.tasks_urls
  ∧ (∃ w', Processes 2 example.client context.Background "some-guid"
             (Script.start (OK_200 <$> example.processes_bodies) 0)
           = Some (Ok [example.proc_1; example.proc_2], w')
         ∧ length (Script.requests w') = 2%nat)
  ∧ (∃ w', ProcessStats 2 example.client context.Background "some-guid"
             (Script.start (OK_200 <$> example.stats_bodies) 0)
           = Some (Ok [example.stats_0; example.stats_2], w')
         ∧ length (Script.requests w') = 2%nat)
  ∧ (∃ w', ListTasks 2 example.client context.Background "some-guid" ∅
             (Script.start (OK_200 <$> example.tasks_bodies) 0)
           = Some (Ok (example.named <$> ["task-1"; "task-2"; "task-3";
                                          "task-4"; "task-5"; "task-6"]), w')
         ∧ length (Script.requests w') = 2%nat).
Proof.
  assert (HP : well_formed (λ s, to_http s) "http://some-addr.com"
                 example.processes_pages example.processes_bodies
                 example.processes_urls) by exchange_is_well_formed.
  assert (HS : well_formed (λ s, to_http s) "http://some-addr.com"
                 example.stats_pages example.stats_bodies example.stats_urls)
    by exchange_is_well_formed.
  assert (HT : well_formed (λ s, s) "http://some-addr.com"
                 example.tasks_pages example.tasks_bodies example.tasks_urls)
    by exchange_is_well_formed.
  destruct (list_operations_return_all_pages example.client
              context.Background 0 2 eq_refl) as (Processes_ok & Stats_ok & Tasks_ok).
  split; [exact HP|]. split; [exact HS|]. split; [exact HT|].
  split; [|split].
  - destruct (Processes_ok "some-guid" _ _ _ HP) as (w' & Hrun & _ & Hlen & _);
      [simpl; lia|]. exists w'. split; [exact Hrun|exact Hlen].
  - destruct (Stats_ok "some-guid" _ _ _ HS) as (w' & Hrun & _ & Hlen & _);
      [simpl; lia|]. exists w'. split; [exact Hrun|exact Hlen].
  - destruct (Tasks_ok "some-guid" ∅ _ _ _ HT) as (w' & Hrun & _ & Hlen & _);
      [simpl; lia|]. exists w'. split; [exact Hrun|exact Hlen].
Defined.

End PaginationExamples.

(** ** The link rewriting *)

Lemma Contains_true s substr :
  strings.Contains s substr = true ↔ ∃ before after, s = before +:+ substr +:+ after.
Proof.
  unfold strings.Contains.
  destruct (strings.Cut s substr) as [[before after]|] eqn:E.
  - split; [|done]. intros _. exists before, after. now apply Cut_Some.
  - split; [done|]. intros (before & after & Hs).
    exfalso. now apply (Cut_None_no_occurrence _ _ E before after).
Qed.

Lemma to_http_prefix rest : to_http ("https" +:+ rest) = "http" +:+ rest.
Proof. reflexivity. Qed.

Lemma to_http_leftmost before after :
  (∀ i, (i < String.length before)%nat →
        strings.HasPrefix (strings.from i (before +:+ "https" +:+ after)) "https" = false) →
  to_http (before +:+ "https" +:+ after) = before +:+ "http" +:+ after.
Proof.
  intros Hfirst. cbn [strings.Replace].
  now rewrite (Cut_at_leftmost "https" before after Hfirst).
Qed.

Lemma to_http_absent s : strings.Contains s "https" = false → to_http s = s.
Proof.
  unfold strings.Contains. cbn [strings.Replace].
  now destruct (strings.Cut s "https") as [[before after]|].
Qed.

(** C2, as amended.  The link rewriting, [strings.Replace(s, "https",
    "http", 1)] at every site and first of all on the address given to
    [NewClient], rewrites the leftmost occurrence of ["https"] wherever it
    is in the string, and leaves what is before and after it unchanged.  So
    a string that starts with ["https"] has that prefix rewritten and its
    remainder kept, and a string in which ["https"] does not occur is
    unchanged. *)
Theorem link_rewrite_leftmost_occurrence :
  (∀ W addr appGuid spaceGuid (d : Doer W),
     Client.addr (NewClient addr appGuid spaceGuid d) = to_http addr)
  ∧ (∀ rest, to_http ("https" +:+ rest) = "http" +:+ rest)
  ∧ (∀ before after,
       (∀ i, (i < String.length before)%nat →
             strings.HasPrefix (strings.from i (before +:+ "https" +:+ after)) "https"
             = false) →
       to_http (before +:+ "https" +:+ after) = before +:+ "http" +:+ after)
  ∧ (∀ s, strings.Contains s "https" = false → to_http s = s).
Proof.
  split; [reflexivity|].
  split; [exact to_http_prefix|].
  split; [exact to_http_leftmost|exact to_http_absent].
Qed.

Lemma link_rewrite_leftmost_occurrence_witness :
  Client.addr (NewClient "https://api.example.com" "app" "space" scripted_Do)
  = "http://api.example.com"
  ∧ to_http "http://host/a/https/b/https" = "http://host/a/http/b/https"
  ∧ strings.Contains "http://host/a" "https" = false
  ∧ to_http "http://host/a" = "http://host/a".
Proof.
  destruct link_rewrite_leftmost_occurrence
    as (Hnew & Hprefix & Hleftmost & Habsent).
  split; [rewrite Hnew; exact (Hprefix "://api.example.com")|].
  split.
  - apply (Hleftmost "http://host/a/" "/b/https").
    intros i Hi.
    do 14 (destruct i as [|i]; [reflexivity|]). simpl in Hi. lia.
  - split; [reflexivity|]. apply Habsent. reflexivity.
Defined.

(** C2 as it is stated does not hold: a string that does not start with
    ["https"] but has it in its path is rewritten there. *)
Lemma link_rewrite_reaches_the_path :
  strings.HasPrefix "http://host/https/x" "https" = false
  ∧ to_http "http://host/https/x" = "http://host/http/x"
  ∧ to_http "http://host/https/x" ≠ "http://host/https/x".
Proof. split; [reflexivity|]. split; [reflexivity|discriminate]. Qed.

(** ** The query parameters of [ListTasks] *)

Lemma Add_lookup_total (q : url.Values) key value k :
  url.Add q key value !!! k
  = if decide (key = k) then q !!! key ++ [value] else q !!! k.
Proof.
  unfold url.Add. case_decide as Hk.
  - subst k. now rewrite lookup_total_insert_eq.
  - now rewrite lookup_total_insert_ne.
Qed.

Lemma Add_all_lookup_total (values : list string) (q : url.Values) key k :
  foldl (λ q vv, url.Add q key vv) q values !!! k
  = if decide (key = k) then q !!! key ++ values else q !!! k.
Proof.
  revert q; induction values as [|v values IH]; intros q; cbn [foldl].
  - case_decide; [subst; now rewrite app_nil_r|done].
  - rewrite IH, !Add_lookup_total.
    case_decide as Hk; [|done].
    rewrite decide_True by done. now rewrite <- (assoc_L (++)).
Qed.

(** What the loop over [query] leaves in [q]: under every key, the values
    [q] had followed by the values [query] has. *)
Lemma add_query_lookup_total (q : url.Values) (query : gmap string (list string)) k :
  add_query q query !!! k = q !!! k ++ query !!! k.
Proof.
  unfold add_query.
  apply (map_fold_weak_ind
           (λ (r : url.Values) (m : gmap string (list string)),
              r !!! k = q !!! k ++ m !!! k)).
  - now rewrite lookup_total_empty, app_nil_r.
  - intros key values m r Hfresh IH.
    rewrite Add_all_lookup_total. case_decide as Hk.
    + subst k. rewrite lookup_total_insert_eq.
      rewrite IH. rewrite (lookup_total_alt m), Hfresh. cbn.
      now rewrite app_nil_r.
    + now rewrite lookup_total_insert_ne.
Qed.

(** C3, as amended.  [ListTasks] builds every request the same way, the
    first and each one that follows a next link: it parses the address (the
    client's, then each next link as the server gave it), overwrites its path
    with the tasks path of the app, and sets its query to the encoding of the
    address's own parameters with the caller's parameters appended under
    their keys. *)
Theorem ListTasks_merges_query_into_every_request `{!NetURL}
    `{!Decoder (Page.t Task.t)} (c : Client.t Script.t) (ctx : context.Context)
    (appGuid : string) (query : gmap string (list string))
    (pages : list (Page.t Task.t)) (bodies : list string) (us : list url.URL)
    (now : time.Time) (fuel : nat) :
  Client.doer c = scripted_Do →
  well_formed (λ s, s) (Client.addr c) pages bodies us →
  (length pages ≤ fuel)%nat →
  ∃ w', ListTasks fuel c ctx appGuid query (Script.start (OK_200 <$> bodies) now)
        = Some (Ok (concat (Page.Resources <$> pages)), w')
      ∧ Forall2
          (λ address req, ∃ u,
             url_Parse address = Ok u
             ∧ let target := url.with_Path u ("/v3/apps/" +:+ appGuid +:+ "/tasks") in
               http.Request.URL req
               = url.with_RawQuery target
                   (Values_Encode (add_query (URL_Query target) query)))
          (followed (λ s, s) (Client.addr c) pages) (Script.requests w')
      ∧ ∀ (q : url.Values) key, add_query q query !!! key = q !!! key ++ query !!! key.
Proof.
  intros Hdoer Hwf Hfuel. unfold ListTasks.
  destruct (paginate_all_pages (ListTasks_request ctx appGuid query) (λ s, s)
              c pages bodies us now fuel) as (w' & Hrun & Hreqs & _);
    try done.
  exists w'. rewrite ListTasks_loop_paginate. split; [exact Hrun|].
  split; [|intros q key; apply add_query_lookup_total].
  rewrite Hreqs. apply Forall2_fmap_r.
  destruct Hwf as (_ & _ & Hparse).
  eapply Forall2_impl; [exact Hparse|].
  intros address u Hu. exists u. split; [exact Hu|reflexivity].
Qed.

Section ListTasksExamples.
#[local] Existing Instances simple_NetURL simple_Task_page.

Lemma ListTasks_merges_query_into_every_request_witness :
  well_formed (λ s, s) "http://some-addr.com"
    example.tasks_pages example.tasks_bodies example.tasks_urls
  ∧ ∃ w', ListTasks 2 example.client context.Background "some-guid"
            {[ "names" := ["x"] ]}
            (Script.start (OK_200 <$> example.tasks_bodies) 0)
          = Some (Ok (concat (Page.Resources <$> example.tasks_pages)), w')
        ∧ Forall2
            (λ address req, ∃ u,
               url_Parse address = Ok u
               ∧ let target := url.with_Path u "/v3/apps/some-guid/tasks" in
                 http.Request.URL req
                 = url.with_RawQuery target
                     (Values_Encode
                        (add_query (URL_Query target) {[ "names" := ["x"] ]})))
            (followed (λ s, s) "http://some-addr.com" example.tasks_pages)
            (Script.requests w').
Proof.
  assert (HT : well_formed (λ s, s) "http://some-addr.com"
                 example.tasks_pages example.tasks_bodies example.tasks_urls).
  { split; [cbn; repeat split; done
           |split; repeat constructor; vm_compute; reflexivity]. }
  split; [exact HT|].
  destruct (ListTasks_merges_query_into_every_request example.client
              context.Background "some-guid" {[ "names" := ["x"] ]}
              example.tasks_pages example.tasks_bodies example.tasks_urls 0 2
              eq_refl HT ltac:(simpl; lia)) as (w' & Hrun & Hrequests & _).
  exists w'. split; [exact Hrun|exact Hrequests].
Defined.

(** C3 as it is stated does not hold.  With the parameter [names=x] and the
    two pages of the test suite, the request that follows the next link
    [...?page=2&per_page=2] carries [names=x] again; and a next link with a
    path of its own is not followed verbatim either, its path is overwritten. *)
Lemma ListTasks_repeats_query_on_next_link :
  json_Decode <$> head example.tasks_bodies = Ok <$> head example.tasks_pages
  ∧ Page.Pagination_Next_Href <$> head example.tasks_pages
    = Some "http://some-addr.com/v3/apps/some-guid/tasks?page=2&per_page=2"
  ∧ (λ out, (λ req, url.RawQuery (http.Request.URL req)) <$> Script.requests out.2)
      <$> ListTasks 2 example.client context.Background "some-guid"
            {[ "names" := ["x"] ]}
            (Script.start (OK_200 <$> example.tasks_bodies) 0)
    = Some ["names=x"; "names=x&page=2&per_page=2"]
  ∧ (λ out, (λ req, url.Path (http.Request.URL req)) <$> Script.requests out.2)
      <$> ListTasks 2 example.client context.Background "some-guid" ∅
            (Script.start
               (OK_200 <$> [json_text "{'pagination':{'next':{'href':'http://some-addr.com/v3/tasks?page=2'}}}";
                            json_text "{}"]) 0)
    = Some ["/v3/apps/some-guid/tasks"; "/v3/apps/some-guid/tasks"].
Proof.
  split; [vm_compute; reflexivity|]. split; [reflexivity|].
  split; vm_compute; reflexivity.
Qed.

End ListTasksExamples.

(** ** The task poller against a scripted transport *)

Section Poller.
Context `{!NetURL} `{!Decoder TaskStatus.t} `{!Marshaler CreateTaskBody.t}.
Implicit Types (c : Client.t Script.t) (ctx : context.Context).

Lemma CreateTask_loop_polled c ctx interval exchange :
  Client.doer c = scripted_Do →
  ∀ resp final rest log now fuel,
  polled resp exchange final →
  Forall (λ step, TaskStatus.State step.1.1 = "RUNNING") exchange →
  TaskStatus.State final ≠ "RUNNING" →
  (length exchange < fuel)%nat →
  CreateTask_loop fuel c ctx interval resp
    {| Script.responses := (Ok <$> exchange.*2) ++ rest;
       Script.requests := log; Script.clock := now |}
  = Some (outcome final,
          {| Script.responses := rest;
             Script.requests := log ++ ((λ u, GET u ∅ None ctx) <$> exchange.*1.*2);
             Script.clock := now + Z.of_nat (length exchange) * Z.max 0 interval |}).
Proof.
  intros Hdoer. induction exchange as [|[[e u] next] exchange IH];
    intros resp final rest log now fuel Hpolled Hrunning Hfinal Hfuel;
    (destruct fuel as [|fuel]; [simpl in Hfuel; lia|]);
    cbn [CreateTask_loop]; go_unfold.
  - cbn in Hpolled. rewrite Hpolled.
    rewrite decide_False by done. unfold outcome.
    cbn. rewrite app_nil_r, Z.add_0_r.
    now case_decide.
  - destruct Hpolled as (He & Hu & Hpolled).
    apply Forall_cons in Hrunning as [Hstate Hrunning]. cbn in Hstate.
    rewrite He. rewrite decide_True by done.
    rewrite Hu, Hdoer. unfold scripted_Do. cbn.
    rewrite (IH next final rest _ _ fuel Hpolled Hrunning Hfinal);
      [|simpl in Hfuel; lia].
    assert (Hclock : now + Z.max 0 interval
                     + Z.of_nat (length exchange) * Z.max 0 interval
                     = now + Z.of_nat (length ((e, u, next) :: exchange))
                             * Z.max 0 interval)
      by (cbn [length]; generalize (Z.max 0 interval); lia).
    rewrite Hclock, <- (assoc_L (++)). reflexivity.
Qed.

Lemma filter_GETs ctx (us : list url.URL) :
  filter (λ req, http.Request.Method req = "GET") ((λ u, GET u ∅ None ctx) <$> us)
  = (λ u, GET u ∅ None ctx) <$> us.
Proof.
  induction us as [|u us IH]; [done|].
  cbn [fmap list_fmap]. rewrite filter_cons_True by done. f_equal. exact IH.
Qed.

(** C4.  [CreateTask], once its POST is answered with 202, decodes an
    envelope, and for as long as the envelope says RUNNING sleeps, sends a
    GET to its rewritten self link and decodes the answer.  [exchange] holds
    the envelopes that said RUNNING, the one of the POST first: when the
    POST and then N polled envelopes say RUNNING and the next one says
    SUCCEEDED, these are N+1 envelopes, and exactly N+1 GETs are sent, each
    to the rewritten self link of the envelope before it, and the error is
    nil.  The first envelope that does not say RUNNING ends the call with no
    further request: with the error "task failed" when it says FAILED, with
    a nil error whatever else it says. *)
Theorem CreateTask_polls_while_running c ctx (command : string)
    (interval : time.Duration) (u0 : url.URL) (marshalled : string)
    (post : http.Response.t)
    (exchange : list (TaskStatus.t * url.URL * http.Response.t))
    (final : TaskStatus.t) (rest : list (result http.Response.t))
    (now : time.Time) (fuel : nat) :
  Client.doer c = scripted_Do →
  url_Parse (Client.addr c) = Ok u0 →
  json_Marshal {| CreateTaskBody.Command := command;
                  CreateTaskBody.DropletGuid := "" |} = Ok marshalled →
  http.Response.StatusCode post = 202 →
  polled post exchange final →
  Forall (λ step, TaskStatus.State step.1.1 = "RUNNING") exchange →
  TaskStatus.State final ≠ "RUNNING" →
  (length exchange < fuel)%nat →
  ∃ w', CreateTask fuel c ctx command interval
          (Script.start (Ok post :: (Ok <$> exchange.*2) ++ rest) now)
        = Some (outcome final, w')
      ∧ Script.requests w'
        = POST (url.with_Path u0 ("/v3/apps/" +:+ Client.appGuid c +:+ "/tasks"))
            marshalled ctx
          :: ((λ u, GET u ∅ None ctx) <$> exchange.*1.*2)
      ∧ length (filter (λ req, http.Request.Method req = "GET") (Script.requests w'))
        = length exchange
      ∧ (∀ N, length exchange = S N →
              length (filter (λ req, http.Request.Method req = "GET")
                        (Script.requests w')) = (N + 1)%nat)
      ∧ Script.responses w' = rest
      ∧ (TaskStatus.State final = "FAILED" →
         outcome final = Err (errors_New "task failed"))
      ∧ (TaskStatus.State final ≠ "FAILED" → outcome final = Ok tt).
Proof.
  intros Hdoer Hu0 Hbody Hstatus Hpolled Hrunning Hfinal Hfuel.
  eexists. split.
  - unfold CreateTask, Script.start. go_unfold.
    rewrite Hu0, Hbody, Hdoer. unfold scripted_Do at 1. cbn.
    case_decide as Hcode; [congruence|].
    now apply CreateTask_loop_polled.
  - cbn [Script.requests Script.responses app].
    assert (Hgets : length (filter (λ req, http.Request.Method req = "GET")
                              (POST (url.with_Path u0
                                       ("/v3/apps/" +:+ Client.appGuid c +:+ "/tasks"))
                                 marshalled ctx
                               :: ((λ u, GET u ∅ None ctx) <$> exchange.*1.*2)))
                    = length exchange).
    { rewrite filter_cons_False by (cbn; discriminate).
      rewrite filter_GETs. now rewrite !length_fmap. }
    split; [reflexivity|]. split; [exact Hgets|].
    split; [intros N HN; etransitivity; [exact Hgets|lia]|].
    split; [reflexivity|].
    unfold outcome. split; intros Hstate; now case_decide.
Qed.

End Poller.

Section PollerExamples.
#[local] Existing Instances simple_NetURL simple_TaskStatus simple_CreateTaskBody.

Lemma CreateTask_polls_while_running_witness :
  (∃ w', CreateTask 3 example.task_client context.Background "some-command" 1000000
           (Script.start [Ok example.accepted; Ok example.still_running;
                          Ok example.succeeded] 0)
         = Some (Ok tt, w')
       ∧ Script.requests w'
         = [example.create_some_command;
            GET (example.URL "http" "xx.succeeded" "" "") ∅ None context.Background;
            GET (example.URL "http" "xx.succeeded" "" "") ∅ None context.Background])
  ∧ (∃ w', CreateTask 2 example.task_client context.Background "some-command" 1000000
             (Script.start [Ok example.accepted; Ok example.failed;
                            Ok example.succeeded] 0)
           = Some (Err (errors_New "task failed"), w')
         ∧ length (filter (λ req, http.Request.Method req = "GET") (Script.requests w'))
           = 1%nat
         ∧ Script.responses w' = [Ok example.succeeded]).
Proof.
  split.
  - destruct (CreateTask_polls_while_running example.task_client
                context.Background "some-command" 1000000
                (example.URL "http" "some-addr.com" "" "")
                (json_text "{'command':'some-command'}")
                example.accepted
                [ (example.status "RUNNING" "https://xx.succeeded",
                   example.URL "http" "xx.succeeded" "" "", example.still_running);
                  (example.status "RUNNING" "https://xx.succeeded",
                   example.URL "http" "xx.succeeded" "" "", example.succeeded) ]
                (example.status "SUCCEEDED" "https://xx.succeeded")
                [] 0 3)
      as (w' & Hrun & Hrequests & _); try reflexivity.
    + repeat split; vm_compute; reflexivity.
    + repeat constructor.
    + discriminate.
    + simpl; lia.
    + exists w'. split; [exact Hrun|exact Hrequests].
  - destruct (CreateTask_polls_while_running example.task_client
                context.Background "some-command" 1000000
                (example.URL "http" "some-addr.com" "" "")
                (json_text "{'command':'some-command'}")
                example.accepted
                [ (example.status "RUNNING" "https://xx.succeeded",
                   example.URL "http" "xx.succeeded" "" "", example.failed) ]
                (example.status "FAILED" "")
                [Ok example.succeeded] 0 2)
      as (w' & Hrun & _ & Hgets & _ & Hleft & _); try reflexivity.
    + repeat split; vm_compute; reflexivity.
    + repeat constructor.
    + discriminate.
    + simpl; lia.
    + exists w'. split; [exact Hrun|]. split; [exact Hgets|exact Hleft].
Defined.

End PollerExamples.

(** ** The single-resource fetchers *)


Section Fetchers.
Context {W : Type} `{!NetURL} `{!Reader}.
Context `{!Decoder AppsResult.t} `{!Decoder DropletResult.t}
        `{!Decoder DropletLinks.t} `{!Decoder PackageResult.t}
        `{!Decoder EnvResult.t}.
Implicit Types (c : Client.t W) (ctx : context.Context) (w : W).


End Fetchers.

Section FetcherExamples.
#[local] Existing Instances simple_NetURL simple_Reader simple_AppsResult
  simple_DropletResult simple_DropletLinks simple_PackageResult simple_EnvResult.



End FetcherExamples.

(** ** The default app of the client *)

Section DefaultApp.
Context `{!NetURL} `{!Decoder Task.t} `{!Decoder EnvResult.t}
        `{!Marshaler RunTaskBody.t}.

(* Whatever the transport answers, the call has returned after its one
   request. *)
Ltac one_request answers :=
  destruct answers as [|[?resp|?e] ?rest]; cbn;
  repeat case_decide; repeat case_match; eauto.

(** C10.  [RunTask] and [GetEnvironmentVariables] called with the empty
    string for the app guid address the app the client was constructed with;
    called with a non-empty app guid they address that app.  Whatever the
    transport answers, the one request they send goes to the tasks path, or
    the environment variables path, of that target app. *)
Theorem empty_app_guid_means_default (c : Client.t Script.t)
    (ctx : context.Context) (command name droplet appGuid target : string)
    (u : url.URL) (marshalled : string)
    (answers : list (result http.Response.t)) (now : time.Time) :
  Client.doer c = scripted_Do →
  url_Parse (Client.addr c) = Ok u →
  json_Marshal {| RunTaskBody.Command := command; RunTaskBody.Name := name;
                  RunTaskBody.DropletGuid := droplet |} = Ok marshalled →
  (appGuid = "" ∧ target = Client.appGuid c) ∨ (appGuid ≠ "" ∧ target = appGuid) →
  (∃ r w', RunTask c ctx command name droplet appGuid (Script.start answers now)
           = Some (r, w')
         ∧ Script.requests w'
           = [POST (url.with_Path u ("/v3/apps/" +:+ target +:+ "/tasks"))
                marshalled ctx])
  ∧ (∃ r w', GetEnvironmentVariables c ctx appGuid (Script.start answers now)
             = Some (r, w')
           ∧ Script.requests w'
             = [GET (url.with_Path u ("/v3/apps/" +:+ target
                                        +:+ "/environment_variables"))
                  Accept_json (Some "") ctx]).
Proof.
  intros Hdoer Hu Hbody Htarget.
  assert ((if decide (appGuid = "") then Client.appGuid c else appGuid) = target)
    as Happ.
  { destruct Htarget as [[-> ->]|[Hne ->]]; [done|]. now rewrite decide_False. }
  split.
  - unfold RunTask, Script.start. go_unfold.
    rewrite Happ, Hu, Hbody, Hdoer. unfold scripted_Do.
    one_request answers.
  - unfold GetEnvironmentVariables, Script.start. go_unfold.
    rewrite Happ, Hu, Hdoer. unfold scripted_Do.
    one_request answers.
Qed.

End DefaultApp.

Section DefaultAppExamples.
#[local] Existing Instances simple_NetURL simple_Task simple_EnvResult
  simple_RunTaskBody.

Lemma empty_app_guid_means_default_witness :
  (∃ r w', RunTask example.task_client context.Background "some-command" "" "" ""
             (Script.start [] 0) = Some (r, w')
         ∧ (λ req, url.Path (http.Request.URL req)) <$> Script.requests w'
           = ["/v3/apps/some-guid/tasks"])
  ∧ (∃ r w', GetEnvironmentVariables example.task_client context.Background
               "other-app" (Script.start [] 0) = Some (r, w')
           ∧ (λ req, url.Path (http.Request.URL req)) <$> Script.requests w'
             = ["/v3/apps/other-app/environment_variables"]).
Proof.
  split.
  - destruct (empty_app_guid_means_default example.task_client
                context.Background "some-command" "" "" "" "some-guid"
                (example.URL "http" "some-addr.com" "" "")
                (json_text "{'command':'some-command'}") [] 0)
      as ((r & w' & Hrun & Hrequests) & _);
      [reflexivity|reflexivity|reflexivity|left; split; reflexivity|].
    exists r, w'. split; [exact Hrun|]. rewrite Hrequests. reflexivity.
  - destruct (empty_app_guid_means_default example.task_client
                context.Background "some-command" "" "" "other-app" "other-app"
                (example.URL "http" "some-addr.com" "" "")
                (json_text "{'command':'some-command'}") [] 0)
      as (_ & (r & w' & Hrun & Hrequests));
      [reflexivity|reflexivity|reflexivity
      |right; split; [discriminate|reflexivity]|].
    exists r, w'. split; [exact Hrun|]. rewrite Hrequests. reflexivity.
Defined.

End DefaultAppExamples.

(** ** Links in [ListTasks], [GetTask] and [RunTask] *)

Lemma http_link_Href (l : Links.t) :
  Links.Href (http_link l) = to_http (Links.Href l).
Proof. reflexivity. Qed.

Lemma http_link_Method (l : Links.t) :
  (Links.Method l = "" → Links.Method (http_link l) = "GET")
  ∧ (Links.Method l ≠ "" → Links.Method (http_link l) = Links.Method l).
Proof. unfold http_link; cbn. split; intros Hm; now case_decide. Qed.

Section TaskLinks.
Context {W : Type} `{!NetURL} `{!Decoder Task.t} `{!Marshaler RunTaskBody.t}.
Implicit Types (c : Client.t W) (ctx : context.Context) (w : W).

(** X8.  On a response with the required status whose body decodes,
    [GetTask] and [RunTask] return the decoded task with every link
    rewritten and nothing else changed: the task has a link under the keys
    of the decoded one and no other; in the address of a link the leftmost
    ["https"] has become ["http"], what is before and after it is kept, and
    an address without ["https"] is kept as it is; an empty method has
    become ["GET"], another method is kept. *)
Lemma GetTask_RunTask_rewrite_links c ctx (decoded : Task.t) (resp : http.Response.t)
    (u : url.URL) w w' :
  url_Parse (Client.addr c) = Ok u →
  json_Decode (http.Response.Body resp) = Ok decoded →
  (∀ guid,
     Client.doer c (GET (url.with_Path u ("/v3/tasks/" +:+ guid))
                      Accept_json (Some "") ctx) w = (Ok resp, w') →
     http.Response.StatusCode resp = 200 →
     ∃ task, GetTask c ctx guid w = Some (Ok task, w')
       ∧ Task.with_Links task (Task.Links decoded) = decoded
       ∧ (∀ k, Task.Links decoded !! k = None → Task.Links task !! k = None)
       ∧ (∀ k l, Task.Links decoded !! k = Some l →
            ∃ href,
              Task.Links task !! k
              = Some {| Links.Href := href;
                        Links.Method := if decide (Links.Method l = "")
                                        then "GET" else Links.Method l |}
              ∧ (∀ before after,
                   Links.Href l = before +:+ "https" +:+ after →
                   (∀ i, (i < String.length before)%nat →
                         strings.HasPrefix (strings.from i (Links.Href l)) "https"
                         = false) →
                   href = before +:+ "http" +:+ after)
              ∧ (strings.Contains (Links.Href l) "https" = false →
                 href = Links.Href l)))
  ∧ (∀ command name droplet appGuid marshalled,
     json_Marshal {| RunTaskBody.Command := command; RunTaskBody.Name := name;
                     RunTaskBody.DropletGuid := droplet |} = Ok marshalled →
     Client.doer c
       (POST (url.with_Path u ("/v3/apps/"
                +:+ (if decide (appGuid = "") then Client.appGuid c else appGuid)
                +:+ "/tasks")) marshalled ctx) w = (Ok resp, w') →
     http.Response.StatusCode resp = 202 →
     ∃ task, RunTask c ctx command name droplet appGuid w = Some (Ok task, w')
       ∧ Task.with_Links task (Task.Links decoded) = decoded
       ∧ (∀ k, Task.Links decoded !! k = None → Task.Links task !! k = None)
       ∧ (∀ k l, Task.Links decoded !! k = Some l →
            ∃ href,
              Task.Links task !! k
              = Some {| Links.Href := href;
                        Links.Method := if decide (Links.Method l = "")
                                        then "GET" else Links.Method l |}
              ∧ (∀ before after,
                   Links.Href l = before +:+ "https" +:+ after →
                   (∀ i, (i < String.length before)%nat →
                         strings.HasPrefix (strings.from i (Links.Href l)) "https"
                         = false) →
                   href = before +:+ "http" +:+ after)
              ∧ (strings.Contains (Links.Href l) "https" = false →
                 href = Links.Href l))).
Proof.
  intros Hu Hdecoded.
  assert (Hlinks :
    Task.with_Links (Task.with_Links decoded (http_link <$> Task.Links decoded))
      (Task.Links decoded) = decoded
    ∧ (∀ k, Task.Links decoded !! k = None →
            (http_link <$> Task.Links decoded) !! k = None)
    ∧ (∀ k l, Task.Links decoded !! k = Some l →
         ∃ href,
           (http_link <$> Task.Links decoded) !! k
           = Some {| Links.Href := href;
                     Links.Method := if decide (Links.Method l = "")
                                     then "GET" else Links.Method l |}
           ∧ (∀ before after,
                Links.Href l = before +:+ "https" +:+ after →
                (∀ i, (i < String.length before)%nat →
                      strings.HasPrefix (strings.from i (Links.Href l)) "https"
                      = false) →
                href = before +:+ "http" +:+ after)
           ∧ (strings.Contains (Links.Href l) "https" = false →
              href = Links.Href l))).
  { split; [now destruct decoded|]. split.
    - intros k Hk. now rewrite lookup_fmap, Hk.
    - intros k l Hk. exists (to_http (Links.Href l)). split; [|split].
      + now rewrite lookup_fmap, Hk.
      + intros before after Hhref Hfirst. rewrite Hhref in Hfirst |- *.
        now apply to_http_leftmost.
      + apply to_http_absent. }
  split.
  - intros guid Hdo Hstatus. eexists. split; [|exact Hlinks].
    unfold GetTask. go_unfold. rewrite Hu, Hdo.
    rewrite decide_False by (intros ?; congruence).
    rewrite Hdecoded. reflexivity.
  - intros command name droplet appGuid marshalled Hbody Hdo Hstatus.
    eexists. split; [|exact Hlinks].
    unfold RunTask. go_unfold. rewrite Hu, Hbody, Hdo.
    rewrite decide_False by (intros ?; congruence).
    rewrite Hdecoded. reflexivity.
Qed.

End TaskLinks.

Section ListTasksLinks.
#[local] Existing Instances simple_NetURL simple_Task_page simple_Task
  simple_Process_page.

(** C5, at the failing input.  Served a first page whose next link is an
    [https] one, [ListTasks] sends its second request over [https]:
    it follows the next link as decoded.  [Processes], served the same
    next link, sends its second request over [http]. *)
Theorem ListTasks_follows_https_next_link :
  (λ out, (λ req, url.Scheme (http.Request.URL req)) <$> Script.requests out.2)
    <$> ListTasks 2 example.client context.Background "some-guid" ∅
          (Script.start (OK_200 <$> example.secure_tasks_bodies) 0)
  = Some ["http"; "https"]
  ∧ (λ out, (λ req, url.Scheme (http.Request.URL req)) <$> Script.requests out.2)
      <$> Processes 2 example.client context.Background "some-guid"
            (Script.start (OK_200 <$> example.secure_tasks_bodies) 0)
    = Some ["http"; "http"].
Proof. split; vm_compute; reflexivity. Qed.

(** C6, at the failing input.  A task with the link
    [self: https://some-addr.com/v3/tasks/task-guid], no method given, comes
    back from [ListTasks] with that link as decoded, [https] and no method;
    from [GetTask] it comes back with the URL rewritten to [http] and the
    method [GET]. *)
Theorem ListTasks_returns_links_as_decoded :
  (λ out, match out.1 with
          | Ok tasks => (λ task, Task.Links task !! "self") <$> tasks
          | Err _ => []
          end)
    <$> ListTasks 2 example.client context.Background "some-guid" ∅
          (Script.start (OK_200 <$> example.secure_tasks_bodies) 0)
  = Some [ Some {| Links.Href := "https://some-addr.com/v3/tasks/task-guid";
                   Links.Method := "" |};
           None ]
  ∧ (λ out, match out.1 with
            | Ok task => Task.Links task !! "self"
            | Err _ => None
            end)
      <$> GetTask example.client context.Background "task-guid"
            (Script.start [OK_200 example.secure_task_body] 0)
    = Some (Some {| Links.Href := "http://some-addr.com/v3/tasks/task-guid";
                    Links.Method := "GET" |}).
Proof. split; vm_compute; reflexivity. Qed.

End ListTasksLinks.

(** ** The status check *)

Section StatusGate.
Context {W : Type} `{!Clock W} `{!NetURL} `{reader : !Reader}.
Context `{!Decoder (Page.t Process.t)} `{!Decoder (Page.t ProcessStats.t)}
        `{!Decoder (Page.t Task.t)} `{!Decoder Task.t}
        `{!Decoder AppsResult.t} `{!Decoder DropletResult.t}
        `{!Decoder TaskStatus.t} `{!Decoder DropletLinks.t}
        `{!Decoder PackageResult.t} `{!Decoder EnvResult.t}
        `{!Marshaler CreateTaskBody.t} `{!Marshaler RunTaskBody.t}.
Implicit Types (c : Client.t W) (ctx : context.Context) (w : W).

(* The request is the one the method builds, its answer has another code
   than the one required: the method returns the status error there. *)
Ltac refused Hu Hdo :=
  unfold Processes_request, ProcessStats_request, ListTasks_request in *;
  go_unfold; rewrite Hu, Hdo; rewrite decide_True by done; reflexivity.

(* The same where the body is read first: the error is that of the read, or
   is made of the data read. *)
Ltac refused_after_read Hu Hdo :=
  go_unfold; rewrite Hu, Hdo; rewrite decide_True by done;
  destruct (ioutil_ReadAll _); reflexivity.

(** X7.  Where the client checks the status: every page of the three list
    operations, the one response of [GetAppGuid], [GetDropletGuid],
    [GetTask] and [GetEnvironmentVariables], both responses of
    [GetPackageGuid], and the response to the POST of [CreateTask] and
    [RunTask].  Another code than the required one ends the call there with
    an error.  In the list operations, [CreateTask], [GetTask], [RunTask]
    and [GetEnvironmentVariables] the error is made of the code and the
    body.  In [GetAppGuid], [GetDropletGuid] and [GetPackageGuid] it is made
    of the code and the data [ioutil.ReadAll] reads from the body, and is
    the error of [ioutil.ReadAll] itself when the body cannot be read. *)
Lemma unexpected_status_is_an_error c ctx (u : url.URL) (resp : http.Response.t)
    (fuel : nat) w w' :
  (∀ addr appGuid acc,
     url_Parse addr = Ok u →
     Client.doer c (Processes_request ctx appGuid u) w = (Ok resp, w') →
     http.Response.StatusCode resp ≠ 200 →
     Processes_loop (S fuel) c ctx appGuid addr acc w
     = status_error "unexpected status code" resp w')
  ∧ (∀ addr processGuid acc,
     url_Parse addr = Ok u →
     Client.doer c (ProcessStats_request ctx processGuid u) w = (Ok resp, w') →
     http.Response.StatusCode resp ≠ 200 →
     ProcessStats_loop (S fuel) c ctx processGuid addr acc w
     = status_error "unexpected status code" resp w')
  ∧ (∀ addr appGuid query acc,
     url_Parse addr = Ok u →
     Client.doer c (ListTasks_request ctx appGuid query u) w = (Ok resp, w') →
     http.Response.StatusCode resp ≠ 200 →
     ListTasks_loop (S fuel) c ctx appGuid query addr acc w
     = status_error "unexpected status code" resp w')
  ∧ (∀ appName,
     url_Parse (Client.addr c +:+ "/v2/apps?q=name%3A" +:+ appName
                  +:+ "&q=space_guid%3A" +:+ Client.spaceGuid c) = Ok u →
     Client.doer c (GET u Accept_json None ctx) w = (Ok resp, w') →
     http.Response.StatusCode resp ≠ 200 →
     GetAppGuid c ctx appName w
     = Some (match ioutil_ReadAll (http.Response.Body resp) with
             | Ok data =>
                 Err (fmt_Errorf_status "unexpected response"
                        (http.Response.StatusCode resp) data)
             | Err e => Err e
             end, w'))
  ∧ (∀ appGuid,
     url_Parse (Client.addr c +:+ "/v3/apps/" +:+ appGuid +:+ "/droplets/current") = Ok u →
     Client.doer c (GET u Accept_json None ctx) w = (Ok resp, w') →
     http.Response.StatusCode resp ≠ 200 →
     GetDropletGuid c ctx appGuid w
     = Some (match ioutil_ReadAll (http.Response.Body resp) with
             | Ok data =>
                 Err (fmt_Errorf_status "unexpected response"
                        (http.Response.StatusCode resp) data)
             | Err e => Err e
             end, w')
     ∧ GetPackageGuid c ctx appGuid w
       = Some (match ioutil_ReadAll (http.Response.Body resp) with
               | Ok data =>
                   Err (fmt_Errorf_status "unexpected response"
                          (http.Response.StatusCode resp) data)
               | Err e => Err e
               end, w'))
  ∧ (∀ appGuid u1 first result w1,
     url_Parse (Client.addr c +:+ "/v3/apps/" +:+ appGuid +:+ "/droplets/current") = Ok u1 →
     Client.doer c (GET u1 Accept_json None ctx) w1 = (Ok first, w) →
     http.Response.StatusCode first = 200 →
     json_Decode (http.Response.Body first) = Ok result →
     DropletLinks.Links_Package_Href result ≠ "" →
     url_Parse (to_http (DropletLinks.Links_Package_Href result)) = Ok u →
     Client.doer c (GET u Accept_json None ctx) w = (Ok resp, w') →
     http.Response.StatusCode resp ≠ 200 →
     GetPackageGuid c ctx appGuid w1
     = Some (match ioutil_ReadAll (http.Response.Body resp) with
             | Ok data =>
                 Err (fmt_Errorf_status "unexpected response"
                        (http.Response.StatusCode resp) data)
             | Err e => Err e
             end, w'))
  ∧ (∀ command interval marshalled,
     url_Parse (Client.addr c) = Ok u →
     json_Marshal {| CreateTaskBody.Command := command;
                     CreateTaskBody.DropletGuid := "" |} = Ok marshalled →
     Client.doer c
       (POST (url.with_Path u ("/v3/apps/" +:+ Client.appGuid c +:+ "/tasks"))
          marshalled ctx) w = (Ok resp, w') →
     http.Response.StatusCode resp ≠ 202 →
     CreateTask fuel c ctx command interval w
     = status_error "unexpected status code" resp w')
  ∧ (∀ guid,
     url_Parse (Client.addr c) = Ok u →
     Client.doer c (GET (url.with_Path u ("/v3/tasks/" +:+ guid))
                      Accept_json (Some "") ctx) w = (Ok resp, w') →
     http.Response.StatusCode resp ≠ 200 →
     GetTask c ctx guid w = status_error "unexpected status code" resp w')
  ∧ (∀ command name droplet appGuid marshalled,
     url_Parse (Client.addr c) = Ok u →
     json_Marshal {| RunTaskBody.Command := command; RunTaskBody.Name := name;
                     RunTaskBody.DropletGuid := droplet |} = Ok marshalled →
     Client.doer c
       (POST (url.with_Path u ("/v3/apps/"
                +:+ (if decide (appGuid = "") then Client.appGuid c else appGuid)
                +:+ "/tasks")) marshalled ctx) w = (Ok resp, w') →
     http.Response.StatusCode resp ≠ 202 →
     RunTask c ctx command name droplet appGuid w
     = status_error "unexpected status code" resp w')
  ∧ (∀ appGuid,
     url_Parse (Client.addr c) = Ok u →
     Client.doer c
       (GET (url.with_Path u ("/v3/apps/"
               +:+ (if decide (appGuid = "") then Client.appGuid c else appGuid)
               +:+ "/environment_variables")) Accept_json (Some "") ctx) w
     = (Ok resp, w') →
     http.Response.StatusCode resp ≠ 200 →
     GetEnvironmentVariables c ctx appGuid w
     = status_error "unexpected status code" resp w').
Proof.
  unfold status_error.
  split; [|split; [|split; [|split; [|split; [|split; [|split; [|split; [|split]]]]]]]].
  - intros addr appGuid acc Hu Hdo Hcode. cbn [Processes_loop]. refused Hu Hdo.
  - intros addr processGuid acc Hu Hdo Hcode. cbn [ProcessStats_loop].
    refused Hu Hdo.
  - intros addr appGuid query acc Hu Hdo Hcode. cbn [ListTasks_loop].
    refused Hu Hdo.
  - intros appName Hu Hdo Hcode. unfold GetAppGuid. refused_after_read Hu Hdo.
  - intros appGuid Hu Hdo Hcode. split.
    + unfold GetDropletGuid. refused_after_read Hu Hdo.
    + unfold GetPackageGuid. refused_after_read Hu Hdo.
  - intros appGuid u1 first result w1 Hu1 Hdo1 Hfirst Hresult Hlink Hu Hdo Hcode.
    unfold GetPackageGuid. go_unfold. rewrite Hu1, Hdo1.
    rewrite decide_False by (intros ?; congruence).
    rewrite Hresult. rewrite decide_False by done.
    refused_after_read Hu Hdo.
  - intros command interval marshalled Hu Hbody Hdo Hcode.
    unfold CreateTask. go_unfold. rewrite Hu, Hbody, Hdo.
    rewrite decide_True by done. reflexivity.
  - intros guid Hu Hdo Hcode. unfold GetTask. refused Hu Hdo.
  - intros command name droplet appGuid marshalled Hu Hbody Hdo Hcode.
    unfold RunTask. go_unfold. rewrite Hu, Hbody, Hdo.
    rewrite decide_True by done. reflexivity.
  - intros appGuid Hu Hdo Hcode. unfold GetEnvironmentVariables. refused Hu Hdo.
Qed.

End StatusGate.

Section StatusGateExamples.
#[local] Existing Instances simple_NetURL simple_TaskStatus simple_CreateTaskBody.

(** C8, at the failing input.  The POST of [CreateTask] is answered 202 with
    a task that is running; the GET that polls it is answered 500 with an
    error of the Cloud Controller.  [CreateTask] does not look at the status
    of that answer: it decodes the body, finds no state in it, and returns a
    nil error. *)
Theorem CreateTask_ignores_poll_status :
  http.Response.StatusCode example.server_error = 500
  ∧ CreateTask 2 example.task_client context.Background "some-command" 1000000
      (Script.start [Ok example.accepted; Ok example.server_error] 0)
    = Some (Ok tt,
            {| Script.responses := [];
               Script.requests :=
                 [example.create_some_command;
                  GET (example.URL "http" "xx.succeeded" "" "") ∅ None
                    context.Background];
               Script.clock := 1000000 |}).
Proof. split; [reflexivity|]. vm_compute. reflexivity. Qed.

End StatusGateExamples.

(** ** Cancellation of the task poller *)

Section SleepIsWaitedOut.
Context {W : Type} `{!Clock W} `{!NetURL} `{!Decoder TaskStatus.t}.
Variable c : Client.t W.

(** [time.Sleep(d)] pauses for at least [d]; time does not run backwards
    while the transport works. *)
Hypothesis Sleep_at_least :
  ∀ d w, time_Now w + Z.max 0 d ≤ time_Now (time_Sleep d w).
Hypothesis Do_monotone :
  ∀ req w, time_Now w ≤ time_Now (Client.doer c req w).2.

Lemma CreateTask_loop_monotone fuel ctx interval :
  ∀ resp w r w',
  CreateTask_loop fuel c ctx interval resp w = Some (r, w') →
  time_Now w ≤ time_Now w'.
Proof.
  induction fuel as [|fuel IH]; intros resp w r w'; [discriminate|].
  cbn [CreateTask_loop]. go_unfold.
  destruct (json_Decode _) as [e|err]; [|intros [= _ <-]; lia].
  destruct (decide (TaskStatus.State e = "RUNNING")) as [_|_].
  - pose proof (Sleep_at_least interval w) as Hslept.
    destruct (url_Parse _) as [u|err]; [|intros [= _ <-]; lia].
    pose proof (Do_monotone (GET u ∅ None ctx) (time_Sleep interval w)) as Hdone.
    destruct (Client.doer c _ _) as [[next|err] w1]; cbn in Hdone.
    + intros Hrun. apply IH in Hrun. lia.
    + intros [= _ <-]. lia.
  - destruct (decide (TaskStatus.State e = "FAILED")); intros [= _ <-]; lia.
Qed.

(** With any transport and whatever the context, a poller that has decoded
    a RUNNING envelope does not return before the interval has passed. *)
Lemma CreateTask_loop_waits_out_the_interval fuel ctx interval resp e w r w' :
  json_Decode (http.Response.Body resp) = Ok e →
  TaskStatus.State e = "RUNNING" →
  CreateTask_loop fuel c ctx interval resp w = Some (r, w') →
  time_Now w + Z.max 0 interval ≤ time_Now w'.
Proof.
  intros He Hstate. destruct fuel as [|fuel]; [discriminate|].
  cbn [CreateTask_loop]. go_unfold. rewrite He, decide_True by done.
  pose proof (Sleep_at_least interval w) as Hslept.
  destruct (url_Parse _) as [u|err]; [|intros [= _ <-]; lia].
  pose proof (Do_monotone (GET u ∅ None ctx) (time_Sleep interval w)) as Hdone.
  destruct (Client.doer c _ _) as [[next|err] w1]; cbn in Hdone.
  - intros Hrun. apply CreateTask_loop_monotone in Hrun. lia.
  - intros [= _ <-]. lia.
Qed.

End SleepIsWaitedOut.

Section Cancellation.
Context `{!NetURL} `{!Decoder TaskStatus.t} `{!Marshaler CreateTaskBody.t}.

(* Whether the context is done at an instant follows from the hypotheses on
   when the signal fires. *)
Ltac timing fired :=
  repeat match goal with
         | |- context [decide (fired ≤ ?instant)] =>
             destruct (decide (fired ≤ instant)); try (exfalso; lia)
         end.

Lemma CreateTask_loop_polls_before_the_signal (c : Client.t Script.t)
    (latency interval : time.Duration) (fired : time.Time)
    (exchange : list (TaskStatus.t * url.URL * http.Response.t)) :
  let ctx := context.WithCancelAt fired in
  Client.doer c = cancellable_Do latency →
  ∀ resp rest log now fuel,
  running resp exchange →
  now + Z.of_nat (length exchange) * (Z.max 0 interval + Z.max 0 latency) < fired →
  CreateTask_loop (length exchange + fuel) c ctx interval resp
    {| Script.responses := (Ok <$> exchange.*2) ++ rest;
       Script.requests := log; Script.clock := now |}
  = CreateTask_loop fuel c ctx interval (held resp exchange)
      {| Script.responses := rest;
         Script.requests := log ++ ((λ u, GET u ∅ None ctx) <$> exchange.*1.*2);
         Script.clock :=
           now + Z.of_nat (length exchange)
                 * (Z.max 0 interval + Z.max 0 latency) |}.
Proof.
  intros ctx Hdoer.
  pose proof (Z.le_max_l 0 interval) as Hinterval.
  pose proof (Z.le_max_l 0 latency) as Hlatency.
  induction exchange as [|[[e u] next] exchange IH];
    intros resp rest log now fuel Hrunning Hfired.
  - cbn. now rewrite app_nil_r, Z.add_0_r.
  - destruct Hrunning as (He & Hstate & Hu & Hrunning).
    cbn [length] in Hfired. rewrite Nat2Z.inj_succ in Hfired.
    assert (0 ≤ Z.of_nat (length exchange)
                * (Z.max 0 interval + Z.max 0 latency)) as Hpolls
      by (apply Z.mul_nonneg_nonneg; lia).
    cbn [length Nat.add CreateTask_loop]. go_unfold.
    rewrite He, decide_True by done. rewrite Hu, Hdoer.
    unfold cancellable_Do, scripted_Do. cbn.
    timing fired.
    rewrite (IH next rest _ _ fuel Hrunning) by lia.
    rewrite <- (assoc_L (++)). do 2 f_equal. lia.
Qed.

(** C9, as amended.  The wait between two polls is [time.Sleep(interval)],
    which a cancellation does not interrupt; a cancellation reaches
    [CreateTask] only through the requests, which are bound to the context.
    Over a transport that honours contexts, whenever the signal fires.
    Before the POST or while the POST is in flight: the transport gives the
    POST up, and [CreateTask] returns its error at that instant.  During a
    sleep, the first or any later one, after any number of polls that found
    the task running: [CreateTask] still waits out the interval, then hands
    the transport the next GET, bound to the cancelled context, and returns
    the transport's error at the end of the interval.  While a GET is in
    flight, the first or any later one: the transport aborts it and
    [CreateTask] returns its error at that instant.  In every case no
    further request is made. *)
Theorem CreateTask_sleep_is_not_cancelled (c : Client.t Script.t)
    (latency interval : time.Duration) (fired : time.Time) (command : string)
    (u0 : url.URL) (marshalled : string) (now : time.Time) (fuel : nat) :
  let ctx := context.WithCancelAt fired in
  let create :=
    POST (url.with_Path u0 ("/v3/apps/" +:+ Client.appGuid c +:+ "/tasks"))
      marshalled ctx in
  Client.doer c = cancellable_Do latency →
  url_Parse (Client.addr c) = Ok u0 →
  json_Marshal {| CreateTaskBody.Command := command;
                  CreateTaskBody.DropletGuid := "" |} = Ok marshalled →
  (∀ answers,
     (fired ≤ now →
      CreateTask fuel c ctx command interval (Script.start answers now)
      = Some (Err context_Canceled,
              {| Script.responses := answers; Script.requests := [create];
                 Script.clock := now |}))
     ∧ (now < fired ≤ now + Z.max 0 latency →
        CreateTask fuel c ctx command interval (Script.start answers now)
        = Some (Err context_Canceled,
                {| Script.responses := answers; Script.requests := [create];
                   Script.clock := fired |})))
  ∧ (∀ (post : http.Response.t)
       (exchange : list (TaskStatus.t * url.URL * http.Response.t))
       (e : TaskStatus.t) (u : url.URL) (rest : list (result http.Response.t)),
     let asleep :=
       now + Z.max 0 latency
       + Z.of_nat (length exchange) * (Z.max 0 interval + Z.max 0 latency) in
     let polling := asleep + Z.max 0 interval in
     let requests :=
       create :: ((λ u, GET u ∅ None ctx) <$> exchange.*1.*2)
       ++ [GET u ∅ None ctx] in
     let script :=
       Script.start (Ok post :: (Ok <$> exchange.*2) ++ rest) now in
     http.Response.StatusCode post = 202 →
     running post exchange →
     json_Decode (http.Response.Body (held post exchange)) = Ok e →
     TaskStatus.State e = "RUNNING" →
     url_Parse (to_http (TaskStatus.Links_Self_Href e)) = Ok u →
     (length exchange < fuel)%nat →
     (asleep < fired ≤ polling →
      CreateTask fuel c ctx command interval script
      = Some (Err context_Canceled,
              {| Script.responses := rest; Script.requests := requests;
                 Script.clock := polling |}))
     ∧ (polling < fired ≤ polling + Z.max 0 latency →
        CreateTask fuel c ctx command interval script
        = Some (Err context_Canceled,
                {| Script.responses := rest; Script.requests := requests;
                   Script.clock := fired |}))).
Proof.
  intros ctx create Hdoer Hu0 Hbody.
  pose proof (Z.le_max_l 0 interval) as Hinterval.
  pose proof (Z.le_max_l 0 latency) as Hlatency.
  split.
  - intros answers. split; intros Hfired;
      unfold CreateTask, Script.start; go_unfold;
      rewrite Hu0, Hbody, Hdoer; unfold cancellable_Do; cbn;
      timing fired; reflexivity.
  - intros post exchange e u rest asleep polling requests script
      Hstatus Hrunning He Hstate Hu Hfuel.
    assert (0 ≤ Z.of_nat (length exchange)
                * (Z.max 0 interval + Z.max 0 latency)) as Hpolls
      by (apply Z.mul_nonneg_nonneg; lia).
    replace fuel with (length exchange + S (fuel - S (length exchange)))%nat
      by lia.
    split; intros Hfired; subst asleep polling requests script;
      unfold CreateTask, Script.start; go_unfold;
      rewrite Hu0, Hbody, Hdoer; unfold cancellable_Do at 1, scripted_Do; cbn;
      timing fired;
      rewrite decide_False by (intros ?; congruence);
      rewrite (CreateTask_loop_polls_before_the_signal c latency interval fired
                 exchange Hdoer _ _ _ _ _ Hrunning) by lia;
      cbn [CreateTask_loop]; go_unfold; rewrite He, decide_True by done;
      rewrite Hu, Hdoer; unfold cancellable_Do, scripted_Do; cbn;
      timing fired; reflexivity.
Qed.

End Cancellation.

Section CancellationExamples.
#[local] Existing Instances simple_NetURL simple_TaskStatus simple_CreateTaskBody.

Lemma CreateTask_sleep_is_not_cancelled_witness :
  let create fired :=
    POST (example.URL "http" "some-addr.com" "/v3/apps/some-guid/tasks" "")
      (json_text "{'command':'some-command'}") (context.WithCancelAt fired) in
  let poll fired :=
    GET (example.URL "http" "xx.succeeded" "" "") ∅ None
      (context.WithCancelAt fired) in
  let script :=
    Script.start
      [Ok example.accepted; Ok example.still_running; Ok example.succeeded] 0 in
  CreateTask 2 example.cancellable_client (context.WithCancelAt 1)
    "some-command" 10 script
  = Some (Err context_Canceled,
          {| Script.responses :=
               [Ok example.accepted; Ok example.still_running;
                Ok example.succeeded];
             Script.requests := [create 1];
             Script.clock := 1 |})
  ∧ CreateTask 2 example.cancellable_client (context.WithCancelAt 15)
      "some-command" 10 script
    = Some (Err context_Canceled,
            {| Script.responses := [Ok example.succeeded];
               Script.requests := [create 15; poll 15; poll 15];
               Script.clock := 22 |})
  ∧ CreateTask 2 example.cancellable_client (context.WithCancelAt 23)
      "some-command" 10 script
    = Some (Err context_Canceled,
            {| Script.responses := [Ok example.succeeded];
               Script.requests := [create 23; poll 23; poll 23];
               Script.clock := 23 |}).
Proof.
  intros create poll script. split; [|split].
  - destruct (CreateTask_sleep_is_not_cancelled example.cancellable_client
                1 10 1 "some-command"
                (example.URL "http" "some-addr.com" "" "")
                (json_text "{'command':'some-command'}") 0 2)
      as [Hcreate _]; [reflexivity..|].
    apply Hcreate. simpl; lia.
  - destruct (CreateTask_sleep_is_not_cancelled example.cancellable_client
                1 10 15 "some-command"
                (example.URL "http" "some-addr.com" "" "")
                (json_text "{'command':'some-command'}") 0 2)
      as [_ Hpolls]; [reflexivity..|].
    destruct (Hpolls example.accepted
                [(example.status "RUNNING" "https://xx.succeeded",
                  example.URL "http" "xx.succeeded" "" "",
                  example.still_running)]
                (example.status "RUNNING" "https://xx.succeeded")
                (example.URL "http" "xx.succeeded" "" "")
                [Ok example.succeeded])
      as [Hasleep _].
    + reflexivity.
    + repeat split; vm_compute; reflexivity.
    + vm_compute; reflexivity.
    + reflexivity.
    + vm_compute; reflexivity.
    + simpl; lia.
    + apply Hasleep. simpl; lia.
  - destruct (CreateTask_sleep_is_not_cancelled example.cancellable_client
                1 10 23 "some-command"
                (example.URL "http" "some-addr.com" "" "")
                (json_text "{'command':'some-command'}") 0 2)
      as [_ Hpolls]; [reflexivity..|].
    destruct (Hpolls example.accepted
                [(example.status "RUNNING" "https://xx.succeeded",
                  example.URL "http" "xx.succeeded" "" "",
                  example.still_running)]
                (example.status "RUNNING" "https://xx.succeeded")
                (example.URL "http" "xx.succeeded" "" "")
                [Ok example.succeeded])
      as [_ Hinflight].
    + reflexivity.
    + repeat split; vm_compute; reflexivity.
    + vm_compute; reflexivity.
    + reflexivity.
    + vm_compute; reflexivity.
    + simpl; lia.
    + apply Hinflight. simpl; lia.
Defined.

(** C9 as it is stated does not hold.  The POST is answered at instant 1 with
    a running task, and the poller starts its sleep of 10; the signal fires
    at instant 3, during the sleep.  [CreateTask] does not return then: it
    returns at instant 11, when the interval has passed and the transport
    refuses the next GET. *)
Lemma CreateTask_waits_after_cancellation :
  context.Err (context.WithCancelAt 3) 3 = Some context_Canceled
  ∧ (λ out, (out.1, Script.clock out.2))
      <$> CreateTask 1 example.cancellable_client (context.WithCancelAt 3)
            "some-command" 10
            (Script.start [Ok example.accepted; Ok example.succeeded] 0)
    = Some (Err context_Canceled, 11)
  ∧ (λ out, (out.1, Script.clock out.2))
      <$> CreateTask 2 example.task_client (context.WithCancelAt 3)
            "some-command" 10
            (Script.start [Ok example.accepted; Ok example.succeeded] 0)
    = Some (Ok tt, 10).
Proof. split; [reflexivity|]. split; vm_compute; reflexivity. Qed.

End CancellationExamples.

(** ** A list operation that fails on a later page *)

Section FailingPage.
Context {T : Type} `{!NetURL} `{!Decoder (Page.t T)}.
Variable request : url.URL → http.Request.t.
Variable norm : string → string.
Hypothesis norm_empty : ∀ s, norm s = "" ↔ s = "".

(** The Paginator, served pages that all carry a next link, has used one
    iteration per page when it comes to the address after them. *)
Lemma paginate_followed (c : Client.t Script.t) pages :
  Client.doer c = scripted_Do →
  ∀ bodies us addr acc rest log now fuel,
  followed_so_far norm addr pages bodies us →
  paginate request norm (length pages + fuel) c addr acc
    {| Script.responses := (OK_200 <$> bodies) ++ rest;
       Script.requests := log; Script.clock := now |}
  = paginate request norm fuel c (cursor norm addr pages)
      (acc ++ concat (Page.Resources <$> pages))
      {| Script.responses := rest;
         Script.requests := log ++ (request <$> us); Script.clock := now |}.
Proof.
  intros Hdoer. induction pages as [|p ps IH];
    intros bodies us addr acc rest log now fuel (Hnext & Hdec & Hparse).
  - apply Forall2_nil_inv_r in Hdec as ->.
    apply Forall2_nil_inv_l in Hparse as ->.
    cbn. now rewrite !app_nil_r.
  - apply Forall_cons in Hnext as [Hp Hnext].
    apply Forall2_cons_inv_r in Hdec as (body & bodies' & Hbody & Hdec & ->).
    cbn [followed] in Hparse.
    apply Forall2_cons_inv_l in Hparse as (u & us' & Hu & Hparse & ->).
    cbn [length Nat.add paginate]. go_unfold. rewrite Hu, Hdoer.
    unfold scripted_Do; cbn.
    case_decide as Hstatus; [congruence|]. rewrite Hbody.
    case_decide as Hfollow; [|exfalso; apply Hp, norm_empty; tauto].
    rewrite (IH bodies' us' _ _ rest _ now fuel) by (repeat split; assumption).
    cbn [cursor fmap list_fmap concat].
    now rewrite <- !(assoc_L (++)).
Qed.

Lemma paginate_fails (c : Client.t Script.t) address answers e sent left
    acc log now fuel :
  Client.doer c = scripted_Do →
  fails request address answers e sent left →
  paginate request norm (S fuel) c address acc
    {| Script.responses := answers; Script.requests := log; Script.clock := now |}
  = Some (Err e, {| Script.responses := left; Script.requests := log ++ sent;
                    Script.clock := now |}).
Proof.
  intros Hdoer Hfails. cbn [paginate]. go_unfold.
  destruct Hfails as [e answers Hu|u e left Hu|u resp left Hu Hstatus
                     |u resp e left Hu Hstatus Hbody]; rewrite Hu.
  - now rewrite app_nil_r.
  - rewrite Hdoer. reflexivity.
  - rewrite Hdoer. unfold scripted_Do; cbn. now rewrite decide_True.
  - rewrite Hdoer. unfold scripted_Do; cbn.
    rewrite decide_False by (intros ?; congruence). now rewrite Hbody.
Qed.

Lemma paginate_fails_later (c : Client.t Script.t) pages bodies us answers
    e sent left now fuel :
  Client.doer c = scripted_Do →
  followed_so_far norm (Client.addr c) pages bodies us →
  fails request (cursor norm (Client.addr c) pages) answers e sent left →
  (length pages < fuel)%nat →
  paginate request norm fuel c (Client.addr c) []
    (Script.start ((OK_200 <$> bodies) ++ answers) now)
  = Some (Err e, {| Script.responses := left;
                    Script.requests := (request <$> us) ++ sent;
                    Script.clock := now |}).
Proof.
  intros Hdoer Hpages Hfails Hfuel.
  replace fuel with (length pages + S (fuel - S (length pages)))%nat by lia.
  unfold Script.start.
  rewrite (paginate_followed c pages Hdoer bodies us _ [] answers [] now _ Hpages).
  now apply paginate_fails.
Qed.

End FailingPage.

Section FailingListOperations.
Context `{!NetURL}.
Context `{!Decoder (Page.t Process.t)} `{!Decoder (Page.t ProcessStats.t)}
        `{!Decoder (Page.t Task.t)}.

(** X1.  A list operation that has followed some pages and then fails (the
    next address does not parse, the transport reports an error, the status
    is not 200, or the body does not decode) returns that error and none of
    the resources of the pages before, has sent one request per page
    followed plus at most the failing one, and sends no other: it does not
    retry. *)
Theorem list_operations_fail_with_the_error_alone (c : Client.t Script.t)
    (ctx : context.Context) (now : time.Time) (fuel : nat) :
  Client.doer c = scripted_Do →
  (∀ appGuid (pages : list (Page.t Process.t)) bodies us answers e sent left,
     followed_so_far (λ s, to_http s) (Client.addr c) pages bodies us →
     fails (T:=Process.t) (Processes_request ctx appGuid)
       (cursor (λ s, to_http s) (Client.addr c) pages) answers e sent left →
     (length pages < fuel)%nat →
     Processes fuel c ctx appGuid (Script.start ((OK_200 <$> bodies) ++ answers) now)
     = Some (Err e,
             {| Script.responses := left;
                Script.requests := (Processes_request ctx appGuid <$> us) ++ sent;
                Script.clock := now |}))
  ∧ (∀ processGuid (pages : list (Page.t ProcessStats.t)) bodies us answers
       e sent left,
     followed_so_far (λ s, to_http s) (Client.addr c) pages bodies us →
     fails (T:=ProcessStats.t) (ProcessStats_request ctx processGuid)
       (cursor (λ s, to_http s) (Client.addr c) pages) answers e sent left →
     (length pages < fuel)%nat →
     ProcessStats fuel c ctx processGuid
       (Script.start ((OK_200 <$> bodies) ++ answers) now)
     = Some (Err e,
             {| Script.responses := left;
                Script.requests := (ProcessStats_request ctx processGuid <$> us) ++ sent;
                Script.clock := now |}))
  ∧ (∀ appGuid query (pages : list (Page.t Task.t)) bodies us answers e sent left,
     followed_so_far (λ s, s) (Client.addr c) pages bodies us →
     fails (T:=Task.t) (ListTasks_request ctx appGuid query)
       (cursor (λ s, s) (Client.addr c) pages) answers e sent left →
     (length pages < fuel)%nat →
     ListTasks fuel c ctx appGuid query
       (Script.start ((OK_200 <$> bodies) ++ answers) now)
     = Some (Err e,
             {| Script.responses := left;
                Script.requests := (ListTasks_request ctx appGuid query <$> us) ++ sent;
                Script.clock := now |})).
Proof.
  intros Hdoer. split; [|split].
  - intros appGuid pages bodies us answers e sent left Hpages Hfails Hfuel.
    unfold Processes. rewrite Processes_loop_paginate.
    apply (paginate_fails_later _ _ to_http_empty c pages); assumption.
  - intros processGuid pages bodies us answers e sent left Hpages Hfails Hfuel.
    unfold ProcessStats. rewrite ProcessStats_loop_paginate.
    apply (paginate_fails_later _ _ to_http_empty c pages); assumption.
  - intros appGuid query pages bodies us answers e sent left Hpages Hfails Hfuel.
    unfold ListTasks. rewrite ListTasks_loop_paginate.
    apply (paginate_fails_later _ _ (λ s, iff_refl _) c pages); assumption.
Qed.

End FailingListOperations.

Section FailingListExamples.
#[local] Existing Instances simple_NetURL simple_Process_page
  simple_ProcessStats_page simple_Task_page.

Lemma list_operations_fail_with_the_error_alone_witness :
  Processes 2 example.client context.Background "some-guid"
    (Script.start [OK_200 (hd "" example.processes_bodies);
                   Ok example.server_error] 0)
  = Some (Err (errors_New
                 ("unexpected status code 500: "
                  +:+ http.Response.Body example.server_error)),
          {| Script.responses := [];
             Script.requests :=
               Processes_request context.Background "some-guid"
                 <$> example.processes_urls;
             Script.clock := 0 |})
  ∧ ListTasks 1 example.client context.Background "some-guid" ∅
      (Script.start [Err (doer_Error "some-error")] 0)
    = Some (Err (doer_Error "some-error"),
            {| Script.responses := [];
               Script.requests :=
                 [ListTasks_request context.Background "some-guid" ∅
                    (example.URL "http" "some-addr.com" "" "")];
               Script.clock := 0 |}).
Proof.
  destruct (list_operations_fail_with_the_error_alone example.client
              context.Background 0 2 eq_refl) as (Hprocesses & _ & _).
  destruct (list_operations_fail_with_the_error_alone example.client
              context.Background 0 1 eq_refl) as (_ & _ & Htasks).
  split.
  - apply (Hprocesses "some-guid" (take 1 example.processes_pages)
             (take 1 example.processes_bodies) (take 1 example.processes_urls)
             [Ok example.server_error] _
             [Processes_request context.Background "some-guid"
                (example.URL "http" "some-addr.com"
                   "/v3/apps/some-guid/processes" "page=2&per_page=2")] []).
    + split; [repeat constructor; discriminate
             |split; repeat constructor; vm_compute; reflexivity].
    + apply (fails_on_status _ _
               (example.URL "http" "some-addr.com"
                  "/v3/apps/some-guid/processes" "page=2&per_page=2"));
        [vm_compute; reflexivity|discriminate].
    + simpl; lia.
  - apply (Htasks "some-guid" ∅ [] [] [] [Err (doer_Error "some-error")] _
             [ListTasks_request context.Background "some-guid" ∅
                (example.URL "http" "some-addr.com" "" "")] []).
    + split; [constructor|split; constructor].
    + apply fails_in_transport. vm_compute; reflexivity.
    + simpl; lia.
Defined.

End FailingListExamples.

(** ** Loops that do not end *)

Section EndlessPages.
Context {T : Type} `{!NetURL} `{!Decoder (Page.t T)}.
Variable request : url.URL → http.Request.t.
Variable norm : string → string.

Lemma paginate_never_returns (c : Client.t Script.t) body (p : Page.t T) :
  Client.doer c = repeating_Do (OK_200 body) →
  json_Decode body = Ok p →
  norm (Page.Pagination_Next_Href p) ≠ "" →
  (∃ u, url_Parse (norm (Page.Pagination_Next_Href p)) = Ok u) →
  ∀ fuel addr acc w,
  (∃ u, url_Parse addr = Ok u) →
  paginate request norm fuel c addr acc w = None.
Proof.
  intros Hdoer Hbody Hnext Hagain.
  induction fuel as [|fuel IH]; intros addr acc w [u Hu]; [reflexivity|].
  cbn [paginate]. go_unfold. rewrite Hu, Hdoer. unfold repeating_Do; cbn.
  case_decide as Hstatus; [congruence|]. rewrite Hbody.
  rewrite decide_True by done. now apply IH.
Qed.

End EndlessPages.

Section Endless.
Context `{!NetURL}.
Context `{!Decoder (Page.t Process.t)} `{!Decoder (Page.t ProcessStats.t)}
        `{!Decoder (Page.t Task.t)} `{!Decoder TaskStatus.t}
        `{!Marshaler CreateTaskBody.t}.

(** X2.  The list operations have no bound on the pages they follow and do
    not notice a next link they have followed before: over a transport that
    answers every request with the same page, a page with a next link, none
    of them returns, however many iterations it is given. *)
Theorem list_operations_follow_next_links_without_end (c : Client.t Script.t)
    (ctx : context.Context) (body : string) (u0 u1 : url.URL) :
  Client.doer c = repeating_Do (OK_200 body) →
  url_Parse (Client.addr c) = Ok u0 →
  (∀ (p : Page.t Process.t) appGuid fuel w,
     json_Decode body = Ok p →
     Page.Pagination_Next_Href p ≠ "" →
     url_Parse (to_http (Page.Pagination_Next_Href p)) = Ok u1 →
     Processes fuel c ctx appGuid w = None)
  ∧ (∀ (p : Page.t ProcessStats.t) processGuid fuel w,
     json_Decode body = Ok p →
     Page.Pagination_Next_Href p ≠ "" →
     url_Parse (to_http (Page.Pagination_Next_Href p)) = Ok u1 →
     ProcessStats fuel c ctx processGuid w = None)
  ∧ (∀ (p : Page.t Task.t) appGuid query fuel w,
     json_Decode body = Ok p →
     Page.Pagination_Next_Href p ≠ "" →
     url_Parse (Page.Pagination_Next_Href p) = Ok u1 →
     ListTasks fuel c ctx appGuid query w = None).
Proof.
  intros Hdoer Hu0. split; [|split].
  - intros p appGuid fuel w Hp Hnext Hu1. unfold Processes.
    rewrite Processes_loop_paginate.
    apply (paginate_never_returns _ _ c body p);
      [assumption|assumption
      |intros Hempty; apply Hnext, to_http_empty; exact Hempty|eauto|eauto].
  - intros p processGuid fuel w Hp Hnext Hu1. unfold ProcessStats.
    rewrite ProcessStats_loop_paginate.
    apply (paginate_never_returns _ _ c body p);
      [assumption|assumption
      |intros Hempty; apply Hnext, to_http_empty; exact Hempty|eauto|eauto].
  - intros p appGuid query fuel w Hp Hnext Hu1. unfold ListTasks.
    rewrite ListTasks_loop_paginate.
    apply (paginate_never_returns _ _ c body p); eauto.
Qed.

Lemma CreateTask_loop_never_returns (c : Client.t Script.t) ctx interval
    (resp : http.Response.t) (e : TaskStatus.t) (u : url.URL) :
  Client.doer c = repeating_Do (Ok resp) →
  json_Decode (http.Response.Body resp) = Ok e →
  TaskStatus.State e = "RUNNING" →
  url_Parse (to_http (TaskStatus.Links_Self_Href e)) = Ok u →
  ∀ fuel w, CreateTask_loop fuel c ctx interval resp w = None.
Proof.
  intros Hdoer He Hstate Hu.
  induction fuel as [|fuel IH]; intros w; [reflexivity|].
  cbn [CreateTask_loop]. go_unfold. rewrite He, decide_True by done.
  rewrite Hu, Hdoer. unfold repeating_Do; cbn. apply IH.
Qed.

(** X3.  [CreateTask] has no bound on its polls: over a transport that
    answers every request 202 with a task that is running, it does not
    return, however many iterations it is given. *)
Theorem CreateTask_polls_without_end (c : Client.t Script.t)
    (ctx : context.Context) (command : string) (interval : time.Duration)
    (resp : http.Response.t) (e : TaskStatus.t) (u0 u : url.URL)
    (marshalled : string) (fuel : nat) (w : Script.t) :
  Client.doer c = repeating_Do (Ok resp) →
  url_Parse (Client.addr c) = Ok u0 →
  json_Marshal {| CreateTaskBody.Command := command;
                  CreateTaskBody.DropletGuid := "" |} = Ok marshalled →
  http.Response.StatusCode resp = 202 →
  json_Decode (http.Response.Body resp) = Ok e →
  TaskStatus.State e = "RUNNING" →
  url_Parse (to_http (TaskStatus.Links_Self_Href e)) = Ok u →
  CreateTask fuel c ctx command interval w = None.
Proof.
  intros Hdoer Hu0 Hbody Hstatus He Hstate Hu.
  unfold CreateTask. go_unfold. rewrite Hu0, Hbody, Hdoer.
  unfold repeating_Do at 1; cbn.
  rewrite decide_False by (intros ?; congruence).
  now apply (CreateTask_loop_never_returns c ctx interval resp e u).
Qed.

End Endless.

Section EndlessExamples.
#[local] Existing Instances simple_NetURL simple_Process_page
  simple_ProcessStats_page simple_Task_page simple_TaskStatus
  simple_CreateTaskBody.

Lemma list_operations_follow_next_links_without_end_witness :
  Processes 1000 (repeating_client (OK_200 (hd "" example.processes_bodies)))
    context.Background "some-guid" (Script.start [] 0) = None
  ∧ ListTasks 1000 (repeating_client (OK_200 (hd "" example.tasks_bodies)))
      context.Background "some-guid" ∅ (Script.start [] 0) = None.
Proof.
  split.
  - destruct (list_operations_follow_next_links_without_end
                (repeating_client (OK_200 (hd "" example.processes_bodies)))
                context.Background (hd "" example.processes_bodies)
                (example.URL "http" "some-addr.com" "" "")
                (example.URL "http" "some-addr.com"
                   "/v3/apps/some-guid/processes" "page=2&per_page=2"))
      as (Hprocesses & _); [reflexivity|reflexivity|].
    apply (Hprocesses (hd (Page.Build_t "" []) example.processes_pages));
      [vm_compute; reflexivity|discriminate|vm_compute; reflexivity].
  - destruct (list_operations_follow_next_links_without_end
                (repeating_client (OK_200 (hd "" example.tasks_bodies)))
                context.Background (hd "" example.tasks_bodies)
                (example.URL "http" "some-addr.com" "" "")
                (example.URL "http" "some-addr.com"
                   "/v3/apps/some-guid/tasks" "page=2&per_page=2"))
      as (_ & _ & Htasks); [reflexivity|reflexivity|].
    apply (Htasks (hd (Page.Build_t "" []) example.tasks_pages));
      [vm_compute; reflexivity|discriminate|vm_compute; reflexivity].
Defined.

Lemma CreateTask_polls_without_end_witness :
  CreateTask 1000 (repeating_client (Ok example.accepted)) context.Background
    "some-command" 1000000 (Script.start [] 0) = None.
Proof.
  apply (CreateTask_polls_without_end
           (repeating_client (Ok example.accepted)) context.Background
           "some-command" 1000000 example.accepted
           (example.status "RUNNING" "https://xx.succeeded")
           (example.URL "http" "some-addr.com" "" "")
           (example.URL "http" "xx.succeeded" "" "")
           (json_text "{'command':'some-command'}"));
    vm_compute; reflexivity.
Defined.

End EndlessExamples.

(** ** What the client sends *)

Lemma scripted_Do_recording : recording scripted_Do.
Proof. intros req w. unfold scripted_Do. now destruct (Script.responses w). Qed.

Lemma repeating_Do_recording answer : recording (repeating_Do answer).
Proof. intros req w. reflexivity. Qed.

Lemma cancellable_Do_recording latency : recording (cancellable_Do latency).
Proof.
  intros req w. unfold cancellable_Do, scripted_Do.
  destruct (context.cancelAt _); repeat case_decide;
    now destruct (Script.responses w).
Qed.

Section Sends.
Context {A B : Type}.
Implicit Types (P : http.Request.t → Prop).

Lemma sends_out_of_fuel (Q : list http.Request.t → Prop) :
  sends Q (out_of_fuel : go Script.t A).
Proof. intros w r w' [=]. Qed.

Lemma sends_nothing (Q : list http.Request.t → Prop) (r : result A) :
  Q [] → sends Q (lift r).
Proof.
  intros HQ w r' w' [= <- <-]. exists []. now rewrite app_nil_r.
Qed.

Lemma sends_all_bind P (m : go Script.t A) (k : A → go Script.t B) :
  sends (Forall P) m → (∀ a, sends (Forall P) (k a)) →
  sends (Forall P) (bind m k).
Proof.
  intros Hm Hk w r w' Hrun. unfold bind in Hrun.
  destruct (m w) as [[[a|e] w1]|] eqn:Em; [| |discriminate].
  - destruct (Hm _ _ _ Em) as (new1 & Hnew1 & HP1).
    destruct (Hk a _ _ _ Hrun) as (new2 & Hnew2 & HP2).
    exists (new1 ++ new2). split; [|now apply Forall_app].
    now rewrite Hnew2, Hnew1, (assoc_L (++)).
  - injection Hrun as <- <-. exact (Hm _ _ _ Em).
Qed.

End Sends.

Lemma sends_all_Do P (c : Client.t Script.t) req :
  recording (Client.doer c) → P req → sends (Forall P) (Do c req).
Proof.
  intros Hrec HP w r w' [= Hdo]. exists [req]. split; [|now constructor].
  specialize (Hrec req w). now rewrite Hdo in Hrec.
Qed.

Lemma sends_all_Sleep P (d : time.Duration) :
  sends (Forall P) (Sleep (W:=Script.t) d).
Proof.
  intros w r w' [= <- <-]. exists []. cbn. now rewrite app_nil_r.
Qed.

(* One construct of a method at a time: a call that sends nothing, a
   request, a branch. *)
Ltac sends_all Hrec :=
  repeat first
    [ apply sends_all_bind; [|intros ?]
    | apply sends_nothing; constructor
    | apply (sends_nothing _ (Ok _)); constructor
    | apply (sends_nothing _ (Err _)); constructor
    | apply sends_all_Sleep
    | apply sends_all_Do; [exact Hrec|]
    | match goal with
      | |- sends _ (if ?b then _ else _) => destruct b
      | |- sends _ (match ?x with _ => _ end) => destruct x
      end ].

Section Requests.
Context `{!NetURL} `{!Reader}.
Context `{!Decoder (Page.t Process.t)} `{!Decoder (Page.t ProcessStats.t)}
        `{!Decoder (Page.t Task.t)} `{!Decoder Task.t}
        `{!Decoder AppsResult.t} `{!Decoder DropletResult.t}
        `{!Decoder TaskStatus.t} `{!Decoder DropletLinks.t}
        `{!Decoder PackageResult.t} `{!Decoder EnvResult.t}
        `{!Marshaler CreateTaskBody.t} `{!Marshaler RunTaskBody.t}.
Implicit Types (c : Client.t Script.t) (ctx : context.Context).

(** X4.  Whatever the transport answers and however a call ends, every
    request a method of the client has sent when it returns is bound to the
    context the caller gave it. *)
Theorem every_request_carries_the_context c ctx :
  recording (Client.doer c) →
  (∀ fuel appGuid, sends (bound_to ctx) (Processes fuel c ctx appGuid))
  ∧ (∀ fuel processGuid, sends (bound_to ctx) (ProcessStats fuel c ctx processGuid))
  ∧ (∀ fuel appGuid query, sends (bound_to ctx) (ListTasks fuel c ctx appGuid query))
  ∧ (∀ appName, sends (bound_to ctx) (GetAppGuid c ctx appName))
  ∧ (∀ appGuid, sends (bound_to ctx) (GetDropletGuid c ctx appGuid))
  ∧ (∀ appGuid, sends (bound_to ctx) (GetPackageGuid c ctx appGuid))
  ∧ (∀ fuel command interval,
       sends (bound_to ctx) (CreateTask fuel c ctx command interval))
  ∧ (∀ guid, sends (bound_to ctx) (GetTask c ctx guid))
  ∧ (∀ command name droplet appGuid,
       sends (bound_to ctx) (RunTask c ctx command name droplet appGuid))
  ∧ (∀ appGuid, sends (bound_to ctx) (GetEnvironmentVariables c ctx appGuid)).
Proof.
  intros Hrec. unfold bound_to.
  split; [|split; [|split; [|split; [|split; [|split; [|split; [|split; [|split]]]]]]]].
  - intros fuel appGuid. unfold Processes. generalize (Client.addr c), (@nil Process.t).
    induction fuel as [|fuel IH]; intros addr acc; [apply sends_out_of_fuel|].
    cbn [Processes_loop]. sends_all Hrec; try apply IH; reflexivity.
  - intros fuel processGuid. unfold ProcessStats.
    generalize (Client.addr c), (@nil ProcessStats.t).
    induction fuel as [|fuel IH]; intros addr acc; [apply sends_out_of_fuel|].
    cbn [ProcessStats_loop]. sends_all Hrec; try apply IH; reflexivity.
  - intros fuel appGuid query. unfold ListTasks.
    generalize (Client.addr c), (@nil Task.t).
    induction fuel as [|fuel IH]; intros addr acc; [apply sends_out_of_fuel|].
    cbn [ListTasks_loop]. sends_all Hrec; try apply IH; reflexivity.
  - intros appName. unfold GetAppGuid. sends_all Hrec; reflexivity.
  - intros appGuid. unfold GetDropletGuid. sends_all Hrec; reflexivity.
  - intros appGuid. unfold GetPackageGuid. sends_all Hrec; reflexivity.
  - intros fuel command interval.
    assert (Hloop : ∀ resp,
              sends (Forall (λ req, http.Request.ctx req = ctx))
                (CreateTask_loop fuel c ctx interval resp)).
    { induction fuel as [|fuel IH]; intros resp; [apply sends_out_of_fuel|].
      cbn [CreateTask_loop]. sends_all Hrec; try apply IH; reflexivity. }
    unfold CreateTask. sends_all Hrec; try apply Hloop; reflexivity.
  - intros guid. unfold GetTask. sends_all Hrec; reflexivity.
  - intros command name droplet appGuid. unfold RunTask. sends_all Hrec; reflexivity.
  - intros appGuid. unfold GetEnvironmentVariables. sends_all Hrec; reflexivity.
Qed.

End Requests.

Section ListRequests.
Context `{!NetURL}.
Context `{!Decoder (Page.t Process.t)} `{!Decoder (Page.t ProcessStats.t)}
        `{!Decoder (Page.t Task.t)}.
Implicit Types (c : Client.t Script.t) (ctx : context.Context).

(** X5.  Every request of a list operation, the first and every one that
    follows a next link, is a GET of the path of the operation itself, with
    no header and no body: of a next link the operation keeps what
    [url.Parse] makes of it but the path (and, in [ListTasks], the query,
    which it encodes anew). *)
Theorem list_operations_keep_to_their_path c ctx :
  recording (Client.doer c) →
  (∀ fuel appGuid,
     sends (plain_GETs_of ("/v3/apps/" +:+ appGuid +:+ "/processes"))
       (Processes fuel c ctx appGuid))
  ∧ (∀ fuel processGuid,
     sends (plain_GETs_of ("/v3/processes/" +:+ processGuid +:+ "/stats"))
       (ProcessStats fuel c ctx processGuid))
  ∧ (∀ fuel appGuid query,
     sends (plain_GETs_of ("/v3/apps/" +:+ appGuid +:+ "/tasks"))
       (ListTasks fuel c ctx appGuid query)).
Proof.
  intros Hrec. unfold plain_GETs_of. split; [|split].
  - intros fuel appGuid. unfold Processes. generalize (Client.addr c), (@nil Process.t).
    induction fuel as [|fuel IH]; intros addr acc; [apply sends_out_of_fuel|].
    cbn [Processes_loop]. sends_all Hrec; try apply IH. now repeat split.
  - intros fuel processGuid. unfold ProcessStats.
    generalize (Client.addr c), (@nil ProcessStats.t).
    induction fuel as [|fuel IH]; intros addr acc; [apply sends_out_of_fuel|].
    cbn [ProcessStats_loop]. sends_all Hrec; try apply IH. now repeat split.
  - intros fuel appGuid query. unfold ListTasks.
    generalize (Client.addr c), (@nil Task.t).
    induction fuel as [|fuel IH]; intros addr acc; [apply sends_out_of_fuel|].
    cbn [ListTasks_loop]. sends_all Hrec; try apply IH. now repeat split.
Qed.

End ListRequests.

(** ** No retry *)

Section Counting.
Context {A B : Type}.

Lemma sends_at_most_bind a b (m : go Script.t A) (k : A → go Script.t B) :
  sends (at_most a) m → (∀ x, sends (at_most b) (k x)) →
  sends (at_most (a + b)) (bind m k).
Proof.
  intros Hm Hk w r w' Hrun. unfold bind in Hrun.
  destruct (m w) as [[[x|e] w1]|] eqn:Em; [| |discriminate].
  - destruct (Hm _ _ _ Em) as (new1 & Hnew1 & Hn1).
    destruct (Hk x _ _ _ Hrun) as (new2 & Hnew2 & Hn2).
    exists (new1 ++ new2). split.
    + now rewrite Hnew2, Hnew1, (assoc_L (++)).
    + unfold at_most in *. rewrite length_app. lia.
  - injection Hrun as <- <-. destruct (Hm _ _ _ Em) as (new1 & Hnew1 & Hn1).
    exists new1. split; [done|]. unfold at_most in *. lia.
Qed.

End Counting.

Lemma sends_at_most_Do (c : Client.t Script.t) req :
  recording (Client.doer c) → sends (at_most 1) (Do c req).
Proof.
  intros Hrec w r w' [= Hdo]. exists [req]. split; [|unfold at_most; simpl; lia].
  specialize (Hrec req w). now rewrite Hdo in Hrec.
Qed.

(* The bound of a method from its calls: none for a call that sends
   nothing, one for a request. *)
Ltac sends_at_most Hrec :=
  repeat first
    [ match goal with
      | |- sends (at_most ?n) (bind (lift _) _) =>
          apply (sends_at_most_bind 0 n); [|intros ?]
      | |- sends (at_most (S ?n)) (bind (Do _ _) _) =>
          apply (sends_at_most_bind 1 n);
          [apply sends_at_most_Do; exact Hrec|intros ?]
      | |- sends (at_most _) (lift _) =>
          apply sends_nothing; unfold at_most; simpl; lia
      | |- sends (at_most _) (ret _) =>
          apply (sends_nothing _ (Ok _)); unfold at_most; simpl; lia
      | |- sends (at_most _) (fail _) =>
          apply (sends_nothing _ (Err _)); unfold at_most; simpl; lia
      | |- sends _ (if ?b then _ else _) => destruct b
      | |- sends _ (match ?x with _ => _ end) => destruct x
      end ].

Section NoRetry.
Context `{!NetURL} `{!Reader}.
Context `{!Decoder Task.t} `{!Decoder AppsResult.t} `{!Decoder DropletResult.t}
        `{!Decoder DropletLinks.t} `{!Decoder PackageResult.t}
        `{!Decoder EnvResult.t} `{!Marshaler RunTaskBody.t}.
Implicit Types (c : Client.t Script.t) (ctx : context.Context).

(** X6.  No method retries: whatever the transport answers, [GetAppGuid],
    [GetDropletGuid], [GetTask], [RunTask] and [GetEnvironmentVariables]
    have sent at most one request when they return, and [GetPackageGuid] at
    most two. *)
Theorem single_fetches_do_not_retry c ctx :
  recording (Client.doer c) →
  (∀ appName, sends (at_most 1) (GetAppGuid c ctx appName))
  ∧ (∀ appGuid, sends (at_most 1) (GetDropletGuid c ctx appGuid))
  ∧ (∀ guid, sends (at_most 1) (GetTask c ctx guid))
  ∧ (∀ command name droplet appGuid,
       sends (at_most 1) (RunTask c ctx command name droplet appGuid))
  ∧ (∀ appGuid, sends (at_most 1) (GetEnvironmentVariables c ctx appGuid))
  ∧ (∀ appGuid, sends (at_most 2) (GetPackageGuid c ctx appGuid)).
Proof.
  intros Hrec. split; [|split; [|split; [|split; [|split]]]].
  - intros appName. unfold GetAppGuid. sends_at_most Hrec.
  - intros appGuid. unfold GetDropletGuid. sends_at_most Hrec.
  - intros guid. unfold GetTask. sends_at_most Hrec.
  - intros command name droplet appGuid. unfold RunTask. sends_at_most Hrec.
  - intros appGuid. unfold GetEnvironmentVariables. sends_at_most Hrec.
  - intros appGuid. unfold GetPackageGuid. sends_at_most Hrec.
Qed.

End NoRetry.

Section RequestsExamples.
#[local] Existing Instances simple_NetURL simple_Reader simple_Process_page
  simple_ProcessStats_page simple_Task_page simple_Task simple_AppsResult
  simple_DropletResult simple_TaskStatus simple_DropletLinks
  simple_PackageResult simple_EnvResult simple_CreateTaskBody
  simple_RunTaskBody.

Lemma every_request_carries_the_context_witness :
  recording (Client.doer example.task_client)
  ∧ ∃ r w', CreateTask 3 example.task_client (context.WithCancelAt 5)
              "some-command" 1000000
              (Script.start [Ok example.accepted; Ok example.still_running;
                             Ok example.succeeded] 0) = Some (r, w')
          ∧ bound_to (context.WithCancelAt 5) (Script.requests w').
Proof.
  split; [exact scripted_Do_recording|].
  destruct (every_request_carries_the_context example.task_client
              (context.WithCancelAt 5) scripted_Do_recording)
    as (_ & _ & _ & _ & _ & _ & HCreateTask & _).
  destruct (CreateTask 3 example.task_client (context.WithCancelAt 5)
              "some-command" 1000000
              (Script.start [Ok example.accepted; Ok example.still_running;
                             Ok example.succeeded] 0))
    as [[r w']|] eqn:Hrun; [|vm_compute in Hrun; discriminate].
  destruct (HCreateTask _ _ _ _ _ _ Hrun) as (new & Hnew & Hbound).
  exists r, w'. split; [reflexivity|]. now rewrite Hnew.
Defined.

Lemma list_operations_keep_to_their_path_witness :
  recording (Client.doer example.client)
  ∧ ∃ r w', ListTasks 2 example.client context.Background "some-guid" ∅
              (Script.start
                 (OK_200 <$> [json_text "{'pagination':{'next':{'href':'http://some-addr.com/v3/tasks?page=2'}}}";
                              json_text "{}"]) 0) = Some (r, w')
          ∧ plain_GETs_of "/v3/apps/some-guid/tasks" (Script.requests w').
Proof.
  split; [exact scripted_Do_recording|].
  destruct (list_operations_keep_to_their_path example.client
              context.Background scripted_Do_recording) as (_ & _ & HListTasks).
  destruct (ListTasks 2 example.client context.Background "some-guid" ∅
              (Script.start
                 (OK_200 <$> [json_text "{'pagination':{'next':{'href':'http://some-addr.com/v3/tasks?page=2'}}}";
                              json_text "{}"]) 0))
    as [[r w']|] eqn:Hrun; [|vm_compute in Hrun; discriminate].
  destruct (HListTasks _ _ _ _ _ _ Hrun) as (new & Hnew & Hplain).
  exists r, w'. split; [reflexivity|]. now rewrite Hnew.
Defined.

Lemma single_fetches_do_not_retry_witness :
  recording (Client.doer example.client)
  ∧ ∃ r w', GetPackageGuid example.client context.Background "app-guid"
              (Script.start
                 [OK_200 (json_text "{'links':{'package':{'href':'https://xxx.1'}}}");
                  Ok example.server_error; Ok example.server_error] 0)
            = Some (r, w')
          ∧ at_most 2 (Script.requests w').
Proof.
  split; [exact scripted_Do_recording|].
  destruct (single_fetches_do_not_retry example.client
              context.Background scripted_Do_recording)
    as (_ & _ & _ & _ & _ & HGetPackageGuid).
  destruct (GetPackageGuid example.client context.Background "app-guid"
              (Script.start
                 [OK_200 (json_text "{'links':{'package':{'href':'https://xxx.1'}}}");
                  Ok example.server_error; Ok example.server_error] 0))
    as [[r w']|] eqn:Hrun; [|vm_compute in Hrun; discriminate].
  destruct (HGetPackageGuid _ _ _ _ Hrun) as (new & Hnew & Hfew).
  exists r, w'. split; [reflexivity|]. now rewrite Hnew.
Defined.

End RequestsExamples.

(** ** The status check and the link rewriting on the exchanges of the test suite *)

Section MoreExamples.
#[local] Existing Instances simple_NetURL simple_Reader simple_Process_page
  simple_ProcessStats_page simple_Task_page simple_Task simple_AppsResult
  simple_DropletResult simple_TaskStatus simple_DropletLinks
  simple_PackageResult simple_EnvResult simple_CreateTaskBody
  simple_RunTaskBody.

Lemma unexpected_status_is_an_error_witness :
  CreateTask 1 example.task_client context.Background "some-command" 1000000
    (Script.start [Ok (example.response 500 "")] 0)
  = Some (Err (errors_New "unexpected status code 500: "),
          {| Script.responses := [];
             Script.requests := [example.create_some_command];
             Script.clock := 0 |})
  ∧ fst <$> GetAppGuid example.client context.Background "some-name"
              (Script.start [Ok (example.response 404 "{'code': 10000}")] 0)
    = Some (Err (errors_New
                   ("unexpected response 404: " +:+ json_text "{'code': 10000}")))
  ∧ fst <$> GetAppGuid (reader := reset_Reader) example.client
              context.Background "some-name"
              (Script.start [Ok (example.response 404 "{'code': 10000}")] 0)
    = Some (Err (io_Error "connection reset by peer")).
Proof.
  split; [|split].
  - destruct (unexpected_status_is_an_error example.task_client
                context.Background (example.URL "http" "some-addr.com" "" "")
                (example.response 500 "") 1
                (Script.start [Ok (example.response 500 "")] 0)
                {| Script.responses := [];
                   Script.requests := [example.create_some_command];
                   Script.clock := 0 |})
      as (_ & _ & _ & _ & _ & _ & HCreateTask & _).
    etransitivity;
      [apply (HCreateTask "some-command" 1000000
                (json_text "{'command':'some-command'}"));
         [reflexivity|reflexivity|reflexivity|discriminate]
      |vm_compute; reflexivity].
  - destruct (unexpected_status_is_an_error example.client
                context.Background
                (example.URL "http" "some-addr.com" "/v2/apps"
                   "q=name%3Asome-name&q=space_guid%3Aspace-guid")
                (example.response 404 "{'code': 10000}") 1
                (Script.start [Ok (example.response 404 "{'code': 10000}")] 0)
                (scripted_Do
                   (GET (example.URL "http" "some-addr.com" "/v2/apps"
                           "q=name%3Asome-name&q=space_guid%3Aspace-guid")
                      Accept_json None context.Background)
                   (Script.start [Ok (example.response 404 "{'code': 10000}")] 0)).2)
      as (_ & _ & _ & HGetAppGuid & _).
    rewrite (HGetAppGuid "some-name");
      [vm_compute; reflexivity|reflexivity|reflexivity|discriminate].
  - destruct (unexpected_status_is_an_error (reader := reset_Reader)
                example.client context.Background
                (example.URL "http" "some-addr.com" "/v2/apps"
                   "q=name%3Asome-name&q=space_guid%3Aspace-guid")
                (example.response 404 "{'code': 10000}") 1
                (Script.start [Ok (example.response 404 "{'code': 10000}")] 0)
                (scripted_Do
                   (GET (example.URL "http" "some-addr.com" "/v2/apps"
                           "q=name%3Asome-name&q=space_guid%3Aspace-guid")
                      Accept_json None context.Background)
                   (Script.start [Ok (example.response 404 "{'code': 10000}")] 0)).2)
      as (_ & _ & _ & HGetAppGuid & _).
    rewrite (HGetAppGuid "some-name");
      [reflexivity|reflexivity|reflexivity|discriminate].
Defined.

Lemma GetTask_RunTask_rewrite_links_witness :
  (∃ task w', GetTask example.client context.Background "task-guid"
                (Script.start [OK_200 example.secure_task_body] 0)
              = Some (Ok task, w')
            ∧ Task.Links task !! "self"
              = Some {| Links.Href := "http://some-addr.com/v3/tasks/task-guid";
                        Links.Method := "GET" |})
  ∧ (∃ task w', RunTask example.task_client context.Background "some-command"
                  "" "" ""
                  (Script.start
                     [Ok (example.response 202
                            "{'guid':'some-guid','links':{'cancel':{'href':'https://something.url','method':'POST'}}}")] 0)
                = Some (Ok task, w')
              ∧ Task.Links task !! "cancel"
                = Some {| Links.Href := "http://something.url";
                          Links.Method := "POST" |}).
Proof.
  split.
  - destruct (simple_Task example.secure_task_body) as [decoded|] eqn:Hdecoded;
      [|vm_compute in Hdecoded; discriminate].
    destruct (GetTask_RunTask_rewrite_links example.client context.Background
                decoded {| http.Response.StatusCode := 200; http.Response.Body := example.secure_task_body |}
                (example.URL "http" "some-addr.com" "" "")
                (Script.start [OK_200 example.secure_task_body] 0)
                (scripted_Do
                   (GET (example.URL "http" "some-addr.com" "/v3/tasks/task-guid" "")
                      Accept_json (Some "") context.Background)
                   (Script.start [OK_200 example.secure_task_body] 0)).2)
      as (HGetTask & _); [reflexivity|exact Hdecoded|].
    destruct (HGetTask "task-guid") as (task & Hrun & _ & _ & Hlinks);
      [reflexivity..|].
    exists task. eexists. split; [exact Hrun|].
    destruct (Hlinks "self"
                {| Links.Href := "https://some-addr.com/v3/tasks/task-guid";
                   Links.Method := "" |})
      as (href & Hlink & Hhref & _).
    { injection Hdecoded as <-. vm_compute. reflexivity. }
    rewrite Hlink.
    rewrite (Hhref "" "://some-addr.com/v3/tasks/task-guid");
      [reflexivity|reflexivity|simpl; lia].
  - destruct (simple_Task (json_text "{'guid':'some-guid','links':{'cancel':{'href':'https://something.url','method':'POST'}}}"))
      as [decoded|] eqn:Hdecoded; [|vm_compute in Hdecoded; discriminate].
    destruct (GetTask_RunTask_rewrite_links example.task_client
                context.Background decoded
                (example.response 202
                   "{'guid':'some-guid','links':{'cancel':{'href':'https://something.url','method':'POST'}}}")
                (example.URL "http" "some-addr.com" "" "")
                (Script.start
                   [Ok (example.response 202
                          "{'guid':'some-guid','links':{'cancel':{'href':'https://something.url','method':'POST'}}}")] 0)
                (scripted_Do example.create_some_command
                   (Script.start
                      [Ok (example.response 202
                             "{'guid':'some-guid','links':{'cancel':{'href':'https://something.url','method':'POST'}}}")] 0)).2)
      as (_ & HRunTask); [reflexivity|exact Hdecoded|].
    destruct (HRunTask "some-command" "" "" ""
                (json_text "{'command':'some-command'}"))
      as (task & Hrun & _ & _ & Hlinks); [reflexivity..|].
    exists task. eexists. split; [exact Hrun|].
    destruct (Hlinks "cancel"
                {| Links.Href := "https://something.url";
                   Links.Method := "POST" |})
      as (href & Hlink & Hhref & _).
    { injection Hdecoded as <-. vm_compute. reflexivity. }
    rewrite Hlink.
    rewrite (Hhref "" "://something.url");
      [reflexivity|reflexivity|simpl; lia].
Defined.

End MoreExamples.

(** ** The interval between two polls *)

Section Interval.
Context {W : Type} `{!Clock W} `{!NetURL} `{!Decoder TaskStatus.t}
        `{!Marshaler CreateTaskBody.t}.
Variable c : Client.t W.

(** [time.Sleep(d)] pauses for at least [d]; time does not run backwards
    while the transport works. *)
Hypothesis Sleep_at_least :
  ∀ d w, time_Now w + Z.max 0 d ≤ time_Now (time_Sleep d w).
Hypothesis Do_monotone :
  ∀ req w, time_Now w ≤ time_Now (Client.doer c req w).2.

(** X9.  With any transport and any context, also one that is cancelled
    already: once the POST of [CreateTask] has been answered 202 with a task
    that is running, the call does not return before the interval has
    passed since that answer, however it ends. *)
Theorem CreateTask_returns_after_the_interval (ctx : context.Context)
    (command : string) (interval : time.Duration) (fuel : nat)
    (u0 : url.URL) (marshalled : string) (post : http.Response.t)
    (e : TaskStatus.t) (w w1 w' : W) (r : result unit) :
  url_Parse (Client.addr c) = Ok u0 →
  json_Marshal {| CreateTaskBody.Command := command;
                  CreateTaskBody.DropletGuid := "" |} = Ok marshalled →
  Client.doer c
    (POST (url.with_Path u0 ("/v3/apps/" +:+ Client.appGuid c +:+ "/tasks"))
       marshalled ctx) w = (Ok post, w1) →
  http.Response.StatusCode post = 202 →
  json_Decode (http.Response.Body post) = Ok e →
  TaskStatus.State e = "RUNNING" →
  CreateTask fuel c ctx command interval w = Some (r, w') →
  time_Now w1 + Z.max 0 interval ≤ time_Now w'.
Proof.
  intros Hu0 Hbody Hdo Hstatus He Hstate. unfold CreateTask. go_unfold.
  rewrite Hu0, Hbody, Hdo. rewrite decide_False by (intros ?; congruence).
  now apply (CreateTask_loop_waits_out_the_interval c Sleep_at_least Do_monotone
               fuel ctx interval post e).
Qed.

End Interval.

Section IntervalExamples.
#[local] Existing Instances simple_NetURL simple_TaskStatus simple_CreateTaskBody.

Lemma CreateTask_returns_after_the_interval_witness :
  ∃ r w', CreateTask 2 example.task_client (context.WithCancelAt 0)
            "some-command" 10
            (Script.start [Ok example.accepted; Ok example.succeeded] 0)
          = Some (r, w')
        ∧ 10 ≤ Script.clock w'.
Proof.
  assert (Hsleep : ∀ d (w : Script.t),
            time_Now w + Z.max 0 d ≤ time_Now (time_Sleep d w))
    by (intros d w; cbn; lia).
  assert (Hdo : ∀ req (w : Script.t),
            time_Now w ≤ time_Now (Client.doer example.task_client req w).2).
  { intros req w. cbn. unfold scripted_Do.
    destruct (Script.responses w); cbn; lia. }
  destruct (CreateTask 2 example.task_client (context.WithCancelAt 0)
              "some-command" 10
              (Script.start [Ok example.accepted; Ok example.succeeded] 0))
    as [[r w']|] eqn:Hrun; [|vm_compute in Hrun; discriminate].
  exists r, w'. split; [reflexivity|].
  eapply Z.le_trans; cycle 1.
  - apply (CreateTask_returns_after_the_interval example.task_client
             Hsleep Hdo (context.WithCancelAt 0) "some-command" 10 2
             (example.URL "http" "some-addr.com" "" "")
             (json_text "{'command':'some-command'}") example.accepted
             (example.status "RUNNING" "https://xx.succeeded")
             (Script.start [Ok example.accepted; Ok example.succeeded] 0)
             (scripted_Do
                (POST (example.URL "http" "some-addr.com"
                         "/v3/apps/some-guid/tasks" "")
                   (json_text "{'command':'some-command'}")
                   (context.WithCancelAt 0))
                (Script.start [Ok example.accepted; Ok example.succeeded] 0)).2
             w' r);
      try (vm_compute; reflexivity).
    exact Hrun.
  - vm_compute. discriminate.
Defined.

End IntervalExamples.

(** ** A poll that fails *)

Section FailingPoll.
Context `{!NetURL} `{!Decoder TaskStatus.t} `{!Marshaler CreateTaskBody.t}.
Implicit Types (c : Client.t Script.t) (ctx : context.Context).

Lemma CreateTask_loop_running c ctx interval exchange :
  Client.doer c = scripted_Do →
  ∀ resp rest log now fuel,
  running resp exchange →
  CreateTask_loop (length exchange + fuel) c ctx interval resp
    {| Script.responses := (Ok <$> exchange.*2) ++ rest;
       Script.requests := log; Script.clock := now |}
  = CreateTask_loop fuel c ctx interval (held resp exchange)
      {| Script.responses := rest;
         Script.requests := log ++ ((λ u, GET u ∅ None ctx) <$> exchange.*1.*2);
         Script.clock := now + Z.of_nat (length exchange) * Z.max 0 interval |}.
Proof.
  intros Hdoer. induction exchange as [|[[e u] next] exchange IH];
    intros resp rest log now fuel Hrunning.
  - cbn. now rewrite app_nil_r, Z.add_0_r.
  - destruct Hrunning as (He & Hstate & Hu & Hrunning).
    cbn [length Nat.add CreateTask_loop]. go_unfold.
    rewrite He, decide_True by done. rewrite Hu, Hdoer.
    unfold scripted_Do. cbn.
    rewrite (IH next rest _ _ fuel Hrunning).
    assert (Hclock : now + Z.max 0 interval
                     + Z.of_nat (length exchange) * Z.max 0 interval
                     = now + Z.pos (Pos.of_succ_nat (length exchange))
                             * Z.max 0 interval)
      by (generalize (Z.max 0 interval); lia).
    rewrite Hclock, <- (assoc_L (++)). reflexivity.
Qed.

Lemma CreateTask_loop_fails c ctx interval resp answers e sent left slept
    log now fuel :
  Client.doer c = scripted_Do →
  poll_fails ctx resp answers e sent left slept →
  CreateTask_loop (S fuel) c ctx interval resp
    {| Script.responses := answers; Script.requests := log; Script.clock := now |}
  = Some (Err e,
          {| Script.responses := left; Script.requests := log ++ sent;
             Script.clock := now + Z.of_nat slept * Z.max 0 interval |}).
Proof.
  intros Hdoer Hfails. cbn [CreateTask_loop]. go_unfold.
  destruct Hfails as [e answers He|env e answers He Hstate Hu
                     |env u e left He Hstate Hu]; rewrite He.
  - now rewrite app_nil_r, Z.add_0_r.
  - rewrite decide_True by done. rewrite Hu. cbn.
    rewrite app_nil_r. repeat f_equal. lia.
  - rewrite decide_True by done. rewrite Hu, Hdoer. cbn.
    repeat f_equal. lia.
Qed.

(** X10.  [CreateTask] does not retry a poll.  When, after the POST and any
    number of polls that said RUNNING, the response it holds does not
    decode, or says RUNNING with a self link that does not parse, or the
    transport reports an error for the next GET, the call ends there with
    that error; it has sent the POST, one GET per envelope that said RUNNING
    before, and at most the failing GET, and has slept once per GET and once
    more before finding a self link that does not parse. *)
Theorem CreateTask_fails_with_the_first_error c ctx (command : string)
    (interval : time.Duration) (u0 : url.URL) (marshalled : string)
    (post : http.Response.t)
    (exchange : list (TaskStatus.t * url.URL * http.Response.t))
    (answers left : list (result http.Response.t)) (e : error)
    (sent : list http.Request.t) (slept : nat) (now : time.Time) (fuel : nat) :
  Client.doer c = scripted_Do →
  url_Parse (Client.addr c) = Ok u0 →
  json_Marshal {| CreateTaskBody.Command := command;
                  CreateTaskBody.DropletGuid := "" |} = Ok marshalled →
  http.Response.StatusCode post = 202 →
  running post exchange →
  poll_fails ctx (held post exchange) answers e sent left slept →
  (length exchange < fuel)%nat →
  CreateTask fuel c ctx command interval
    (Script.start (Ok post :: (Ok <$> exchange.*2) ++ answers) now)
  = Some (Err e,
          {| Script.responses := left;
             Script.requests :=
               POST (url.with_Path u0 ("/v3/apps/" +:+ Client.appGuid c +:+ "/tasks"))
                 marshalled ctx
               :: ((λ u, GET u ∅ None ctx) <$> exchange.*1.*2) ++ sent;
             Script.clock :=
               now + Z.of_nat (length exchange + slept) * Z.max 0 interval |}).
Proof.
  intros Hdoer Hu0 Hbody Hstatus Hrunning Hfails Hfuel.
  unfold CreateTask, Script.start. go_unfold.
  rewrite Hu0, Hbody, Hdoer. unfold scripted_Do at 1. cbn.
  rewrite decide_False by (intros ?; congruence).
  replace fuel with (length exchange + S (fuel - S (length exchange)))%nat by lia.
  rewrite (CreateTask_loop_running c ctx interval exchange Hdoer _ _ _ _ _ Hrunning).
  rewrite (CreateTask_loop_fails c ctx interval _ _ _ _ _ _ _ _ _ Hdoer Hfails).
  do 3 f_equal. generalize (Z.max 0 interval). lia.
Qed.

End FailingPoll.

Section FailingPollExamples.
#[local] Existing Instances simple_NetURL simple_TaskStatus simple_CreateTaskBody.

Lemma CreateTask_fails_with_the_first_error_witness :
  CreateTask 2 example.task_client context.Background "some-command" 10
    (Script.start [Ok example.accepted; Ok (example.response 200 "invalid")] 0)
  = Some (Err (json_Error "invalid JSON"),
          {| Script.responses := [];
             Script.requests :=
               [example.create_some_command;
                GET (example.URL "http" "xx.succeeded" "" "") ∅ None
                  context.Background];
             Script.clock := 10 |})
  ∧ CreateTask 1 example.task_client context.Background "some-command" 10
      (Script.start [Ok example.accepted; Err (doer_Error "some-error")] 0)
    = Some (Err (doer_Error "some-error"),
            {| Script.responses := [];
               Script.requests :=
                 [example.create_some_command;
                  GET (example.URL "http" "xx.succeeded" "" "") ∅ None
                    context.Background];
               Script.clock := 10 |}).
Proof.
  split.
  - apply (CreateTask_fails_with_the_first_error example.task_client
             context.Background "some-command" 10
             (example.URL "http" "some-addr.com" "" "")
             (json_text "{'command':'some-command'}") example.accepted
             [(example.status "RUNNING" "https://xx.succeeded",
               example.URL "http" "xx.succeeded" "" "",
               example.response 200 "invalid")]
             [] [] _ [] 0 0 2); try reflexivity.
    + repeat split; vm_compute; reflexivity.
    + apply poll_fails_to_decode. vm_compute; reflexivity.
    + simpl; lia.
  - apply (CreateTask_fails_with_the_first_error example.task_client
             context.Background "some-command" 10
             (example.URL "http" "some-addr.com" "" "")
             (json_text "{'command':'some-command'}") example.accepted
             [] [Err (doer_Error "some-error")] [] _
             [GET (example.URL "http" "xx.succeeded" "" "") ∅ None
                context.Background] 1 0 1); try reflexivity.
    + apply (poll_fails_in_transport _ _
               (example.status "RUNNING" "https://xx.succeeded"));
        vm_compute; reflexivity.
    + simpl; lia.
Defined.

End FailingPollExamples.

(** ** What a call returns with a nil error *)

(* [H] says that a method has returned a value: every step of the method
   before the return has gone through, which leaves the answers of its
   checks in the context. *)
Ltac returned H :=
  go_unfold;
  repeat match type of H with
         | context [match ?x with _ => _ end] =>
             let E := fresh "E" in destruct x eqn:E; try discriminate H
         | context [if ?b then _ else _] =>
             let E := fresh "E" in destruct b eqn:E; try discriminate H
         end.

Section ReturnedValues.
Context {W : Type} `{!NetURL} `{!Reader}.
Context `{!Decoder Task.t} `{!Decoder DropletResult.t}
        `{!Decoder DropletLinks.t} `{!Decoder PackageResult.t}
        `{!Marshaler RunTaskBody.t}.
Implicit Types (c : Client.t W) (ctx : context.Context) (w : W).

(** X11.  Over any transport, a droplet guid that [GetDropletGuid] returns
    with a nil error is not empty, and neither is the package guid nor the
    download link that [GetPackageGuid] returns with a nil error. *)
Theorem returned_guids_are_not_empty c ctx (appGuid : string) w w' :
  (∀ guid, GetDropletGuid c ctx appGuid w = Some (Ok guid, w') → guid ≠ "")
  ∧ (∀ guid download,
       GetPackageGuid c ctx appGuid w = Some (Ok (guid, download), w') →
       guid ≠ "" ∧ download ≠ "").
Proof.
  split.
  - intros guid Hrun. unfold GetDropletGuid in Hrun. returned Hrun.
    injection Hrun as <- _. assumption.
  - intros guid download Hrun. unfold GetPackageGuid in Hrun. returned Hrun.
    injection Hrun as <- <- _.
    match goal with
    | Hempty : ¬ (_ ∨ ?href = "") |- _ =>
        split;
        [ intros Hguid; apply Hempty; left; exact Hguid
        | intros Hdl; apply Hempty; right;
          exact (proj1 (to_http_empty href) Hdl) ]
    end.
Qed.

(** X12.  Over any transport, every link of a task that [GetTask] or
    [RunTask] returns with a nil error names a method. *)
Theorem returned_task_links_name_a_method c ctx (task : Task.t) w w' :
  (∀ guid, GetTask c ctx guid w = Some (Ok task, w') →
     map_Forall (λ _ l, Links.Method l ≠ "") (Task.Links task))
  ∧ (∀ command name droplet appGuid,
       RunTask c ctx command name droplet appGuid w = Some (Ok task, w') →
       map_Forall (λ _ l, Links.Method l ≠ "") (Task.Links task)).
Proof.
  assert (Hlinks : ∀ links : gmap string Links.t,
            map_Forall (λ _ l, Links.Method l ≠ "") (http_link <$> links)).
  { intros links k l. rewrite lookup_fmap.
    destruct (links !! k) as [l0|]; [|discriminate].
    intros [= <-]. unfold http_link; cbn. now case_decide. }
  split.
  - intros guid Hrun. unfold GetTask in Hrun. returned Hrun.
    injection Hrun as <- _. apply Hlinks.
  - intros command name droplet appGuid Hrun. unfold RunTask in Hrun.
    returned Hrun. injection Hrun as <- _. apply Hlinks.
Qed.

End ReturnedValues.

Section ReturnedValuesExamples.
#[local] Existing Instances simple_NetURL simple_Reader simple_Task
  simple_DropletResult simple_DropletLinks simple_PackageResult
  simple_RunTaskBody.

Lemma returned_guids_are_not_empty_witness :
  (∃ guid w',
     GetDropletGuid example.client context.Background "app-guid"
       (Script.start [OK_200 (json_text "{'guid':'droplet-guid'}")] 0)
     = Some (Ok guid, w')
     ∧ guid ≠ "")
  ∧ (∃ guid download w',
       GetPackageGuid example.client context.Background "app-guid"
         (Script.start
            [OK_200 (json_text "{'links':{'package':{'href':'https://xxx.1'}}}");
             OK_200 (json_text "{'guid':'package-guid','links':{'download':{'href':'https://xxx.2'}}}")]
            0)
       = Some (Ok (guid, download), w')
       ∧ guid ≠ "" ∧ download ≠ "").
Proof.
  split.
  - destruct (GetDropletGuid example.client context.Background "app-guid"
                (Script.start [OK_200 (json_text "{'guid':'droplet-guid'}")] 0))
      as [[[guid|e] w']|] eqn:Hrun; [|vm_compute in Hrun; discriminate..].
    exists guid, w'. split; [reflexivity|].
    exact (proj1 (returned_guids_are_not_empty example.client
                    context.Background "app-guid" _ w') guid Hrun).
  - destruct (GetPackageGuid example.client context.Background "app-guid"
                (Script.start
                   [OK_200 (json_text "{'links':{'package':{'href':'https://xxx.1'}}}");
                    OK_200 (json_text "{'guid':'package-guid','links':{'download':{'href':'https://xxx.2'}}}")]
                   0))
      as [[[[guid download]|e] w']|] eqn:Hrun; [|vm_compute in Hrun; discriminate..].
    exists guid, download, w'. split; [reflexivity|].
    exact (proj2 (returned_guids_are_not_empty example.client
                    context.Background "app-guid" _ w') guid download Hrun).
Defined.

Lemma returned_task_links_name_a_method_witness :
  (∃ task w',
     GetTask example.client context.Background "task-guid"
       (Script.start [OK_200 example.secure_task_body] 0)
     = Some (Ok task, w')
     ∧ map_Forall (λ _ l, Links.Method l ≠ "") (Task.Links task))
  ∧ (∃ task w',
       RunTask example.task_client context.Background "some-command" "" "" ""
         (Script.start
            [Ok (example.response 202
                   "{'guid':'some-guid','links':{'cancel':{'href':'https://something.url'}}}")] 0)
       = Some (Ok task, w')
       ∧ map_Forall (λ _ l, Links.Method l ≠ "") (Task.Links task)).
Proof.
  split.
  - destruct (GetTask example.client context.Background "task-guid"
                (Script.start [OK_200 example.secure_task_body] 0))
      as [[[task|e] w']|] eqn:Hrun; [|vm_compute in Hrun; discriminate..].
    exists task, w'. split; [reflexivity|].
    exact (proj1 (returned_task_links_name_a_method example.client
                    context.Background task _ w') "task-guid" Hrun).
  - destruct (RunTask example.task_client context.Background "some-command"
                "" "" ""
                (Script.start
                   [Ok (example.response 202
                          "{'guid':'some-guid','links':{'cancel':{'href':'https://something.url'}}}")] 0))
      as [[[task|e] w']|] eqn:Hrun; [|vm_compute in Hrun; discriminate..].
    exists task, w'. split; [reflexivity|].
    exact (proj2 (returned_task_links_name_a_method example.task_client
                    context.Background task _ w') "some-command" "" "" "" Hrun).
Defined.

End ReturnedValuesExamples.
